(** * Dynamic cloud-provider form, version 5: builder and submission processor

    A shallow embedding of [js_dynamic_g_form_current.js].  The script has two
    halves that meet only through question titles:

    - the builder ([initializeFormV5] and the functions it calls) reads the
      tabs of a spreadsheet, keeps those that qualify as cloud providers, and
      rebuilds a form with one page per provider and forward-only navigation;
    - the processor ([onFormSubmitV5], [saveSubmissionV5]) walks the answers of
      one response and appends one row per visited provider to the
      [V5_Responses] tab.

    Conventions of the embedding.

    - A JavaScript string is a [string]: a sequence of code units, here the
      code units below 256.
    - An object used as a map is the list of its own properties in creation
      order ([obj]); [Object_keys] lists array-index keys first, in numeric
      order, the way the language does.
    - A thrown exception is the [Throw] case of [res]; [try]/[catch] keeps the
      effects performed before the throw.
    - The form surface is explicit state ([Form]) threaded through the builder;
      its operations are taken to succeed.  The spreadsheet the builder reads
      is a record of call outcomes, each of which may throw.
    - The processor runs on a [World]: the tabs it writes to and the console.
      Writing a row is taken to succeed.  The console output of the builder
      is not part of the model.
    - The clock read by [new Date()] is an argument of the processor. *)

From Stdlib Require Import List String Ascii Bool Arith NArith ZArith Lia.
From Stdlib Require Import Permutation Sorted.
Import ListNotations.
Open Scope string_scope.
Open Scope list_scope.

Set Implicit Arguments.

(* ================================================================== *)
(** * Part I. Definitions *)
(* ================================================================== *)

(** ** Strings *)

Module JS.

(** [s.length - n] trailing code units of [s]. *)
Fixpoint skip (n : nat) (s : string) : string :=
  match n, s with
  | O, _ => s
  | S _, EmptyString => EmptyString
  | S n', String _ s' => skip n' s'
  end.

(** [s.startsWith(pat)]. *)
Definition startsWith (s pat : string) : bool := String.prefix pat s.

(** [s.includes(pat)]. *)
Fixpoint includes (s pat : string) : bool :=
  startsWith s pat ||
  match s with
  | EmptyString => false
  | String _ s' => includes s' pat
  end.

(** [s.replace(pat, rep)] for a string pattern: the first occurrence only.
    The replacement is taken literally (the script passes the empty string). *)
Fixpoint replace (s pat rep : string) : string :=
  if startsWith s pat then rep ++ skip (String.length pat) s
  else match s with
       | EmptyString => EmptyString
       | String c s' => String c (replace s' pat rep)
       end.

(** White space and line terminators among the code units below 256. *)
Definition is_white_space (c : ascii) : bool :=
  match nat_of_ascii c with
  | 9 | 10 | 11 | 12 | 13 | 32 | 160 => true
  | _ => false
  end.

Fixpoint trimStart (s : string) : string :=
  match s with
  | EmptyString => EmptyString
  | String c s' => if is_white_space c then trimStart s' else s
  end.

Fixpoint trimEnd (s : string) : string :=
  match s with
  | EmptyString => EmptyString
  | String c s' =>
      let r := trimEnd s' in
      if is_white_space c && (r =? "") then EmptyString else String c r
  end.

(** [s.trim()]. *)
Definition trim (s : string) : string := trimEnd (trimStart s).

Definition lower_char (c : ascii) : ascii :=
  let n := nat_of_ascii c in
  if (((65 <=? n) && (n <=? 90)) || ((192 <=? n) && (n <=? 222) && negb (n =? 215)))%nat
  then ascii_of_nat (n + 32) else c.

(** [s.toLowerCase()]. *)
Fixpoint toLowerCase (s : string) : string :=
  match s with
  | EmptyString => EmptyString
  | String c s' => String (lower_char c) (toLowerCase s')
  end.

(** [l.join(sep)] on an array of strings. *)
Fixpoint join (sep : string) (l : list string) : string :=
  match l with
  | [] => ""
  | [x] => x
  | x :: l' => x ++ sep ++ join sep l'
  end.

(** ** Exceptions *)

Inductive res (A : Type) : Type :=
| Ok (a : A)
| Throw (e : string).

Arguments Ok {A} a.
Arguments Throw {A} e.

(** ** Objects used as maps *)

(** The own enumerable properties of an object, in creation order. *)
Definition obj (A : Type) : Type := list (string * A).

Definition obj_empty {A : Type} : obj A := [].

(** [o[k]] for an own property. *)
Fixpoint obj_get {A : Type} (o : obj A) (k : string) : option A :=
  match o with
  | [] => None
  | (k', v) :: o' => if k' =? k then Some v else obj_get o' k
  end.

Fixpoint obj_put {A : Type} (o : obj A) (k : string) (v : A) : obj A :=
  match o with
  | [] => [(k, v)]
  | (k', v') :: o' => if k' =? k then (k', v) :: o' else (k', v') :: obj_put o' k v
  end.

(** [o[k] = v].  An existing property keeps its place; a new one is created
    last.  Assigning to [__proto__] runs the inherited accessor and creates no
    own property. *)
Definition obj_set {A : Type} (o : obj A) (k : string) (v : A) : obj A :=
  if k =? "__proto__" then o else obj_put o k v.

Definition digit (c : ascii) : option N :=
  let n := N_of_ascii c in
  if ((48 <=? n) && (n <=? 57))%N then Some (n - 48)%N else None.

Fixpoint digits (acc : N) (s : string) : option N :=
  match s with
  | EmptyString => Some acc
  | String c s' =>
      match digit c with
      | Some d => digits (10 * acc + d)%N s'
      | None => None
      end
  end.

(** A key is an array index when it is the canonical decimal form of an
    integer below 2^32 - 1. *)
Definition array_index (k : string) : option N :=
  match k with
  | EmptyString => None
  | String c rest =>
      if (c =? "0")%char then (if rest =? "" then Some 0%N else None)
      else match digits 0 k with
           | Some n => if (n <? 4294967295)%N then Some n else None
           | None => None
           end
  end.

Definition is_array_index (k : string) : bool :=
  match array_index k with Some _ => true | None => false end.

Fixpoint insert_index (x : N * string) (l : list (N * string)) : list (N * string) :=
  match l with
  | [] => [x]
  | y :: l' => if (fst x <=? fst y)%N then x :: l else y :: insert_index x l'
  end.

Definition sort_index (l : list (N * string)) : list (N * string) :=
  fold_right insert_index [] l.

Definition index_le (x y : N * string) : Prop := (fst x <= fst y)%N.

Fixpoint index_keys (ks : list string) : list (N * string) :=
  match ks with
  | [] => []
  | k :: ks' =>
      match array_index k with
      | Some n => (n, k) :: index_keys ks'
      | None => index_keys ks'
      end
  end.

(** The order in which own keys are listed: array indices ascending, then the
    other keys in creation order. *)
Definition own_key_order (ks : list string) : list string :=
  map snd (sort_index (index_keys ks)) ++ filter (fun k => negb (is_array_index k)) ks.

(** [Object.keys(o)]. *)
Definition Object_keys {A : Type} (o : obj A) : list string :=
  own_key_order (map fst o).

(** The own properties of an object filled by assignment: the keys are
    distinct and none of them is [__proto__]. *)
Definition well_formed {A : Type} (o : obj A) : Prop :=
  NoDup (map fst o) /\ ~ In "__proto__" (map fst o).

End JS.

Import JS.

(** ** The spreadsheet, as the builder sees it *)

Module Sheets.

(** What the script observes of a cell value: its truthiness and its
    conversion to a string. *)
Class JSValue (A : Type) : Type := {
  ToBoolean : A -> bool;
  ToString : A -> string
}.

#[global] Instance JSValue_string : JSValue string := {
  ToBoolean s := negb (s =? "");
  ToString s := s
}.

Section Host.
Context {cell : Type} `{JSValue cell}.

(** [sheet.getDataRange()] may throw; the range is the grid of its values,
    [getNumRows] its number of rows. *)
Definition Range : Type := list (list cell).

Record Sheet : Type := {
  getName : string;
  getDataRange : res Range
}.

Record Spreadsheet : Type := {
  getSheets : res (list Sheet);
  getSheetByName : string -> res (option Sheet)
}.

Definition getNumRows (r : Range) : nat := List.length r.
Definition getValues (r : Range) : list (list cell) := r.

(** [row[0]]: [None] is [undefined]. *)
Definition first_cell (row : list cell) : option cell := hd_error row.

(** [val && String(val).trim() !== ''] *)
Definition nonblank (val : option cell) : bool :=
  match val with
  | None => false
  | Some v => ToBoolean v && negb (trim (ToString v) =? "")
  end.

(** [String(value)] *)
Definition String_ (value : option cell) : string :=
  match value with
  | None => "undefined"
  | Some v => ToString v
  end.

End Host.

Arguments Range : clear implicits.
Arguments Sheet : clear implicits.
Arguments Spreadsheet : clear implicits.

(** A spreadsheet whose tabs are the given ones and whose calls all succeed.
    A tab with no rows still has the one-cell data range the host reports. *)
Definition workbook {cell : Type} (blank : cell) (tabs : list (string * list (list cell)))
  : Spreadsheet cell :=
  let sheet_of (t : string * list (list cell)) :=
    {| getName := fst t;
       getDataRange := Ok (match snd t with [] => [[blank]] | rows => rows end) |} in
  {| getSheets := Ok (map sheet_of tabs);
     getSheetByName := fun name =>
       Ok (option_map sheet_of (find (fun t => fst t =? name) tabs)) |}.

End Sheets.

Import Sheets.

(** ** The form surface *)

Module Forms.

Inductive ItemType : Type :=
| SECTION_HEADER | TEXT | PARAGRAPH_TEXT | PAGE_BREAK | MULTIPLE_CHOICE | CHECKBOX.

(** A choice of a select question: its label and, when it navigates, the id of
    the page-break item it jumps to. *)
Record Choice : Type := {
  choiceValue : string;
  gotoPage : option nat
}.

Record Item : Type := {
  itemId : nat;
  itemType : ItemType;
  title : string;
  helpText : string;
  required : bool;
  choices : list Choice
}.

(** The items of the form in order, and the next fresh item id. *)
Record Form : Type := {
  items : list Item;
  nextId : nat;
  publishedUrl : string;
  editUrl : string
}.

Definition with_items (f : Form) (l : list Item) (n : nat) : Form :=
  {| items := l; nextId := n; publishedUrl := publishedUrl f; editUrl := editUrl f |}.

(** Builder code: state passing over the form, with exceptions. *)
Definition M (A : Type) : Type := Form -> res A * Form.

Definition ret {A : Type} (a : A) : M A := fun f => (Ok a, f).

Definition bind {A B : Type} (m : M A) (k : A -> M B) : M B :=
  fun f => match m f with
           | (Ok a, f') => k a f'
           | (Throw e, f') => (Throw e, f')
           end.

Definition throw {A : Type} (e : string) : M A := fun f => (Throw e, f).

(** [try { m } catch (error) { h error }] *)
Definition try_catch {A : Type} (m : M A) (h : string -> M A) : M A :=
  fun f => match m f with
           | (Ok a, f') => (Ok a, f')
           | (Throw e, f') => h e f'
           end.

Declare Scope form_scope.
Delimit Scope form_scope with form.
Notation "x <- m ;; k" := (bind m (fun x => k))
  (at level 61, m at next level, right associativity) : form_scope.
Notation "m ;; k" := (bind m (fun _ => k))
  (at level 61, right associativity) : form_scope.
Open Scope form_scope.

(** [l.forEach((x, idx) => body)], [idx] counting from [i]. *)
Fixpoint forEach_from {A : Type} (i : nat) (l : list A) (body : A -> nat -> M unit) : M unit :=
  match l with
  | [] => ret tt
  | x :: l' => body x i ;; forEach_from (S i) l' body
  end.

Definition forEach {A : Type} (l : list A) (body : A -> M unit) : M unit :=
  forEach_from 0 l (fun x _ => body x).

(** [l.map(x => body)] where [body] runs builder code. *)
Fixpoint mapM {A B : Type} (l : list A) (body : A -> M B) : M (list B) :=
  match l with
  | [] => ret []
  | x :: l' => y <- body x ;; ys <- mapM l' body ;; ret (y :: ys)
  end.

(** [form.addXxxItem()]: a new item at the end, with a fresh id. *)
Definition addItem (t : ItemType) : M nat :=
  fun f =>
    let it := {| itemId := nextId f; itemType := t; title := ""; helpText := "";
                 required := false; choices := [] |} in
    (Ok (nextId f), with_items f (items f ++ [it]) (S (nextId f))).

Definition update (id : nat) (g : Item -> Item) : M unit :=
  fun f =>
    (Ok tt, with_items f (map (fun it => if itemId it =? id then g it else it)%nat (items f))
                       (nextId f)).

Definition with_title (t : string) (it : Item) : Item :=
  {| itemId := itemId it; itemType := itemType it; title := t;
     helpText := helpText it; required := required it; choices := choices it |}.

Definition with_helpText (t : string) (it : Item) : Item :=
  {| itemId := itemId it; itemType := itemType it; title := title it;
     helpText := t; required := required it; choices := choices it |}.

Definition with_required (b : bool) (it : Item) : Item :=
  {| itemId := itemId it; itemType := itemType it; title := title it;
     helpText := helpText it; required := b; choices := choices it |}.

Definition with_choices (cs : list Choice) (it : Item) : Item :=
  {| itemId := itemId it; itemType := itemType it; title := title it;
     helpText := helpText it; required := required it; choices := cs |}.

Definition setTitle (id : nat) (t : string) : M unit := update id (with_title t).

Definition setHelpText (id : nat) (t : string) : M unit := update id (with_helpText t).

Definition setRequired (id : nat) (b : bool) : M unit := update id (with_required b).

Definition setChoices (id : nat) (cs : list Choice) : M unit := update id (with_choices cs).

(** [item.createChoice(value, pageBreakItem)] *)
Definition createChoice (value : string) (page : nat) : Choice :=
  {| choiceValue := value; gotoPage := Some page |}.

(** [item.setChoiceValues(values)]: plain choices, no navigation. *)
Definition plain_choice (v : string) : Choice := {| choiceValue := v; gotoPage := None |}.

Definition setChoiceValues (id : nat) (values : list string) : M unit :=
  setChoices id (map plain_choice values).

Definition getItems : M (list Item) := fun f => (Ok (items f), f).

Definition deleteItem (it : Item) : M unit :=
  fun f => (Ok tt, with_items f (filter (fun x => negb (itemId x =? itemId it)%nat) (items f))
                              (nextId f)).

End Forms.

Import Forms.

(** ** The builder *)

Module Builder.

(** The outcome every entry point returns: [{success: true, data}] or
    [{success: false, error}]. *)
Inductive Result (D : Type) : Type :=
| Success (data : D)
| Failure (error : string).

Arguments Success {D} data.
Arguments Failure {D} error.

(** The test of [getAllCloudProvidersFromTabs] that skips system and response
    sheets. *)
Definition is_system_sheet (sheetName : string) : bool :=
  includes sheetName "Form Responses" ||
  includes sheetName "Responses" ||
  includes sheetName "_" ||
  includes (toLowerCase sheetName) "sheet".

Section Catalog.
Context {cell : Type} `{JSValue cell}.

(** The body of [sheets.forEach] in [getAllCloudProvidersFromTabs], over the
    sheets left to visit; a throw leaves the loop. *)
Fixpoint scan_sheets (sheets : list (Sheet cell)) (cloudProviders : list string)
  : res (list string) :=
  match sheets with
  | [] => Ok cloudProviders
  | sheet :: rest =>
      let sheetName := getName sheet in
      if is_system_sheet sheetName then scan_sheets rest cloudProviders
      else
        match getDataRange sheet with
        | Throw e => Throw e
        | Ok dataRange =>
            if (0 <? getNumRows dataRange)%nat then
              let firstColumnData :=
                filter nonblank (map first_cell (getValues dataRange)) in
              if (0 <? List.length firstColumnData)%nat
              then scan_sheets rest (cloudProviders ++ [sheetName])
              else scan_sheets rest cloudProviders
            else scan_sheets rest cloudProviders
        end
  end.

Definition getAllCloudProvidersFromTabs (spreadsheet : Spreadsheet cell) : list string :=
  match getSheets spreadsheet with
  | Throw _ => []
  | Ok sheets =>
      match scan_sheets sheets [] with
      | Ok cloudProviders => cloudProviders
      | Throw _ => []
      end
  end.

Definition loadTechnologiesFromSheet (spreadsheet : Spreadsheet cell) (sheetName : string)
  : list string :=
  match getSheetByName spreadsheet sheetName with
  | Throw _ => []
  | Ok None => []
  | Ok (Some sheet) =>
      match getDataRange sheet with
      | Throw _ => []
      | Ok dataRange =>
          if (getNumRows dataRange =? 0)%nat then []
          else
            map (fun value => trim (String_ value))
                (filter nonblank (map first_cell (getValues dataRange)))
      end
  end.

(** No call in the loop can throw ([loadTechnologiesFromSheet] catches its
    own), so the handler returning [{}] is never entered. *)
Definition loadAllCloudTechnologies (spreadsheet : Spreadsheet cell)
    (cloudProviders : list string) : obj (list string) :=
  fold_left
    (fun allData provider =>
       let technologies := loadTechnologiesFromSheet spreadsheet provider in
       if (0 <? List.length technologies)%nat
       then obj_set allData provider technologies
       else allData)
    cloudProviders obj_empty.

End Catalog.

(** The form operations below cannot throw, so the handlers that only log are
    left out around them. *)
Definition clearFormContent : M unit :=
  items <- getItems ;;
  forEach items (fun item => deleteItem item).

Definition createWelcomeSection : M unit :=
  welcomeHeader <- addItem SECTION_HEADER ;;
  nameQuestion <- addItem TEXT ;;
  setTitle nameQuestion "Full Name of a Padawan" ;;
  setHelpText nameQuestion "Enter full name" ;;
  setRequired nameQuestion true ;;
  nameQuestion1 <- addItem TEXT ;;
  setTitle nameQuestion1 "Project Name" ;;
  setHelpText nameQuestion1 "Enter the project name" ;;
  setRequired nameQuestion1 true.

Definition createCloudProviderSelection (cloudProviders : list string) : M nat :=
  cloudPageBreak <- addItem PAGE_BREAK ;;
  setTitle cloudPageBreak "Cloud Provider Selection" ;;
  cloudQuestion <- addItem MULTIPLE_CHOICE ;;
  setTitle cloudQuestion "Choose Your Cloud Provider" ;;
  setRequired cloudQuestion true ;;
  ret cloudQuestion.

(** [cloudSections[cloudProvider]]: the page break of a provider and its
    "Next step" question. *)
Record Section_ : Type := {
  pageBreak : nat;
  nextQuestion : nat
}.

(** The title given to the checkbox question of a provider. *)
Definition technology_title (cloudProvider : string) : string :=
  cloudProvider ++ " Technology Experience".

(** Reading a property whose value is used at once: [undefined] makes that
    use throw a [TypeError], raised here at the read. *)
Definition prop {A : Type} (o : obj A) (k : string) : M A :=
  match obj_get o k with
  | Some v => ret v
  | None => throw "TypeError"
  end.

Fixpoint sections_loop (allCloudData : obj (list string)) (keys : list string)
    (cloudSections : obj Section_) : M (obj Section_) :=
  match keys with
  | [] => ret cloudSections
  | cloudProvider :: rest =>
      technologies <- prop allCloudData cloudProvider ;;
      techPageBreak <- addItem PAGE_BREAK ;;
      setTitle techPageBreak (cloudProvider ++ " Technologies") ;;
      setHelpText techPageBreak
        ("Select all " ++ cloudProvider ++ " technologies you have experience with:") ;;
      techQuestion <- addItem CHECKBOX ;;
      setTitle techQuestion (technology_title cloudProvider) ;;
      setHelpText techQuestion
        ("Check all " ++ cloudProvider ++ " services and technologies you have used:") ;;
      setChoiceValues techQuestion technologies ;;
      setRequired techQuestion false ;;
      nextQuestion <- addItem MULTIPLE_CHOICE ;;
      setTitle nextQuestion "Next step" ;;
      setHelpText nextQuestion "Choose another cloud to evaluate, or submit the feedback." ;;
      setRequired nextQuestion true ;;
      sections_loop allCloudData rest
        (obj_set cloudSections cloudProvider
           {| pageBreak := techPageBreak; nextQuestion := nextQuestion |})
  end.

Definition createCloudTechnologySections (allCloudData : obj (list string))
  : M (obj Section_) :=
  try_catch
    (sections_loop allCloudData (Object_keys allCloudData) obj_empty)
    (fun _ => ret obj_empty).

Definition createFinalSubmissionPage : M nat :=
  finalPage <- addItem PAGE_BREAK ;;
  setTitle finalPage "Feedback Complete" ;;
  setHelpText finalPage
    "Thank you for completing the Padawan cloud technology skills questionnaire!" ;;
  commentsQuestion <- addItem PARAGRAPH_TEXT ;;
  setTitle commentsQuestion "Additional Comments (Optional)" ;;
  setHelpText commentsQuestion "Any additional information about your cloud experience:" ;;
  setRequired commentsQuestion false ;;
  ret finalPage.

(** [item.createChoice(p, cloudSections[p].pageBreak)] *)
Definition choice_to (cloudSections : obj Section_) (p : string) : M Choice :=
  s <- prop cloudSections p ;;
  ret (createChoice p (pageBreak s)).

(** The body of [providers.forEach((p, idx) => ...)], the "Next step" routing
    of one provider.  Its [for] loop runs over [providers[j]] for
    [idx + 1 <= j < providers.length], that is over [skipn (idx + 1) providers]. *)
Definition route_next_step (cloudSections : obj Section_) (providers : list string)
    (finalPage : nat) (p : string) (idx : nat) : M unit :=
  s <- prop cloudSections p ;;
  let nextQ := nextQuestion s in
  nextChoices <- mapM (skipn (idx + 1) providers) (choice_to cloudSections) ;;
  setChoices nextQ (nextChoices ++ [createChoice "Go to Submit" finalPage]).

Definition setupConditionalNavigation (cloudQuestion : nat)
    (cloudSections : obj Section_) (finalPage : nat) : M unit :=
  try_catch
    (let providers := Object_keys cloudSections in
     startChoices <- mapM providers (choice_to cloudSections) ;;
     setChoices cloudQuestion (startChoices ++ [createChoice "Go to Submit" finalPage]) ;;
     forEach_from 0 providers (route_next_step cloudSections providers finalPage))
    (fun _ => ret tt).

(** The handler of [createCompleteFormStructure] rethrows. *)
Definition createCompleteFormStructure (allCloudData : obj (list string)) : M unit :=
  let cloudProviders := Object_keys allCloudData in
  createWelcomeSection ;;
  cloudQuestion <- createCloudProviderSelection cloudProviders ;;
  cloudSections <- createCloudTechnologySections allCloudData ;;
  finalPage <- createFinalSubmissionPage ;;
  setupConditionalNavigation cloudQuestion cloudSections finalPage.

(** Steps 3 and 4 of [initializeFormV5]: clear the form, then rebuild it from
    the catalog. *)
Definition build (allCloudData : obj (list string)) : M unit :=
  clearFormContent ;;
  createCompleteFormStructure allCloudData.

(** The page-break items of a form, in order: each opens a page. *)
Definition is_page_break (it : Item) : bool :=
  match itemType it with PAGE_BREAK => true | _ => false end.

Definition page_breaks (form : Form) : list Item := filter is_page_break (items form).

Fixpoint until_break (l : list Item) : list Item :=
  match l with
  | [] => []
  | it :: l' => if is_page_break it then [] else it :: until_break l'
  end.

Fixpoint page_after (l : list Item) (page : nat) : list Item :=
  match l with
  | [] => []
  | it :: l' =>
      if is_page_break it && (itemId it =? page)%nat then until_break l'
      else page_after l' page
  end.

(** The questions on the page opened by the page break with id [page]. *)
Definition questions_on (form : Form) (page : nat) : list Item :=
  page_after (items form) page.

(** A run of items that is empty or opens a page. *)
Definition starts_page (l : list Item) : Prop :=
  match l with
  | [] => True
  | it :: _ => is_page_break it = true
  end.

(** *** The form the builder is meant to produce

    Written out as data, for comparison with what the code produces. *)

Definition item (id : nat) (t : ItemType) (ti h : string) (r : bool) (cs : list Choice) : Item :=
  {| itemId := id; itemType := t; title := ti; helpText := h; required := r; choices := cs |}.

Definition welcome_items (n : nat) : list Item :=
  [ item n SECTION_HEADER "" "" false [];
    item (1 + n) TEXT "Full Name of a Padawan" "Enter full name" true [];
    item (2 + n) TEXT "Project Name" "Enter the project name" true [] ].

Definition selection_items (n : nat) (cs : list Choice) : list Item :=
  [ item n PAGE_BREAK "Cloud Provider Selection" "" false [];
    item (1 + n) MULTIPLE_CHOICE "Choose Your Cloud Provider" "" true cs ].

(** The sections of the providers whose items start at id [n]: three items
    each. *)
Fixpoint sections_at (n : nat) (providers : list string) : obj Section_ :=
  match providers with
  | [] => []
  | P :: ps => (P, {| pageBreak := n; nextQuestion := 2 + n |}) :: sections_at (3 + n) ps
  end.

(** One choice per section, then the choice that goes to the final page. *)
Definition nav_choices (sections : obj Section_) (finalPage : nat) : list Choice :=
  map (fun e => createChoice (fst e) (pageBreak (snd e))) sections ++
  [createChoice "Go to Submit" finalPage].

(** The three items of each provider; [finalPage] is [None] before the
    navigation is set up. *)
Fixpoint provider_items (n : nat) (entries : list (string * list string))
    (finalPage : option nat) : list Item :=
  match entries with
  | [] => []
  | (P, technologies) :: rest =>
      item n PAGE_BREAK (P ++ " Technologies")
        ("Select all " ++ P ++ " technologies you have experience with:") false []
      :: item (1 + n) CHECKBOX (technology_title P)
           ("Check all " ++ P ++ " services and technologies you have used:") false
           (map plain_choice technologies)
      :: item (2 + n) MULTIPLE_CHOICE "Next step"
           "Choose another cloud to evaluate, or submit the feedback." true
           (match finalPage with
            | Some final => nav_choices (sections_at (3 + n) (map fst rest)) final
            | None => []
            end)
      :: provider_items (3 + n) rest finalPage
  end.

Definition final_items (n : nat) : list Item :=
  [ item n PAGE_BREAK "Feedback Complete"
      "Thank you for completing the Padawan cloud technology skills questionnaire!" false [];
    item (1 + n) PARAGRAPH_TEXT "Additional Comments (Optional)"
      "Any additional information about your cloud experience:" false [] ].

(** The properties of an object under the given keys, in that order. *)
Fixpoint entries_of {A : Type} (o : obj A) (keys : list string) : list (string * A) :=
  match keys with
  | [] => []
  | k :: ks =>
      match obj_get o k with
      | Some v => (k, v) :: entries_of o ks
      | None => entries_of o ks
      end
  end.

Definition expected_items (n : nat) (catalog : obj (list string)) : list Item :=
  let entries := entries_of catalog (Object_keys catalog) in
  let final := 3 * List.length entries + (5 + n) in
  welcome_items n ++
  selection_items (3 + n) (nav_choices (sections_at (5 + n) (map fst entries)) final) ++
  provider_items (5 + n) entries (Some final) ++
  final_items final.

Record InitData : Type := {
  formUrl : string;
  data_editUrl : string;
  cloudProviders : list string;
  totalTechnologies : nat;
  cloudData : obj (list string)
}.

(** [Object.values(allCloudData).reduce((sum, techs) => sum + techs.length, 0)] *)
Definition total_technologies (allCloudData : obj (list string)) : nat :=
  fold_left
    (fun sum k =>
       match obj_get allCloudData k with
       | Some techs => sum + List.length techs
       | None => sum
       end)
    (Object_keys allCloudData) 0.

Definition NO_PROVIDER_TABS : string :=
  "Error: No valid cloud provider tabs found in spreadsheet".

Section Initialize.
Context {cell : Type} `{JSValue cell}.

(** The body of the [try] of [initializeFormV5], once both services are open. *)
Definition initialize (ss : Spreadsheet cell) : M InitData :=
  let cloudProviders := getAllCloudProvidersFromTabs ss in
  if (List.length cloudProviders =? 0)%nat then throw NO_PROVIDER_TABS
  else
    let allCloudData := loadAllCloudTechnologies ss cloudProviders in
    build allCloudData ;;
    (fun form =>
       (Ok {| formUrl := publishedUrl form; data_editUrl := editUrl form;
              cloudProviders := cloudProviders;
              totalTechnologies := total_technologies allCloudData;
              cloudData := allCloudData |}, form)).

(** [initializeFormV5()]: [openByUrl] and [openById] are the outcomes of opening
    the spreadsheet and the form.  Returns the result and the form as the run
    leaves it. *)
Definition initializeFormV5 (openByUrl : res (Spreadsheet cell)) (openById : res Form)
  : Result InitData * res Form :=
  match openByUrl, openById with
  | Throw e, _ => (Failure e, openById)
  | Ok _, Throw e => (Failure e, openById)
  | Ok ss, Ok form =>
      match initialize ss form with
      | (Ok data, form') => (Success data, Ok form')
      | (Throw e, form') => (Failure e, Ok form')
      end
  end.

End Initialize.

(** *** The other entry points *)

Section Setup.
Context {cell : Type} `{JSValue cell}.

(** What the two services answer when an entry point opens them:
    [SpreadsheetApp.openByUrl], [ss.getName()], [FormApp.openById] and
    [form.getTitle()]. *)
Record Services : Type := {
  SpreadsheetApp_openByUrl : res (Spreadsheet cell);
  ss_getName : string;
  FormApp_openById : res Form;
  form_getTitle : string
}.

(** [refreshFormV5()]: [initializeFormV5] again; what it adds is console
    output, and nothing in it can throw. *)
Definition refreshFormV5 (s : Services) : Result InitData * res Form :=
  initializeFormV5 (SpreadsheetApp_openByUrl s) (FormApp_openById s).

Record TestData : Type := {
  spreadsheetName : string;
  formTitle : string;
  test_cloudProviders : list string;
  test_totalTechnologies : nat;
  test_cloudData : obj (list string)
}.

(** [testFormV5()]: opens both services and loads the catalog; the form is
    read, never written. *)
Definition testFormV5 (s : Services) : Result TestData :=
  match SpreadsheetApp_openByUrl s with
  | Throw e => Failure e
  | Ok ss =>
      match FormApp_openById s with
      | Throw e => Failure e
      | Ok form =>
          let cloudProviders := getAllCloudProvidersFromTabs ss in
          let allData := loadAllCloudTechnologies ss cloudProviders in
          let totalTechs := total_technologies allData in
          Success {| spreadsheetName := ss_getName s;
                     formTitle := form_getTitle s;
                     test_cloudProviders := cloudProviders;
                     test_totalTechnologies := totalTechs;
                     test_cloudData := allData |}
      end
  end.

(** [completeSetupV5()]: the test, then the initialization, each of which
    opens the services for itself ([atTest], [atInit]).  A failed step is
    rethrown as [new Error(prefix + error)] and comes back through the handler
    as that error's [toString()]. *)
Definition completeSetupV5 (atTest atInit : Services) : Result InitData * res Form :=
  match testFormV5 atTest with
  | Failure e => (Failure ("Error: Setup test failed: " ++ e), FormApp_openById atInit)
  | Success _ =>
      match initializeFormV5 (SpreadsheetApp_openByUrl atInit) (FormApp_openById atInit) with
      | (Failure e, form) => (Failure ("Error: Form initialization failed: " ++ e), form)
      | (Success data, form) => (Success data, form)
      end
  end.

End Setup.

Arguments Services : clear implicits.

End Builder.

Import Builder.

(** ** The submission processor *)

Module Processor.

(** [itemResponse.getResponse()]: a string, an array of strings, or nothing. *)
Inductive Answer : Type :=
| NoAnswer
| Text (s : string)
| Items (l : list string).

Definition truthy (a : Answer) : bool :=
  match a with
  | NoAnswer => false
  | Text s => negb (s =? "")
  | Items _ => true
  end.

(** [String(answer)] *)
Definition String_of (a : Answer) : string :=
  match a with
  | NoAnswer => "undefined"
  | Text s => s
  | Items l => join "," l
  end.

(** [answer || ''] *)
Definition or_empty (a : Answer) : Answer := if truthy a then a else Text "".

(** [answer !== s] *)
Definition strict_neq (a : Answer) (s : string) : bool :=
  match a with
  | Text t => negb (t =? s)
  | _ => true
  end.

(** [Array.isArray(answer) ? answer : []] *)
Definition array_or_empty (a : Answer) : list string :=
  match a with
  | Items l => l
  | _ => []
  end.

Record ItemResponse : Type := {
  questionTitle : string;
  answer : Answer
}.

Record FormResponse : Type := {
  getItemResponses : list ItemResponse;
  getRespondentEmail : string
}.

(** What reading a property of [submissionData.technologies] can give. *)
Inductive jsval : Type :=
| Undefined
| Str (s : string)
| Num (n : nat)
| Arr (l : list string)
| Function_
| ObjectPrototype.

(** The string-keyed properties of [Object.prototype], all of them functions
    apart from the [__proto__] accessor. *)
Definition Object_prototype_keys : list string :=
  ["constructor"; "hasOwnProperty"; "isPrototypeOf"; "propertyIsEnumerable";
   "toLocaleString"; "toString"; "valueOf";
   "__defineGetter__"; "__defineSetter__"; "__lookupGetter__"; "__lookupSetter__"].

(** The function-valued properties of [Array.prototype] (ECMAScript 2023). *)
Definition Array_prototype_keys : list string :=
  ["at"; "concat"; "constructor"; "copyWithin"; "entries"; "every"; "fill"; "filter";
   "find"; "findIndex"; "findLast"; "findLastIndex"; "flat"; "flatMap"; "forEach";
   "includes"; "indexOf"; "join"; "keys"; "lastIndexOf"; "map"; "pop"; "push";
   "reduce"; "reduceRight"; "reverse"; "shift"; "slice"; "some"; "sort"; "splice";
   "toLocaleString"; "toReversed"; "toSorted"; "toSpliced"; "toString"; "unshift";
   "values"; "with"].

Definition mem (k : string) (l : list string) : bool := existsb (String.eqb k) l.

(** [submissionData.technologies]: an object literal filled by assignment.  Its
    prototype is [Object.prototype] ([proto = None]) until an assignment to
    [__proto__] replaces it by the assigned array. *)
Record Technologies : Type := {
  own : obj (list string);
  proto : option (list string)
}.

Definition no_technologies : Technologies := {| own := obj_empty; proto := None |}.

(** [technologies[cloud] = arr] *)
Definition tech_set (t : Technologies) (cloud : string) (arr : list string) : Technologies :=
  if cloud =? "__proto__" then {| own := own t; proto := Some arr |}
  else {| own := obj_put (own t) cloud arr; proto := proto t |}.

(** [technologies[k]]: an own property, else whatever the prototype chain
    holds under that name. *)
Definition tech_get (t : Technologies) (k : string) : jsval :=
  match obj_get (own t) k with
  | Some l => Arr l
  | None =>
      match proto t with
      | None =>
          if k =? "__proto__" then ObjectPrototype
          else if mem k Object_prototype_keys then Function_
          else Undefined
      | Some a =>
          if k =? "__proto__" then Arr a
          else if k =? "length" then Num (List.length a)
          else
            match option_map (fun n => nth_error a (N.to_nat n)) (array_index k) with
            | Some (Some s) => Str s
            | _ =>
                if mem k Array_prototype_keys || mem k Object_prototype_keys
                then Function_ else Undefined
            end
      end
  end.

Definition truthy_val (v : jsval) : bool :=
  match v with
  | Undefined => false
  | Str s => negb (s =? "")
  | Num n => negb (n =? 0)%nat
  | Arr _ | Function_ | ObjectPrototype => true
  end.

Record SubmissionData : Type := {
  timestamp : Z;
  name : Answer;
  projectName : Answer;
  selectedCloudProvider : list string;
  technologies : Technologies;
  comments : Answer;
  email : string;
  technologiesCount : option nat;
  technologiesSummary : option string
}.

Definition set_name (d : SubmissionData) (v : Answer) : SubmissionData :=
  {| timestamp := timestamp d; name := v; projectName := projectName d;
     selectedCloudProvider := selectedCloudProvider d; technologies := technologies d;
     comments := comments d; email := email d;
     technologiesCount := technologiesCount d;
     technologiesSummary := technologiesSummary d |}.

Definition set_projectName (d : SubmissionData) (v : Answer) : SubmissionData :=
  {| timestamp := timestamp d; name := name d; projectName := v;
     selectedCloudProvider := selectedCloudProvider d; technologies := technologies d;
     comments := comments d; email := email d;
     technologiesCount := technologiesCount d;
     technologiesSummary := technologiesSummary d |}.

Definition set_selectedCloudProvider (d : SubmissionData) (v : list string) : SubmissionData :=
  {| timestamp := timestamp d; name := name d; projectName := projectName d;
     selectedCloudProvider := v; technologies := technologies d;
     comments := comments d; email := email d;
     technologiesCount := technologiesCount d;
     technologiesSummary := technologiesSummary d |}.

Definition set_technologies (d : SubmissionData) (v : Technologies) : SubmissionData :=
  {| timestamp := timestamp d; name := name d; projectName := projectName d;
     selectedCloudProvider := selectedCloudProvider d; technologies := v;
     comments := comments d; email := email d;
     technologiesCount := technologiesCount d;
     technologiesSummary := technologiesSummary d |}.

Definition set_comments (d : SubmissionData) (v : Answer) : SubmissionData :=
  {| timestamp := timestamp d; name := name d; projectName := projectName d;
     selectedCloudProvider := selectedCloudProvider d; technologies := technologies d;
     comments := v; email := email d;
     technologiesCount := technologiesCount d;
     technologiesSummary := technologiesSummary d |}.

Definition set_summary (d : SubmissionData) (count : nat) (summary : string) : SubmissionData :=
  {| timestamp := timestamp d; name := name d; projectName := projectName d;
     selectedCloudProvider := selectedCloudProvider d; technologies := technologies d;
     comments := comments d; email := email d;
     technologiesCount := Some count;
     technologiesSummary := Some summary |}.

(** The provider a checkbox title stands for:
    [questionTitle.replace(' Technology Experience', '').trim()]. *)
Definition cloud_of_title (questionTitle : string) : string :=
  trim (replace questionTitle " Technology Experience" "").

(** A title none of the tests of [onFormSubmitV5] recognizes. *)
Definition unmatched (questionTitle : string) : bool :=
  negb (questionTitle =? "Full Name of a Padawan") &&
  negb (questionTitle =? "Project Name") &&
  negb (questionTitle =? "Choose Your Cloud Provider") &&
  negb (questionTitle =? "Next step") &&
  negb (includes questionTitle "Technology Experience") &&
  negb (includes questionTitle "Additional Comments").

(** The body of [itemResponses.forEach] in [onFormSubmitV5]. *)
Definition record_answer (submissionData : SubmissionData) (itemResponse : ItemResponse)
  : SubmissionData :=
  let questionTitle := questionTitle itemResponse in
  let answer := answer itemResponse in
  if questionTitle =? "Full Name of a Padawan" then
    set_name submissionData (or_empty answer)
  else if questionTitle =? "Project Name" then
    set_projectName submissionData (or_empty answer)
  else if questionTitle =? "Choose Your Cloud Provider" then
    if truthy answer
    then set_selectedCloudProvider submissionData
           (selectedCloudProvider submissionData ++ [String_of answer])
    else submissionData
  else if questionTitle =? "Next step" then
    if truthy answer && strict_neq answer "Go to Submit"
    then set_selectedCloudProvider submissionData
           (selectedCloudProvider submissionData ++ [String_of answer])
    else submissionData
  else if includes questionTitle "Technology Experience" then
    let cloud := cloud_of_title questionTitle in
    set_technologies submissionData
      (tech_set (technologies submissionData) cloud (array_or_empty answer))
  else if includes questionTitle "Additional Comments" then
    set_comments submissionData (or_empty answer)
  else submissionData.

(** [[...new Set(l)]]: the distinct elements of [l] in order of first
    occurrence. *)
Definition dedupe (l : list string) : list string :=
  fold_left (fun seen x => if mem x seen then seen else seen ++ [x]) l [].

(** One line of console output. *)
Inductive LogEntry : Type :=
| log (text : string)
| log_submission (name project : Answer) (cloudProvider : list string)
                 (technologiesCount : jsval)
| error (text : string) (thrown : string).

Definition mentions_val (v : jsval) (s : string) : bool :=
  match v with
  | Str t => includes t s
  | Arr l => existsb (fun t => includes t s) l
  | _ => false
  end.

(** Whether a line of console output shows the text [s]. *)
Definition mentions (e : LogEntry) (s : string) : bool :=
  match e with
  | log text => includes text s
  | log_submission n p clouds count =>
      includes (String_of n) s || includes (String_of p) s ||
      existsb (fun c => includes c s) clouds || mentions_val count s
  | error text thrown => includes text s || includes thrown s
  end.

(** One row appended to the responses tab. *)
Record OutputRecord : Type := {
  row_timestamp : Z;
  row_name : Answer;
  row_projectName : Answer;
  row_cloud : string;
  row_count : nat;
  row_technologies : string;
  row_comments : Answer;
  row_email : string
}.

Inductive Row : Type :=
| Headers (titles : list string)
| Data (r : OutputRecord).

(** The spreadsheet as the processor sees it (tabs by name, each with its
    rows), and the console. *)
Record World : Type := {
  tabs : list (string * list Row);
  console : list LogEntry
}.

Definition RESPONSES_SHEET : string := "V5_Responses".

Definition headers : list string :=
  ["Timestamp"; "Name"; "Project Name"; "Clouds"; "Technologies Count"; "Technologies";
   "Comments"; "TechLeadEmail"].

Definition getSheetByName (w : World) (name : string) : option (list Row) :=
  option_map snd (find (fun t => fst t =? name) (tabs w)).

Definition insertSheet (w : World) (name : string) : World :=
  {| tabs := tabs w ++ [(name, [])]; console := console w |}.

(** Writes [row] at the end of the first tab called [name]. *)
Fixpoint append_to (ts : list (string * list Row)) (name : string) (row : Row)
  : list (string * list Row) :=
  match ts with
  | [] => []
  | (n, rows) :: ts' =>
      if n =? name then (n, rows ++ [row]) :: ts' else (n, rows) :: append_to ts' name row
  end.

Definition appendRow (w : World) (row : Row) : World :=
  {| tabs := append_to (tabs w) RESPONSES_SHEET row; console := console w |}.

Definition console_ (w : World) (e : LogEntry) : World :=
  {| tabs := tabs w; console := console w ++ [e] |}.

(** [techByCloud[cloud] || []], then [techList.length] and
    [techList.join(', ')]: only an array has [join]. *)
Definition techList_of (techByCloud : Technologies) (cloud : string) : res (list string) :=
  let v := tech_get techByCloud cloud in
  if truthy_val v then
    match v with
    | Arr l => Ok l
    | _ => Throw "TypeError: techList.join is not a function"
    end
  else Ok [].

(** The row written for one cloud. *)
Definition cloud_row (submissionData : SubmissionData) (cloud : string)
    (techList : list string) : OutputRecord :=
  {| row_timestamp := timestamp submissionData;
     row_name := name submissionData;
     row_projectName := projectName submissionData;
     row_cloud := cloud;
     row_count := List.length techList;
     row_technologies := join ", " techList;
     row_comments := comments submissionData;
     row_email := email submissionData |}.

(** The row written when no cloud was captured. *)
Definition fallback_row (submissionData : SubmissionData) : OutputRecord :=
  {| row_timestamp := timestamp submissionData;
     row_name := name submissionData;
     row_projectName := projectName submissionData;
     row_cloud := "";
     row_count := 0;
     row_technologies := "";
     row_comments := comments submissionData;
     row_email := email submissionData |}.

(** The body of [clouds.forEach] in [saveSubmissionV5]; a throw leaves the
    loop with the rows written so far in place. *)
Fixpoint write_clouds (submissionData : SubmissionData) (clouds : list string) (w : World)
  : res unit * World :=
  match clouds with
  | [] => (Ok tt, w)
  | cloud :: rest =>
      match techList_of (technologies submissionData) cloud with
      | Throw e => (Throw e, w)
      | Ok techList =>
          write_clouds submissionData rest
            (appendRow w (Data (cloud_row submissionData cloud techList)))
      end
  end.

Definition saveSubmissionV5 (submissionData : SubmissionData) (w : World) : World :=
  let w :=
    match getSheetByName w RESPONSES_SHEET with
    | Some _ => w
    | None => appendRow (insertSheet w RESPONSES_SHEET) (Headers headers)
    end in
  let clouds := selectedCloudProvider submissionData in
  if (List.length clouds =? 0)%nat then
    appendRow w (Data (fallback_row submissionData))
  else
    match write_clouds submissionData clouds w with
    | (Ok _, w') => console_ w' (log "Submission saved to V5_Responses sheet")
    | (Throw e, w') => console_ w' (error "Error saving submission V5:" e)
    end.

(** The scan of the answers, from the initial [submissionData]. *)
Definition scan (now : Z) (response : FormResponse) : SubmissionData :=
  fold_left record_answer (getItemResponses response)
    {| timestamp := now; name := Text ""; projectName := Text "";
       selectedCloudProvider := []; technologies := no_technologies;
       comments := Text ""; email := getRespondentEmail response;
       technologiesCount := None; technologiesSummary := None |}.

(** [techCount] and [techParts] of the summary loop. *)
Definition summarize (t : Technologies) : nat * list string :=
  fold_left
    (fun acc cloud =>
       let techs := match obj_get (own t) cloud with Some l => l | None => [] end in
       (fst acc + List.length techs,
        if (0 <? List.length techs)%nat
        then snd acc ++ [(cloud ++ ": " ++ join ", " techs)%string] else snd acc))
    (Object_keys (own t)) (0, []).

(** The output fields built after the scan: the clouds without repetition,
    the count and the summary of the technologies. *)
Definition finish (submissionData : SubmissionData) : SubmissionData :=
  let submissionData :=
    set_selectedCloudProvider submissionData
      (dedupe (selectedCloudProvider submissionData)) in
  let summary := summarize (technologies submissionData) in
  set_summary submissionData (fst summary) (join " | " (snd summary)).

(** [onFormSubmitV5(e)], with [now] the value of [new Date()].  Nothing
    outside [saveSubmissionV5] can throw, so the result is always a success. *)
Definition onFormSubmitV5 (now : Z) (response : FormResponse) (w : World)
  : Result SubmissionData * World :=
  let w := console_ w (log "=== PROCESSING FORM SUBMISSION V5 ===") in
  let submissionData := scan now response in
  let w := console_ w (log_submission (name submissionData) (projectName submissionData)
                         (selectedCloudProvider submissionData)
                         (tech_get (technologies submissionData) "length")) in
  let submissionData := finish submissionData in
  let w := saveSubmissionV5 submissionData w in
  (Success submissionData, w).

(** The records one run appends to the responses tab. *)
Definition records (rows : list Row) : list OutputRecord :=
  flat_map (fun r => match r with Data d => [d] | Headers _ => [] end) rows.

(** A record with its timestamp replaced by [t]. *)
Definition stamped (t : Z) (r : OutputRecord) : OutputRecord :=
  {| row_timestamp := t; row_name := row_name r; row_projectName := row_projectName r;
     row_cloud := row_cloud r; row_count := row_count r;
     row_technologies := row_technologies r; row_comments := row_comments r;
     row_email := row_email r |}.

Definition empty_world : World := {| tabs := []; console := [] |}.

(** [process]: the output records of one response, read off a run that starts
    without a responses tab. *)
Definition process (now : Z) (response : FormResponse) : list OutputRecord :=
  match getSheetByName (snd (onFormSubmitV5 now response empty_world)) RESPONSES_SHEET with
  | Some rows => records rows
  | None => []
  end.

(** The providers a response visits: the answers recorded for the
    provider-select and next-step questions, without repetition. *)
Definition visited (now : Z) (response : FormResponse) : list string :=
  dedupe (selectedCloudProvider (scan now response)).

(** The rows [write_clouds] gets to write: one per cloud, up to the first
    cloud whose row cannot be formed. *)
Fixpoint cloud_rows (submissionData : SubmissionData) (clouds : list string)
  : list OutputRecord :=
  match clouds with
  | [] => []
  | cloud :: rest =>
      match techList_of (technologies submissionData) cloud with
      | Throw _ => []
      | Ok techList =>
          cloud_row submissionData cloud techList :: cloud_rows submissionData rest
      end
  end.

(** The rows [saveSubmissionV5] appends. *)
Definition rows_of (submissionData : SubmissionData) : list OutputRecord :=
  match selectedCloudProvider submissionData with
  | [] => [fallback_row submissionData]
  | clouds => cloud_rows submissionData clouds
  end.

(** The rows already in the responses tab, or its header row when the run has
    to create the tab. *)
Definition base_rows (w : World) : list Row :=
  match getSheetByName w RESPONSES_SHEET with
  | Some rows => rows
  | None => [Headers headers]
  end.

(** The list [dedupe] is meant to compute: each element once, at the place of
    its first occurrence. *)
Fixpoint first_seen (l : list string) : list string :=
  match l with
  | [] => []
  | x :: l' => x :: filter (fun y => negb (y =? x)) (first_seen l')
  end.

(** The same data read at another time. *)
Definition retime (t : Z) (d : SubmissionData) : SubmissionData :=
  {| timestamp := t; name := name d; projectName := projectName d;
     selectedCloudProvider := selectedCloudProvider d; technologies := technologies d;
     comments := comments d; email := email d;
     technologiesCount := technologiesCount d;
     technologiesSummary := technologiesSummary d |}.

End Processor.

Import Processor.

(** ** Examples *)

Definition example_catalog : obj (list string) :=
  [("AWS", ["EC2"; "S3"]); ("Azure", ["VM"])].

Definition example_form : Form :=
  {| items := [item 0 TEXT "Old question" "" false []]; nextId := 1;
     publishedUrl := "https://docs.google.com/forms/d/e/published/viewform";
     editUrl := "https://docs.google.com/forms/d/example/edit" |}.

(** ** Notions used to state further properties *)

(** A tab that [getAllCloudProvidersFromTabs] lists when it can be read: not
    a system sheet, and with a non-blank cell in its first column. *)
Definition is_provider_tab {cell : Type} `{JSValue cell} (sheet : Sheet cell) : bool :=
  negb (is_system_sheet (getName sheet)) &&
  match getDataRange sheet with
  | Ok range => existsb nonblank (map first_cell range)
  | Throw _ => false
  end.

(** A tab that is skipped unread or whose data range can be read. *)
Definition readable {cell : Type} `{JSValue cell} (sheet : Sheet cell) : Prop :=
  is_system_sheet (getName sheet) = true \/ exists range, getDataRange sheet = Ok range.

(** An item with its id, and the pages its choices lead to, moved up by [k]. *)
Definition shift_choice (k : nat) (c : Choice) : Choice :=
  {| choiceValue := choiceValue c; gotoPage := option_map (fun p => k + p) (gotoPage c) |}.

Definition shift_item (k : nat) (it : Item) : Item :=
  {| itemId := k + itemId it; itemType := itemType it; title := title it;
     helpText := helpText it; required := required it;
     choices := map (shift_choice k) (choices it) |}.

(** The body of the loop of [loadAllCloudTechnologies], for one provider. *)
Definition load_step {cell : Type} `{JSValue cell} (ss : Spreadsheet cell)
    (allData : obj (list string)) (provider : string) : obj (list string) :=
  let technologies := loadTechnologiesFromSheet ss provider in
  if (0 <? List.length technologies)%nat
  then obj_set allData provider technologies
  else allData.

Definition is_checkbox (it : Item) : bool :=
  match itemType it with CHECKBOX => true | _ => false end.

(** What one answer adds to the list of visited providers. *)
Definition recorded_provider (ir : ItemResponse) : list string :=
  if questionTitle ir =? "Choose Your Cloud Provider" then
    if truthy (answer ir) then [String_of (answer ir)] else []
  else if questionTitle ir =? "Next step" then
    if truthy (answer ir) && strict_neq (answer ir) "Go to Submit"
    then [String_of (answer ir)] else []
  else [].

(** Whether an answer reaches the technology branch of [onFormSubmitV5]. *)
Definition is_technology_answer (ir : ItemResponse) : bool :=
  negb (questionTitle ir =? "Full Name of a Padawan") &&
  negb (questionTitle ir =? "Project Name") &&
  negb (questionTitle ir =? "Choose Your Cloud Provider") &&
  negb (questionTitle ir =? "Next step") &&
  includes (questionTitle ir) "Technology Experience".

(** Whether an answer reaches the comments branch of [onFormSubmitV5]. *)
Definition is_comments_answer (ir : ItemResponse) : bool :=
  negb (includes (questionTitle ir) "Technology Experience") &&
  includes (questionTitle ir) "Additional Comments".



(** The last answer among [irs] to a question that [p] picks, as the
    processor keeps it ([answer || '']); the empty string when there is none. *)
Definition last_answer (p : ItemResponse -> bool) (irs : list ItemResponse) : Answer :=
  match find p (rev irs) with
  | Some ir => or_empty (answer ir)
  | None => Text ""
  end.

(** The text the two halves agree on: the builder appends it to a provider
    name, the processor removes it. *)
Definition MARKER : string := " Technology Experience".

(* ================================================================== *)
(** * Part II. Properties *)
(* ================================================================== *)

Unset Implicit Arguments.

(** ** Strings *)

Section StringFacts.

Lemma string_length_app (p s : string) :
  String.length (p ++ s) = String.length p + String.length s.
Proof. induction p as [|c p IH]; simpl; [reflexivity | now rewrite IH]. Qed.

Lemma skip_app (p s : string) : skip (String.length p) (p ++ s) = s.
Proof. induction p as [|c p IH]; simpl; [reflexivity | exact IH]. Qed.

(** A string that ends in [s] shows it when its head is skipped. *)
Lemma suffix_skip (p s t : string) :
  (p ++ s)%string = t -> skip (String.length t - String.length s) t = s.
Proof.
  intros <-. rewrite string_length_app.
  replace (String.length p + String.length s - String.length s) with (String.length p) by lia.
  apply skip_app.
Qed.

Lemma startsWith_cons (a c : ascii) (m s : string) :
  startsWith (String c s) (String a m) = true <-> a = c /\ startsWith s m = true.
Proof.
  unfold startsWith. simpl. destruct (ascii_dec a c) as [->|Hn].
  - tauto.
  - split; [discriminate | intros [Heq _]; contradiction].
Qed.

(** Where a match at the head of [p ++ s] can lie: inside [p], or across the
    seam with its tail matching the head of [s]. *)
Lemma startsWith_app (m p s : string) :
  startsWith (p ++ s) m = true ->
  startsWith p m = true \/
  (String.length p < String.length m /\ startsWith s (skip (String.length p) m) = true).
Proof.
  revert m. induction p as [|c p IH]; intros m Hm.
  - destruct m as [|a m].
    + left. reflexivity.
    + right. split; [simpl; lia | exact Hm].
  - destruct m as [|a m].
    + left. reflexivity.
    + simpl in Hm. apply startsWith_cons in Hm as [-> Hm].
      destruct (IH _ Hm) as [Hp | [Hlen Hs]].
      * left. apply startsWith_cons. split; [reflexivity | exact Hp].
      * right. split; [simpl; lia | exact Hs].
Qed.

Lemma includes_app_r (p s pat : string) :
  includes s pat = true -> includes (p ++ s) pat = true.
Proof.
  intros Hs. induction p as [|c p IH]; [exact Hs|].
  simpl. rewrite IH. apply orb_true_r.
Qed.

Lemma includes_cons_false (c : ascii) (s pat : string) :
  includes (String c s) pat = false ->
  startsWith (String c s) pat = false /\ includes s pat = false.
Proof. simpl. intros H. apply orb_false_iff in H. exact H. Qed.

End StringFacts.

(** ** Objects *)

Section ObjectFacts.
Context {A : Type}.

Lemma obj_put_keys (o : obj A) (k : string) (v : A) :
  map fst (obj_put o k v) = if mem k (map fst o) then map fst o else map fst o ++ [k].
Proof.
  unfold mem. induction o as [|[k' v'] o IH]; simpl; [reflexivity|].
  rewrite (String.eqb_sym k k'). destruct (k' =? k) eqn:E; simpl; [reflexivity|].
  rewrite IH. destruct (existsb (String.eqb k) (map fst o)); reflexivity.
Qed.

Lemma mem_In (k : string) (l : list string) : mem k l = true <-> In k l.
Proof.
  unfold mem. rewrite existsb_exists. split.
  - intros [x [Hin Heq]]. apply String.eqb_eq in Heq. now subst.
  - intros Hin. exists k. split; [exact Hin | apply String.eqb_refl].
Qed.

Lemma obj_set_keys_incl (o : obj A) (k : string) (v : A) (k' : string) :
  In k' (map fst (obj_set o k v)) -> k' = k \/ In k' (map fst o).
Proof.
  unfold obj_set. destruct (k =? "__proto__"); [now right|].
  rewrite obj_put_keys. destruct (mem k (map fst o)); [now right|].
  rewrite in_app_iff. simpl. intuition.
Qed.

(** Assignment keeps an object well formed. *)
Lemma obj_set_well_formed (o : obj A) (k : string) (v : A) :
  well_formed o -> well_formed (obj_set o k v).
Proof.
  intros [Hnd Hproto]. unfold obj_set. destruct (k =? "__proto__") eqn:Ek; [now split|].
  apply String.eqb_neq in Ek. unfold well_formed. rewrite obj_put_keys.
  destruct (mem k (map fst o)) eqn:Em; [now split|].
  assert (Hk : ~ In k (map fst o)).
  { intros Hin. apply mem_In in Hin. congruence. }
  split.
  - apply NoDup_app; [exact Hnd | repeat constructor; intros [] |].
    intros x Hx [<- | []]. contradiction.
  - rewrite in_app_iff. simpl. intuition congruence.
Qed.

Lemma obj_get_put_same (o : obj A) (k : string) (v : A) :
  obj_get (obj_put o k v) k = Some v.
Proof.
  induction o as [|[k' v'] o IH]; simpl.
  - now rewrite String.eqb_refl.
  - destruct (k' =? k) eqn:E; simpl; rewrite E; [reflexivity | exact IH].
Qed.

Lemma obj_get_put_other (o : obj A) (k k' : string) (v : A) :
  k <> k' -> obj_get (obj_put o k v) k' = obj_get o k'.
Proof.
  intros Hne. induction o as [|[k0 v0] o IH]; simpl.
  - apply String.eqb_neq in Hne. now rewrite Hne.
  - destruct (k0 =? k) eqn:E; simpl.
    + apply String.eqb_eq in E. subst k0.
      apply String.eqb_neq in Hne. now rewrite Hne.
    + destruct (k0 =? k'); [reflexivity | exact IH].
Qed.

Lemma obj_get_In (o : obj A) (k : string) :
  In k (map fst o) -> exists v, obj_get o k = Some v.
Proof.
  induction o as [|[k' v'] o IH]; simpl; [contradiction|].
  intros [Heq | Hin].
  - subst. rewrite String.eqb_refl. eauto.
  - destruct (k' =? k); eauto.
Qed.

Lemma obj_get_None (o : obj A) (k : string) :
  ~ In k (map fst o) -> obj_get o k = None.
Proof.
  induction o as [|[k' v'] o IH]; simpl; [reflexivity|].
  intros Hn. destruct (k' =? k) eqn:E.
  - apply String.eqb_eq in E. tauto.
  - apply IH. tauto.
Qed.

End ObjectFacts.

(** *** The order of own keys *)

Section KeyOrder.

Lemma insert_index_perm (x : N * string) (l : list (N * string)) :
  Permutation (insert_index x l) (x :: l).
Proof.
  induction l as [|y l IH]; simpl; [reflexivity|].
  destruct (fst x <=? fst y)%N; [reflexivity|].
  rewrite IH. apply perm_swap.
Qed.

Lemma sort_index_perm (l : list (N * string)) : Permutation (sort_index l) l.
Proof.
  induction l as [|x l IH]; simpl; [reflexivity|].
  rewrite insert_index_perm. now constructor.
Qed.

Lemma index_keys_spec (ks : list string) (n : N) (k : string) :
  In (n, k) (index_keys ks) <-> In k ks /\ array_index k = Some n.
Proof.
  induction ks as [|k0 ks IH]; simpl; [tauto|].
  destruct (array_index k0) as [n0|] eqn:E; simpl; rewrite IH; split.
  - intros [Heq | [Hin Hk]]; [inversion Heq; subst; auto | auto].
  - intros [[Heq | Hin] Hk]; [subst; left; congruence | auto].
  - intros [Hin Hk]; auto.
  - intros [[Heq | Hin] Hk]; [subst; congruence | auto].
Qed.

Lemma index_keys_snd (ks : list string) :
  map snd (index_keys ks) = filter is_array_index ks.
Proof.
  unfold is_array_index. induction ks as [|k ks IH]; simpl; [reflexivity|].
  destruct (array_index k); simpl; now rewrite IH.
Qed.

Lemma filter_split_perm {B : Type} (f : B -> bool) (l : list B) :
  Permutation (filter f l ++ filter (fun x => negb (f x)) l) l.
Proof.
  induction l as [|x l IH]; simpl; [reflexivity|].
  destruct (f x); simpl.
  - now constructor.
  - rewrite <- Permutation_middle. now constructor.
Qed.

(** Listing the keys reorders them and nothing else. *)
Lemma own_key_order_perm (ks : list string) : Permutation (own_key_order ks) ks.
Proof.
  unfold own_key_order.
  rewrite (Permutation_map snd (sort_index_perm (index_keys ks))).
  rewrite index_keys_snd. apply filter_split_perm.
Qed.

Lemma own_key_order_In (ks : list string) (k : string) :
  In k (own_key_order ks) <-> In k ks.
Proof.
  split; apply Permutation_in; [|symmetry]; apply own_key_order_perm.
Qed.

Lemma own_key_order_NoDup (ks : list string) : NoDup ks -> NoDup (own_key_order ks).
Proof.
  apply Permutation_NoDup. symmetry. apply own_key_order_perm.
Qed.

(** Sorting: the result is ordered, and an ordered list is left as it is. *)

Lemma insert_index_sorted (x : N * string) (l : list (N * string)) :
  Sorted index_le l -> Sorted index_le (insert_index x l).
Proof.
  induction l as [|y l IH]; simpl; intros Hs.
  - repeat constructor.
  - destruct (fst x <=? fst y)%N eqn:E.
    + constructor; [exact Hs|]. constructor. apply N.leb_le. exact E.
    + apply N.leb_gt in E. inversion Hs as [|? ? Hs' Hhd]; subst.
      constructor; [apply IH; exact Hs'|].
      destruct l as [|z l]; simpl.
      * constructor. unfold index_le. lia.
      * destruct (fst x <=? fst z)%N; constructor.
        -- unfold index_le. lia.
        -- inversion Hhd; subst. assumption.
Qed.

Lemma sort_index_sorted (l : list (N * string)) : Sorted index_le (sort_index l).
Proof.
  induction l as [|x l IH]; simpl; [constructor | now apply insert_index_sorted].
Qed.

Lemma sort_index_id (l : list (N * string)) : Sorted index_le l -> sort_index l = l.
Proof.
  induction l as [|x l IH]; simpl; intros Hs; [reflexivity|].
  inversion Hs as [|? ? Hs' Hhd]; subst. rewrite (IH Hs').
  destruct l as [|y l]; simpl; [reflexivity|].
  inversion Hhd as [|? ? Hle]; subst. apply N.leb_le in Hle. now rewrite Hle.
Qed.

Lemma index_keys_app (l1 l2 : list string) :
  index_keys (l1 ++ l2) = index_keys l1 ++ index_keys l2.
Proof.
  induction l1 as [|k l1 IH]; simpl; [reflexivity|].
  destruct (array_index k); simpl; now rewrite IH.
Qed.

Lemma index_keys_none (l : list string) :
  forallb (fun k => negb (is_array_index k)) l = true -> index_keys l = [].
Proof.
  unfold is_array_index. induction l as [|k l IH]; simpl; [reflexivity|].
  destruct (array_index k); simpl; [discriminate | exact IH].
Qed.

Lemma index_keys_all (l : list (N * string)) :
  Forall (fun x => array_index (snd x) = Some (fst x)) l ->
  index_keys (map snd l) = l.
Proof.
  induction 1 as [|[n k] l Hx _ IH]; simpl; [reflexivity|].
  simpl in Hx. rewrite Hx, IH. reflexivity.
Qed.

Lemma filter_none {B : Type} (f : B -> bool) (l : list B) :
  forallb (fun x => negb (f x)) l = true -> filter f l = [].
Proof.
  induction l as [|x l IH]; simpl; [reflexivity|].
  destruct (f x); simpl; [discriminate | exact IH].
Qed.

Lemma filter_all {B : Type} (f : B -> bool) (l : list B) :
  forallb f l = true -> filter f l = l.
Proof.
  induction l as [|x l IH]; simpl; [reflexivity|].
  destruct (f x); simpl; [intros; f_equal; auto | discriminate].
Qed.

(** Keys already in listing order are listed in that order: creating the
    properties of one object in the key order of another gives an object with
    the same key order. *)
Lemma own_key_order_idem (ks : list string) :
  own_key_order (own_key_order ks) = own_key_order ks.
Proof.
  unfold own_key_order at 2.
  set (ix := sort_index (index_keys ks)).
  set (rest := filter (fun k => negb (is_array_index k)) ks).
  assert (Hix : Forall (fun x => array_index (snd x) = Some (fst x)) ix).
  { apply Forall_forall. intros [n k] Hin.
    apply (Permutation_in _ (sort_index_perm _)) in Hin.
    apply index_keys_spec in Hin. simpl. tauto. }
  assert (Hrest : forallb (fun k => negb (is_array_index k)) rest = true).
  { apply forallb_forall. intros k Hin. apply filter_In in Hin. tauto. }
  unfold own_key_order.
  rewrite index_keys_app, (index_keys_all _ Hix), (index_keys_none _ Hrest), app_nil_r.
  rewrite (sort_index_id ix (sort_index_sorted _)).
  rewrite filter_app. f_equal.
  rewrite filter_none; [apply (filter_all _ _ Hrest)|].
  apply forallb_forall. intros k Hin. apply in_map_iff in Hin as [[n k'] [<- Hin]].
  rewrite Forall_forall in Hix. specialize (Hix _ Hin). simpl in *.
  unfold is_array_index. now rewrite Hix.
Qed.

End KeyOrder.

(** ** The builder: what a run leaves in the form *)

Section Surface.

Lemma addItem_run (f : Form) (L : list Item) (n : nat) (t : ItemType) :
  addItem t (with_items f L n) =
  (Ok n, with_items f (L ++ [item n t "" "" false []]) (S n)).
Proof. reflexivity. Qed.

Lemma map_update_other (id : nat) (g : Item -> Item) (L : list Item) :
  Forall (fun x => itemId x <> id) L ->
  map (fun it => if (itemId it =? id)%nat then g it else it) L = L.
Proof.
  induction 1 as [|x L Hx _ IH]; simpl; [reflexivity|].
  apply Nat.eqb_neq in Hx. now rewrite Hx, IH.
Qed.

(** Updating the one item that carries the id. *)
Lemma update_at (f : Form) (A B : list Item) (it : Item) (n id : nat) (g : Item -> Item) :
  itemId it = id ->
  Forall (fun x => itemId x <> id) A ->
  Forall (fun x => itemId x <> id) B ->
  update id g (with_items f (A ++ it :: B) n) = (Ok tt, with_items f (A ++ g it :: B) n).
Proof.
  intros Hid HA HB. unfold update, with_items. cbn [items nextId publishedUrl editUrl].
  rewrite map_app. cbn [map]. rewrite Hid, Nat.eqb_refl.
  now rewrite (map_update_other _ _ _ HA), (map_update_other _ _ _ HB).
Qed.

Lemma below_other (n id : nat) (L : list Item) :
  Forall (fun x => itemId x < n) L -> n <= id -> Forall (fun x => itemId x <> id) L.
Proof. intros HL Hle. eapply Forall_impl; [|exact HL]. cbv beta. intros; lia. Qed.

Lemma below_weaken (n m : nat) (L : list Item) :
  Forall (fun x => itemId x < n) L -> n <= m -> Forall (fun x => itemId x < m) L.
Proof. intros HL Hle. eapply Forall_impl; [|exact HL]. cbv beta. intros; lia. Qed.

Lemma with_title_item s id t ti h r cs :
  with_title s (item id t ti h r cs) = item id t s h r cs.
Proof. reflexivity. Qed.

Lemma with_helpText_item s id t ti h r cs :
  with_helpText s (item id t ti h r cs) = item id t ti s r cs.
Proof. reflexivity. Qed.

Lemma with_required_item b id t ti h r cs :
  with_required b (item id t ti h r cs) = item id t ti h b cs.
Proof. reflexivity. Qed.

Lemma with_choices_item c id t ti h r cs :
  with_choices c (item id t ti h r cs) = item id t ti h r c.
Proof. reflexivity. Qed.

End Surface.

(** Side conditions on the ids of the items already in the form. *)
Ltac below :=
  repeat (apply Forall_app; split);
  repeat (apply Forall_cons; [cbn [itemId item]; lia|]);
  first [ apply Forall_nil
        | eapply below_other; [eassumption | lia]
        | eapply below_weaken; [eassumption | lia]
        | assumption ].

(** One statement of builder code at a time: an item is added, or the item
    added last is configured. *)
Ltac setters := unfold setTitle, setHelpText, setRequired, setChoiceValues, setChoices.

Ltac tidy :=
  rewrite ?with_title_item, ?with_helpText_item, ?with_required_item, ?with_choices_item.

Ltac step :=
  unfold bind at 1;
  first [ rewrite addItem_run
        | rewrite (update_at _ _ []) by (first [reflexivity | below]) ];
  cbv beta iota; tidy.

Lemma createWelcomeSection_run (f : Form) (L : list Item) (n : nat) :
  Forall (fun x => itemId x < n) L ->
  createWelcomeSection (with_items f L n) =
  (Ok tt, with_items f (L ++ welcome_items n) (3 + n)).
Proof.
  intros HL. unfold createWelcomeSection. setters.
  do 8 step.
  rewrite (update_at _ _ []) by (first [reflexivity | below]). tidy.
  rewrite <- !app_assoc. reflexivity.
Qed.

Lemma createCloudProviderSelection_run (f : Form) (L : list Item) (n : nat)
    (cloudProviders : list string) :
  Forall (fun x => itemId x < n) L ->
  createCloudProviderSelection cloudProviders (with_items f L n) =
  (Ok (1 + n), with_items f (L ++ selection_items n []) (2 + n)).
Proof.
  intros HL. unfold createCloudProviderSelection. setters.
  do 5 step. unfold ret. rewrite <- !app_assoc. reflexivity.
Qed.

Lemma createFinalSubmissionPage_run (f : Form) (L : list Item) (n : nat) :
  Forall (fun x => itemId x < n) L ->
  createFinalSubmissionPage (with_items f L n) =
  (Ok n, with_items f (L ++ final_items n) (2 + n)).
Proof.
  intros HL. unfold createFinalSubmissionPage. setters.
  do 7 step. unfold ret. rewrite <- !app_assoc. reflexivity.
Qed.

Lemma clear_loop (l : list Item) :
  forall (f : Form),
    forEach l deleteItem f =
    (Ok tt, with_items f
              (filter (fun x => negb (existsb (fun it => itemId x =? itemId it)%nat l))
                      (items f)) (nextId f)).
Proof.
  unfold forEach. generalize 0.
  induction l as [|it l IH]; intros i f; simpl.
  - unfold ret. f_equal. destruct f as [L n pu eu]. unfold with_items. cbn. f_equal.
    induction L as [|x L IHL]; simpl; [reflexivity | now f_equal].
  - unfold bind at 1. unfold deleteItem at 1. cbv beta iota.
    rewrite IH. f_equal. unfold with_items. cbn [items nextId publishedUrl editUrl]. f_equal.
    induction (items f) as [|x L IHL]; simpl; [reflexivity|].
    destruct (itemId x =? itemId it)%nat; simpl; [exact IHL|].
    destruct (existsb _ l); simpl; [exact IHL | now f_equal].
Qed.

Lemma clearFormContent_run (f : Form) :
  clearFormContent f = (Ok tt, with_items f [] (nextId f)).
Proof.
  unfold clearFormContent, bind, getItems.
  rewrite clear_loop. f_equal. f_equal.
  assert (H : forall L l, incl L l ->
            filter (fun x => negb (existsb (fun it => itemId x =? itemId it)%nat l)) L = []).
  { induction L as [|x L IH]; intros l Hincl; simpl; [reflexivity|].
    replace (existsb (fun it => (itemId x =? itemId it)%nat) l) with true.
    - simpl. apply IH. intros y Hy. apply Hincl. now right.
    - symmetry. apply existsb_exists. exists x. split; [apply Hincl; now left | apply Nat.eqb_refl]. }
  apply H. apply incl_refl.
Qed.

Lemma obj_put_new {A : Type} (o : obj A) (k : string) (v : A) :
  ~ In k (map fst o) -> obj_put o k v = o ++ [(k, v)].
Proof.
  induction o as [|[k' v'] o IH]; simpl; intros Hn; [reflexivity|].
  destruct (k' =? k) eqn:E.
  - apply String.eqb_eq in E. tauto.
  - f_equal. apply IH. tauto.
Qed.

Lemma obj_set_new {A : Type} (o : obj A) (k : string) (v : A) :
  k <> "__proto__" -> ~ In k (map fst o) -> obj_set o k v = o ++ [(k, v)].
Proof.
  intros Hk Hn. unfold obj_set. apply String.eqb_neq in Hk. rewrite Hk.
  now apply obj_put_new.
Qed.

Lemma prop_run {A : Type} (o : obj A) (k : string) (v : A) (f : Form) :
  obj_get o k = Some v -> prop o k f = (Ok v, f).
Proof. intros Hget. unfold prop. now rewrite Hget. Qed.

Lemma sections_at_keys (n : nat) (keys : list string) : map fst (sections_at n keys) = keys.
Proof. revert n. induction keys as [|k ks IH]; intros n; simpl; [reflexivity | now rewrite IH]. Qed.

Lemma sections_loop_run (catalog : obj (list string)) (f : Form) :
  forall (keys : list string) (cs : obj Section_) (L : list Item) (n : nat),
    Forall (fun x => itemId x < n) L ->
    NoDup keys ->
    ~ In "__proto__" keys ->
    (forall k, In k keys -> ~ In k (map fst cs)) ->
    (forall k, In k keys -> In k (map fst catalog)) ->
    sections_loop catalog keys cs (with_items f L n) =
    (Ok (cs ++ sections_at n keys),
     with_items f (L ++ provider_items n (entries_of catalog keys) None)
                (3 * List.length keys + n)).
Proof.
  induction keys as [|k keys IH]; intros cs L n HL Hnd Hproto Hcs Hcat.
  - simpl. unfold ret. now rewrite !app_nil_r.
  - destruct (obj_get_In catalog k (Hcat k (or_introl eq_refl))) as [technologies Hget].
    cbn [sections_loop entries_of]. rewrite Hget. setters.
    unfold bind at 1. rewrite (prop_run _ _ _ _ Hget). cbv beta iota.
    do 12 step.
    inversion Hnd as [|? ? Hk Hnd']; subst.
    rewrite obj_set_new;
      [| intros ->; apply Hproto; now left | apply Hcs; now left].
    rewrite IH.
    + cbn [provider_items sections_at List.length]. rewrite <- !app_assoc. cbn [app].
      do 2 f_equal. lia.
    + below.
    + exact Hnd'.
    + intros Hin. apply Hproto. now right.
    + intros k' Hk' Hin. rewrite map_app in Hin. apply in_app_iff in Hin as [Hin | [<- | []]].
      * apply (Hcs k'); [now right | exact Hin].
      * contradiction.
    + intros k' Hk'. apply Hcat. now right.
Qed.

Lemma obj_get_NoDup_In {A : Type} (o : obj A) (k : string) (v : A) :
  NoDup (map fst o) -> In (k, v) o -> obj_get o k = Some v.
Proof.
  induction o as [|[k' v'] o IH]; simpl; intros Hnd Hin; [contradiction|].
  inversion Hnd as [|? ? Hk Hnd']; subst.
  destruct Hin as [Heq | Hin].
  - inversion Heq; subst. now rewrite String.eqb_refl.
  - destruct (k' =? k) eqn:E; [|now apply IH].
    apply String.eqb_eq in E. subst k'. exfalso. apply Hk.
    apply in_map_iff. exists (k, v). now split.
Qed.

Lemma nav_mapM (cs sub : obj Section_) (f : Form) :
  (forall e, In e sub -> obj_get cs (fst e) = Some (snd e)) ->
  mapM (map fst sub) (choice_to cs) f =
  (Ok (map (fun e => createChoice (fst e) (pageBreak (snd e))) sub), f).
Proof.
  induction sub as [|e sub IH]; intros Hsub; simpl; [reflexivity|].
  unfold bind at 1. unfold choice_to at 1. unfold bind at 1.
  rewrite (prop_run _ _ _ _ (Hsub e (or_introl eq_refl))). cbv beta iota.
  unfold ret at 1. unfold bind at 1. rewrite IH by (intros; apply Hsub; now right).
  reflexivity.
Qed.

Lemma provider_items_ids (fp : option nat) (es : list (string * list string)) :
  forall n, Forall (fun x => n <= itemId x < 3 * List.length es + n) (provider_items n es fp).
Proof.
  induction es as [|[P T] es IH]; intros n; simpl; [constructor|].
  repeat (constructor; [cbn [itemId item]; lia|]).
  eapply Forall_impl; [|apply IH]. cbv beta. intros; lia.
Qed.

Lemma skipn_app_cons {B : Type} (done : list B) (x : B) (rest : list B) :
  skipn (List.length done + 1) (done ++ x :: rest) = rest.
Proof.
  induction done as [|y done IH]; simpl; [reflexivity | exact IH].
Qed.

Section Routing.
Variables (f : Form) (cs : obj Section_) (providers : list string) (final N : nat).

Lemma route_loop :
  forall (es : list (string * list string)) (done : list string) (A B : list Item) (n : nat),
    providers = done ++ map fst es ->
    (forall e, In e (sections_at n (map fst es)) -> obj_get cs (fst e) = Some (snd e)) ->
    Forall (fun x => itemId x < n \/ 3 * List.length es + n <= itemId x) A ->
    Forall (fun x => itemId x < n \/ 3 * List.length es + n <= itemId x) B ->
    forEach_from (List.length done) (map fst es) (route_next_step cs providers final)
      (with_items f (A ++ provider_items n es None ++ B) N) =
    (Ok tt, with_items f (A ++ provider_items n es (Some final) ++ B) N).
Proof.
  induction es as [|[P T] es IH]; intros done A B n Hprov Hcs HA HB.
  - reflexivity.
  - cbn [map fst forEach_from provider_items sections_at] in *.
    unfold bind at 1.
    assert (Hbody :
      route_next_step cs providers final P (List.length done)
        (with_items f
           (A ++ (item n PAGE_BREAK (P ++ " Technologies")
                    ("Select all " ++ P ++ " technologies you have experience with:") false []
                  :: item (1 + n) CHECKBOX (technology_title P)
                       ("Check all " ++ P ++ " services and technologies you have used:")
                       false (map plain_choice T)
                  :: item (2 + n) MULTIPLE_CHOICE "Next step"
                       "Choose another cloud to evaluate, or submit the feedback." true []
                  :: provider_items (3 + n) es None) ++ B) N) =
      (Ok tt,
       with_items f
         ((A ++ [item n PAGE_BREAK (P ++ " Technologies")
                   ("Select all " ++ P ++ " technologies you have experience with:") false [];
                 item (1 + n) CHECKBOX (technology_title P)
                   ("Check all " ++ P ++ " services and technologies you have used:")
                   false (map plain_choice T);
                 item (2 + n) MULTIPLE_CHOICE "Next step"
                   "Choose another cloud to evaluate, or submit the feedback." true
                   (nav_choices (sections_at (3 + n) (map fst es)) final)])
          ++ provider_items (3 + n) es None ++ B) N)).
    { unfold route_next_step. unfold bind at 1.
      rewrite (prop_run cs P _ _ (Hcs _ (or_introl eq_refl))). cbv beta iota zeta.
      unfold bind at 1.
      rewrite Hprov, skipn_app_cons.
      rewrite <- (sections_at_keys (3 + n) (map fst es)) at 1.
      rewrite nav_mapM by (intros e He; apply Hcs; now right).
      cbv beta iota. cbn [nextQuestion snd]. unfold setChoices.
      replace (A ++ (item n PAGE_BREAK (P ++ " Technologies")
                    ("Select all " ++ P ++ " technologies you have experience with:") false []
                  :: item (1 + n) CHECKBOX (technology_title P)
                       ("Check all " ++ P ++ " services and technologies you have used:")
                       false (map plain_choice T)
                  :: item (2 + n) MULTIPLE_CHOICE "Next step"
                       "Choose another cloud to evaluate, or submit the feedback." true []
                  :: provider_items (3 + n) es None) ++ B)
        with ((A ++ [item n PAGE_BREAK (P ++ " Technologies")
                    ("Select all " ++ P ++ " technologies you have experience with:") false [];
                  item (1 + n) CHECKBOX (technology_title P)
                       ("Check all " ++ P ++ " services and technologies you have used:")
                       false (map plain_choice T)])
              ++ item (2 + n) MULTIPLE_CHOICE "Next step"
                       "Choose another cloud to evaluate, or submit the feedback." true []
                 :: (provider_items (3 + n) es None ++ B))
        by (rewrite <- !app_assoc; reflexivity).
      rewrite update_at; [ | reflexivity | | ].
      - tidy. unfold nav_choices. rewrite <- !app_assoc. reflexivity.
      - apply Forall_app. split.
        + eapply Forall_impl; [|exact HA]. cbv beta. cbn [List.length]. intros; lia.
        + repeat (constructor; [cbn [itemId item]; lia|]). constructor.
      - apply Forall_app. split.
        + eapply Forall_impl; [|apply provider_items_ids]. cbv beta. intros; lia.
        + eapply Forall_impl; [|exact HB]. cbv beta. cbn [List.length]. intros; lia. }
    rewrite Hbody. cbv beta iota.
    replace (S (List.length done)) with (List.length (done ++ [P]))
      by (rewrite List.length_app; simpl; lia).
    rewrite IH.
    + rewrite <- !app_assoc. reflexivity.
    + rewrite <- app_assoc. exact Hprov.
    + intros e He. apply Hcs. now right.
    + apply Forall_app. split.
      * eapply Forall_impl; [|exact HA]. cbv beta. cbn [List.length]. intros; lia.
      * repeat (constructor; [cbn [itemId item]; lia|]). constructor.
    + eapply Forall_impl; [|exact HB]. cbv beta. cbn [List.length]. intros; lia.
Qed.

End Routing.

Lemma sections_at_lookup (n : nat) (ps : list string) :
  NoDup ps ->
  forall e, In e (sections_at n ps) -> obj_get (sections_at n ps) (fst e) = Some (snd e).
Proof.
  intros Hnd [k v] Hin. apply obj_get_NoDup_In; [|exact Hin].
  now rewrite sections_at_keys.
Qed.

Lemma setupConditionalNavigation_run (f : Form) (es : list (string * list string))
    (A B : list Item) (q m final N : nat) :
  NoDup (map fst es) ->
  own_key_order (map fst es) = map fst es ->
  Forall (fun x => itemId x < q) A ->
  q < m ->
  Forall (fun x => 3 * List.length es + m <= itemId x) B ->
  setupConditionalNavigation q (sections_at m (map fst es)) final
    (with_items f
       (A ++ item q MULTIPLE_CHOICE "Choose Your Cloud Provider" "" true []
          :: provider_items m es None ++ B) N) =
  (Ok tt,
   with_items f
     (A ++ item q MULTIPLE_CHOICE "Choose Your Cloud Provider" "" true
             (nav_choices (sections_at m (map fst es)) final)
        :: provider_items m es (Some final) ++ B) N).
Proof.
  intros Hnd Hord HA Hq HB.
  unfold setupConditionalNavigation, try_catch. cbv zeta.
  unfold Object_keys. rewrite sections_at_keys, Hord.
  unfold bind at 1.
  rewrite <- (sections_at_keys m (map fst es)) at 1.
  rewrite nav_mapM by (apply sections_at_lookup; exact Hnd).
  cbv beta iota. unfold bind at 1. unfold setChoices.
  rewrite update_at; [ | reflexivity | | ].
  - cbv beta iota. tidy. fold (nav_choices (sections_at m (map fst es)) final).
    pose proof (route_loop f (sections_at m (map fst es)) (map fst es) final N es []
                  (A ++ [item q MULTIPLE_CHOICE "Choose Your Cloud Provider" "" true
                           (nav_choices (sections_at m (map fst es)) final)]) B m) as Hloop.
    rewrite <- !app_assoc in Hloop. cbn [app List.length] in Hloop.
    rewrite Hloop; [reflexivity | reflexivity | | | ].
    + apply sections_at_lookup. exact Hnd.
    + apply Forall_app. split.
      * eapply Forall_impl; [|exact HA]. cbv beta. intros; lia.
      * repeat (constructor; [cbn [itemId item]; lia|]). constructor.
    + eapply Forall_impl; [|exact HB]. cbv beta. intros; lia.
  - eapply Forall_impl; [|exact HA]. cbv beta. intros; lia.
  - apply Forall_app. split.
    + eapply Forall_impl; [|apply provider_items_ids]. cbv beta. intros; lia.
    + eapply Forall_impl; [|exact HB]. cbv beta. intros; lia.
Qed.

Lemma entries_of_keys {A : Type} (o : obj A) (keys : list string) :
  (forall k, In k keys -> In k (map fst o)) -> map fst (entries_of o keys) = keys.
Proof.
  induction keys as [|k ks IH]; intros Hin; simpl; [reflexivity|].
  destruct (obj_get_In o k (Hin k (or_introl eq_refl))) as [v Hv]. rewrite Hv. simpl.
  f_equal. apply IH. intros; apply Hin; now right.
Qed.

(** The form that [build] leaves is the expected one, whatever the form held
    before. *)
Lemma build_run (catalog : obj (list string)) (form : Form) :
  well_formed catalog ->
  build catalog form =
  (Ok tt,
   with_items form (expected_items (nextId form) catalog)
     (3 * List.length (Object_keys catalog) + (7 + nextId form))).
Proof.
  intros [Hnd Hproto].
  set (n := nextId form). set (keys := Object_keys catalog).
  assert (Hkeys_in : forall k, In k keys -> In k (map fst catalog)).
  { intros k Hk. unfold keys, Object_keys in Hk.
    apply (proj1 (own_key_order_In _ _)) in Hk. exact Hk. }
  assert (Hkeys_nd : NoDup keys) by (apply own_key_order_NoDup; exact Hnd).
  assert (Hkeys_proto : ~ In "__proto__" keys).
  { intros Hin. apply Hproto. now apply Hkeys_in. }
  assert (Hes : map fst (entries_of catalog keys) = keys) by now apply entries_of_keys.
  assert (Hlen : List.length (entries_of catalog keys) = List.length keys).
  { rewrite <- Hes at 2. symmetry. apply length_map. }
  unfold build. unfold bind at 1. rewrite clearFormContent_run. cbv beta iota.
  fold n. unfold createCompleteFormStructure.
  unfold bind at 1. rewrite (createWelcomeSection_run form [] n) by constructor.
  cbv beta iota. unfold bind at 1.
  rewrite createCloudProviderSelection_run by (unfold welcome_items; below).
  cbv beta iota. unfold bind at 1. unfold createCloudTechnologySections, try_catch.
  fold keys.
  rewrite (sections_loop_run catalog form keys obj_empty); try assumption;
    [ | unfold welcome_items, selection_items; below | intros k _ [] ].
  cbv beta iota. unfold bind at 1.
  rewrite createFinalSubmissionPage_run.
  2:{ apply Forall_app. split; [unfold welcome_items, selection_items; below|].
      eapply Forall_impl; [|apply provider_items_ids]. cbv beta. rewrite Hlen. intros; lia. }
  cbv beta iota. cbn [app obj_empty].
  rewrite <- Hes at 1.
  pose proof (setupConditionalNavigation_run form (entries_of catalog keys)
                (welcome_items n ++ [item (3 + n) PAGE_BREAK "Cloud Provider Selection" "" false []])
                (final_items (3 * List.length keys + (5 + n)))
                (4 + n) (5 + n) (3 * List.length keys + (5 + n))
                (2 + (3 * List.length keys + (5 + n)))) as Hnav.
  unfold selection_items. rewrite <- !app_assoc in *. cbn [app] in *.
  change (2 + (3 + n)) with (5 + n). change (1 + (3 + n)) with (4 + n).
  rewrite Hnav.
  - unfold expected_items. fold keys. rewrite Hes, Hlen.
    unfold selection_items. cbn [app]. do 2 f_equal. lia.
  - now rewrite Hes.
  - rewrite Hes. apply own_key_order_idem.
  - unfold welcome_items. below.
  - lia.
  - rewrite Hlen.
    unfold final_items. repeat (constructor; [cbn [itemId item]; lia|]). constructor.
Qed.

(** *** Reading the expected form *)

Section Reading.
Variable final : nat.

Lemma provider_items_item_ids (fp : option nat) (es : list (string * list string)) :
  forall m, map itemId (provider_items m es fp) = seq m (3 * List.length es).
Proof.
  induction es as [|[P T] es IH]; intros m; [reflexivity|].
  cbn [provider_items map itemId item List.length]. rewrite IH.
  replace (3 * S (List.length es)) with (S (S (S (3 * List.length es)))) by lia.
  reflexivity.
Qed.

(** The page breaks among the items of the providers: one per provider, with
    the provider's name in the title and ids three apart. *)
Lemma provider_pages_titles (fp : option nat) (es : list (string * list string)) :
  forall m,
    map title (filter is_page_break (provider_items m es fp)) =
    map (fun P => P ++ " Technologies")%string (map fst es).
Proof.
  induction es as [|[P T] es IH]; intros m; [reflexivity|].
  cbn [provider_items filter is_page_break itemType item map fst title].
  now rewrite IH.
Qed.

Lemma provider_pages_nth (fp : option nat) (es : list (string * list string)) :
  forall m i page,
    nth_error (filter is_page_break (provider_items m es fp)) i = Some page ->
    itemId page = 3 * i + m /\ i < List.length es.
Proof.
  induction es as [|[P T] es IH]; intros m i page.
  - destruct i; discriminate.
  - cbn [provider_items filter is_page_break itemType item List.length].
    destruct i as [|i]; cbn [nth_error].
    + intros Heq. inversion Heq; subst. cbn [itemId item]. split; lia.
    + intros Hnth. apply IH in Hnth as [Hid Hlt]. split; lia.
Qed.


(** The choices that lead to the pages of the given providers. *)
Lemma nav_choices_pages (es : list (string * list string)) :
  forall m,
    nav_choices (sections_at m (map fst es)) final =
    map (fun pp => createChoice (fst pp) (itemId (snd pp)))
        (combine (map fst es) (filter is_page_break (provider_items m es (Some final)))) ++
    [createChoice "Go to Submit" final].
Proof.
  unfold nav_choices. intros m. f_equal. revert m.
  induction es as [|[P T] es IH]; intros m; [reflexivity|].
  cbn [provider_items filter is_page_break itemType item map fst snd sections_at combine
       pageBreak itemId].
  now rewrite IH.
Qed.

Lemma until_break_starts_page (l : list Item) : starts_page l -> until_break l = [].
Proof. destruct l as [|it l]; simpl; [reflexivity | now intros ->]. Qed.

Lemma provider_items_starts_page (es : list (string * list string)) (m : nat)
    (fp : option nat) (rest : list Item) :
  starts_page rest -> starts_page (provider_items m es fp ++ rest).
Proof. destruct es as [|[P T] es]; [exact (fun H => H) | reflexivity]. Qed.

(** The page of the [i]-th provider holds its checkbox question and its
    "Next step" question, whose choices lead to the pages of the providers
    after it and to the final page. *)
Lemma provider_page_questions (rest : list Item) :
  starts_page rest ->
  forall (es : list (string * list string)) (m i : nat) (page : Item),
    nth_error (filter is_page_break (provider_items m es (Some final))) i = Some page ->
    exists techQuestion nextQuestion : Item,
      page_after (provider_items m es (Some final) ++ rest) (itemId page) =
        [techQuestion; nextQuestion] /\
      itemType techQuestion = CHECKBOX /\
      title nextQuestion = "Next step" /\
      itemType nextQuestion = MULTIPLE_CHOICE /\
      choices nextQuestion =
        map (fun pp => createChoice (fst pp) (itemId (snd pp)))
            (combine (skipn (S i) (map fst es))
                     (skipn (S i) (filter is_page_break (provider_items m es (Some final))))) ++
        [createChoice "Go to Submit" final].
Proof.
  intros Hrest. induction es as [|[P T] es IH]; intros m i page Hnth.
  - destruct i; discriminate.
  - pose proof (provider_pages_nth _ _ _ _ _ Hnth) as [Hid _].
    cbn [provider_items filter is_page_break itemType item] in Hnth |- *.
    destruct i as [|i]; cbn [nth_error] in Hnth.
    + inversion Hnth; subst page. clear Hnth.
      cbn [app page_after is_page_break itemType item itemId andb].
      rewrite Nat.eqb_refl.
      cbn [until_break is_page_break itemType item].
      rewrite (until_break_starts_page _ (provider_items_starts_page es _ _ rest Hrest)).
      eexists. eexists. split; [reflexivity|].
      repeat split. cbn [choices item skipn map fst]. apply nav_choices_pages.
    + destruct (IH (3 + m) i page Hnth) as [tq [nq [Hpage Hrest']]].
      exists tq, nq. split; [|exact Hrest'].
      cbn [app page_after is_page_break itemType item itemId andb].
      replace (m =? itemId page)%nat with false by (symmetry; apply Nat.eqb_neq; lia).
      exact Hpage.
Qed.

End Reading.

Lemma NoDup_map_filter {A B : Type} (g : A -> B) (p : A -> bool) (l : list A) :
  NoDup (map g l) -> NoDup (map g (filter p l)).
Proof.
  induction l as [|x l IH]; simpl; intros Hnd; [constructor|].
  inversion Hnd as [|? ? Hx Hnd']; subst.
  destruct (p x); simpl; [|now apply IH].
  constructor; [|now apply IH].
  intros Hin. apply Hx. apply in_map_iff in Hin as [y [Hy Hin]].
  apply filter_In in Hin as [Hin _]. apply in_map_iff. now exists y.
Qed.

Lemma In_skipn_nth {A : Type} (l : list A) (s : nat) (x : A) :
  In x (skipn s l) -> exists j, s <= j /\ nth_error l j = Some x.
Proof.
  revert l. induction s as [|s IH]; intros l Hin.
  - apply In_nth_error in Hin as [j Hj]. exists j. split; [lia | exact Hj].
  - destruct l as [|y l]; [contradiction|]. simpl in Hin.
    apply IH in Hin as [j [Hle Hj]]. exists (S j). split; [lia | exact Hj].
Qed.

Section BuiltForm.
Variables (catalog : obj (list string)) (n : nat).

Let providers := Object_keys catalog.
Let entries := entries_of catalog providers.
Let final := 3 * List.length entries + (5 + n).
Let pages := filter is_page_break (provider_items (5 + n) entries (Some final)).
Let selection := item (3 + n) PAGE_BREAK "Cloud Provider Selection" "" false [].
Let final_page :=
  item final PAGE_BREAK "Feedback Complete"
    "Thank you for completing the Padawan cloud technology skills questionnaire!" false [].

Lemma entries_providers : map fst entries = providers.
Proof.
  apply entries_of_keys. intros k Hk. unfold providers, Object_keys in Hk.
  apply (proj1 (own_key_order_In _ _)) in Hk. exact Hk.
Qed.

Lemma expected_page_breaks :
  filter is_page_break (expected_items n catalog) = selection :: pages ++ [final_page].
Proof.
  unfold expected_items. fold providers entries final.
  rewrite !filter_app. reflexivity.
Qed.

Lemma expected_item_ids :
  map itemId (expected_items n catalog) = seq n (3 * List.length entries + 7).
Proof.
  unfold expected_items. fold providers entries final.
  rewrite !map_app, provider_items_item_ids.
  cbn [welcome_items selection_items final_items map itemId item app].
  replace (3 * List.length entries + 7) with (5 + (3 * List.length entries + 2)) by lia.
  rewrite (seq_app 5), (seq_app (3 * List.length entries)).
  cbn [seq app Nat.add]. unfold final.
  replace (n + 5 + 3 * List.length entries) with (3 * List.length entries + (5 + n)) by lia.
  replace (n + 5) with (5 + n) by lia.
  reflexivity.
Qed.

Lemma expected_opening :
  until_break (expected_items n catalog) = welcome_items n.
Proof. reflexivity. Qed.


Lemma expected_provider_page (id : nat) :
  5 + n <= id ->
  page_after (expected_items n catalog) id =
  page_after (provider_items (5 + n) entries (Some final) ++ final_items final) id.
Proof.
  intros Hid. unfold expected_items. fold providers entries final.
  cbn [welcome_items selection_items app page_after is_page_break itemType item itemId andb].
  replace (3 + n =? id)%nat with false by (symmetry; apply Nat.eqb_neq; lia).
  reflexivity.
Qed.

End BuiltForm.

(** ** C3: the pages of the built form and the provider-select question *)



(** ** C1: forward-only navigation *)

(** C1: for every catalog (an object filled by assignment: distinct keys,
    none of them [__proto__]) and every provider P at index [i] of the catalog,
    the page of P holds a "Next step" single-select question whose choices
    are, in order, one choice per provider at an index greater than [i],
    leading to that provider's page, and then "Go to Submit", leading to the
    final page.  No choice leads to the page of a provider at an index less
    than or equal to [i]. *)
Theorem next_step_forward_only (catalog : obj (list string)) (form : Form) :
  well_formed catalog ->
  let providers := Object_keys catalog in
  exists (form' : Form) (selection final : Item) (pages : list Item),
    build catalog form = (Ok tt, form') /\
    page_breaks form' = selection :: pages ++ [final] /\
    map title pages = map (fun P => P ++ " Technologies")%string providers /\
    forall (i : nat) (P : string) (page : Item),
      nth_error providers i = Some P ->
      nth_error pages i = Some page ->
      exists techQuestion nextQuestion : Item,
        questions_on form' (itemId page) = [techQuestion; nextQuestion] /\
        title nextQuestion = "Next step" /\
        itemType nextQuestion = MULTIPLE_CHOICE /\
        choices nextQuestion =
          map (fun pp => createChoice (fst pp) (itemId (snd pp)))
              (combine (skipn (S i) providers) (skipn (S i) pages)) ++
          [createChoice "Go to Submit" (itemId final)] /\
        forall (c : Choice) (k : nat) (earlier : Item),
          In c (choices nextQuestion) ->
          k <= i ->
          nth_error pages k = Some earlier ->
          gotoPage c <> Some (itemId earlier).
Proof.
  intros Hwf providers.
  set (n := nextId form).
  set (entries := entries_of catalog providers).
  set (final := 3 * List.length entries + (5 + n)).
  set (pages := filter is_page_break (provider_items (5 + n) entries (Some final))).
  assert (Hes : map fst entries = providers) by apply entries_providers.
  eexists. exists (item (3 + n) PAGE_BREAK "Cloud Provider Selection" "" false []).
  exists (item final PAGE_BREAK "Feedback Complete"
            "Thank you for completing the Padawan cloud technology skills questionnaire!"
            false []).
  exists pages.
  split; [apply (build_run catalog form Hwf)|].
  unfold page_breaks, questions_on. cbn [items with_items itemId item]. fold n.
  split; [apply expected_page_breaks|].
  split; [unfold pages; rewrite provider_pages_titles; now rewrite Hes|].
  intros i P page HP Hpage.
  destruct (provider_pages_nth _ _ _ _ _ Hpage) as [Hid Hi].
  destruct (provider_page_questions final (final_items final) eq_refl entries (5 + n) i page Hpage)
    as [tq [nq [Hq [_ [Htitle [Htype Hchoices]]]]]].
  exists tq, nq.
  split; [rewrite expected_provider_page by lia; exact Hq|].
  split; [exact Htitle|]. split; [exact Htype|].
  rewrite Hes in Hchoices. fold pages in Hchoices.
  split; [exact Hchoices|].
  intros c k earlier Hc Hk Hearlier.
  destruct (provider_pages_nth _ _ _ _ _ Hearlier) as [Hidk Hklt].
  rewrite Hchoices in Hc. apply in_app_iff in Hc as [Hc | [<- | []]].
  - apply in_map_iff in Hc as [[Q later] [<- Hin]]. apply in_combine_r in Hin.
    apply In_skipn_nth in Hin as [j [Hj Hlater]].
    destruct (provider_pages_nth _ _ _ _ _ Hlater) as [Hidj _].
    cbn [createChoice gotoPage snd]. intros Heq. inversion Heq. lia.
  - cbn [createChoice gotoPage]. intros Heq. inversion Heq. unfold final in *. lia.
Qed.

Lemma next_step_forward_only_witness :
  let providers := Object_keys example_catalog in
  exists (form' : Form) (selection final : Item) (pages : list Item),
    build example_catalog example_form = (Ok tt, form') /\
    page_breaks form' = selection :: pages ++ [final] /\
    map title pages = map (fun P => P ++ " Technologies")%string providers /\
    forall (i : nat) (P : string) (page : Item),
      nth_error providers i = Some P ->
      nth_error pages i = Some page ->
      exists techQuestion nextQuestion : Item,
        questions_on form' (itemId page) = [techQuestion; nextQuestion] /\
        title nextQuestion = "Next step" /\
        itemType nextQuestion = MULTIPLE_CHOICE /\
        choices nextQuestion =
          map (fun pp => createChoice (fst pp) (itemId (snd pp)))
              (combine (skipn (S i) providers) (skipn (S i) pages)) ++
          [createChoice "Go to Submit" (itemId final)] /\
        forall (c : Choice) (k : nat) (earlier : Item),
          In c (choices nextQuestion) ->
          k <= i ->
          nth_error pages k = Some earlier ->
          gotoPage c <> Some (itemId earlier).
Proof.
  apply (next_step_forward_only example_catalog example_form).
  split; simpl.
  - repeat constructor; simpl; intuition discriminate.
  - intuition discriminate.
Defined.

(** ** C6: an empty catalog *)

Section EmptyCatalog.
Context {cell : Type} `{JSValue cell}.

(** With no provider tab the build fails and leaves the form as it was. *)
Lemma no_provider_tabs_fails (ss : Spreadsheet cell) (form : Form) :
  getAllCloudProvidersFromTabs ss = [] ->
  initializeFormV5 (Ok ss) (Ok form) = (Failure NO_PROVIDER_TABS, Ok form).
Proof.
  intros Hnone. unfold initializeFormV5, initialize. rewrite Hnone. reflexivity.
Qed.

(** A provider whose sheet cannot be read is loaded as having no technology. *)
Lemma failed_read_loads_nothing (ss : Spreadsheet cell) (provider e : string) :
  Sheets.getSheetByName ss provider = Throw e \/ Sheets.getSheetByName ss provider = Ok None ->
  loadTechnologiesFromSheet ss provider = [].
Proof.
  unfold loadTechnologiesFromSheet. intros [-> | ->]; reflexivity.
Qed.

(** A provider that loads no technology is skipped; the others are loaded as
    if it were not there. *)
Lemma empty_load_skipped (ss : Spreadsheet cell) (provider : string)
    (before after : list string) :
  loadTechnologiesFromSheet ss provider = [] ->
  loadAllCloudTechnologies ss (before ++ provider :: after) =
  loadAllCloudTechnologies ss (before ++ after).
Proof.
  intros Hempty. unfold loadAllCloudTechnologies.
  rewrite !fold_left_app. cbn [fold_left]. rewrite Hempty. reflexivity.
Qed.

End EmptyCatalog.

(** C6 does not hold of the code.  The only guard against an empty catalog is
    on the list of tabs found, before any technology is loaded.  A tab that is
    listed with data but whose load then fails is skipped, and when that
    leaves no provider at all the build goes on: it reports success and
    leaves a form with the selection page and the final page only, whose one
    choice is "Go to Submit". *)
Theorem failed_loads_publish_empty_form (form : Form) (e : string) :
  let ss : Spreadsheet string :=
    {| getSheets := Ok [ {| getName := "AWS"; getDataRange := Ok [["EC2"]] |} ];
       Sheets.getSheetByName := fun _ => Throw e |} in
  getAllCloudProvidersFromTabs ss = ["AWS"] /\
  loadAllCloudTechnologies ss ["AWS"] = obj_empty /\
  exists form' cloudQuestion,
    initializeFormV5 (Ok ss) (Ok form) =
      (Success {| formUrl := publishedUrl form; data_editUrl := editUrl form;
                  cloudProviders := ["AWS"]; totalTechnologies := 0;
                  cloudData := obj_empty |},
       Ok form') /\
    map title (page_breaks form') = ["Cloud Provider Selection"; "Feedback Complete"] /\
    In cloudQuestion (items form') /\
    title cloudQuestion = "Choose Your Cloud Provider" /\
    map choiceValue (choices cloudQuestion) = ["Go to Submit"].
Proof.
  intros ss. split; [reflexivity|]. split; [reflexivity|].
  eexists. eexists.
  unfold initializeFormV5, initialize.
  change (getAllCloudProvidersFromTabs ss) with ["AWS"].
  change (loadAllCloudTechnologies ss ["AWS"]) with (@obj_empty (list string)).
  cbn [List.length Nat.eqb]. unfold bind at 1.
  rewrite (build_run obj_empty form); [|split; [constructor | intros []]].
  cbv beta iota. cbn [publishedUrl editUrl with_items].
  split; [reflexivity|].
  unfold page_breaks. cbn [items].
  split; [reflexivity|].
  split; [right; right; right; right; left; reflexivity|].
  split; reflexivity.
Qed.

(** ** The labeling convention *)

Section Labels.

(** The marker does not overlap itself: no proper tail of it is a head of it. *)
Lemma marker_no_border (k : nat) :
  1 <= k < String.length MARKER -> startsWith MARKER (skip k MARKER) = false.
Proof.
  intros [Hlo Hhi]. simpl in Hhi.
  do 22 (destruct k as [|k]; [first [lia | reflexivity]|]). lia.
Qed.

Lemma startsWith_marker_seam (c : ascii) (p : string) :
  startsWith (String c p) MARKER = false ->
  startsWith (String c p ++ MARKER) MARKER = false.
Proof.
  intros Hp. destruct (startsWith (String c p ++ MARKER) MARKER) eqn:E; [|reflexivity].
  apply startsWith_app in E as [E | [Hlen E]].
  - congruence.
  - rewrite marker_no_border in E; [discriminate|]. simpl in *. lia.
Qed.

(** Removing the first occurrence of the marker from a title gives back a
    name that does not itself contain the marker. *)
Lemma replace_marker (P : string) :
  includes P MARKER = false -> replace (P ++ MARKER) MARKER "" = P.
Proof.
  induction P as [|c P IH]; intros Hinc.
  - reflexivity.
  - apply includes_cons_false in Hinc as [Hhead Htail].
    change (String c P ++ MARKER)%string with (String c (P ++ MARKER)).
    cbn [replace].
    change (String c (P ++ MARKER)) with (String c P ++ MARKER)%string.
    rewrite (startsWith_marker_seam _ _ Hhead).
    now rewrite (IH Htail).
Qed.

Lemma title_includes_marker (P : string) :
  includes (technology_title P) "Technology Experience" = true.
Proof. unfold technology_title. apply includes_app_r. reflexivity. Qed.

(** A title that ends in the marker is none of the titles matched exactly. *)
Lemma title_not_exact (P t : string) :
  (skip (String.length t - String.length MARKER) t =? MARKER) = false ->
  (technology_title P =? t) = false.
Proof.
  intros Hs. apply String.eqb_neq. intros Heq.
  apply suffix_skip in Heq. apply String.eqb_neq in Hs. contradiction.
Qed.

End Labels.

(** ** C8: decoding a checkbox title *)

Section LabelRoundTrip.

(** What the decoding does get right: for every trimmed provider name that
    does not contain " Technology Experience", the title the builder gives
    its checkbox question decodes to that name, and the processor files the
    answer to that question under that name. *)
Lemma label_round_trip (P : string) :
  trim P = P ->
  includes P " Technology Experience" = false ->
  cloud_of_title (technology_title P) = P /\
  forall (d : SubmissionData) (a : Answer),
    record_answer d {| questionTitle := technology_title P; answer := a |} =
    set_technologies d (tech_set (technologies d) P (array_or_empty a)).
Proof.
  intros Htrim Hinc.
  assert (Hdec : cloud_of_title (technology_title P) = P).
  { unfold cloud_of_title, technology_title.
    change " Technology Experience" with MARKER.
    rewrite (replace_marker P Hinc). exact Htrim. }
  split; [exact Hdec|].
  intros d a. unfold record_answer. cbn [questionTitle answer].
  rewrite !title_not_exact by reflexivity.
  rewrite title_includes_marker, Hdec. reflexivity.
Qed.

Lemma label_round_trip_witness :
  cloud_of_title (technology_title "AWS") = "AWS" /\
  forall (d : SubmissionData) (a : Answer),
    record_answer d {| questionTitle := technology_title "AWS"; answer := a |} =
    set_technologies d (tech_set (technologies d) "AWS" (array_or_empty a)).
Proof. apply (label_round_trip "AWS"); reflexivity. Defined.

(** C8 does not hold of the code.  The builder titles the checkbox question of
    a provider with the tab name as it is followed by " Technology
    Experience"; the processor undoes this by removing the first occurrence of
    " Technology Experience" and trimming.  For the trimmed tab name
    "A Technology Experience B" the first occurrence is the one inside the
    name, and for the tab name "AWS " (which the tab filter and the loader
    keep untrimmed) the trimming removes a space of the name: in both cases
    the title decodes to another name, the technologies answered on the
    provider's page are filed under that other name, and the row written for
    the provider carries no technology. *)
Theorem provider_label_misdecoded (now : Z) (respondent : string) :
  trim "A Technology Experience B" = "A Technology Experience B" /\
  Forall
    (fun P =>
       let ss := workbook "" [(P, [["EC2"]; ["S3"]])] in
       let catalog := loadAllCloudTechnologies ss (getAllCloudProvidersFromTabs ss) in
       let response :=
         {| getItemResponses :=
              [ {| questionTitle := "Full Name of a Padawan"; answer := Text "Ann" |};
                {| questionTitle := "Project Name"; answer := Text "Apollo" |};
                {| questionTitle := "Choose Your Cloud Provider"; answer := Text P |};
                {| questionTitle := technology_title P; answer := Items ["EC2"; "S3"] |};
                {| questionTitle := "Next step"; answer := Text "Go to Submit" |} ];
            getRespondentEmail := respondent |} in
       catalog = [(P, ["EC2"; "S3"])] /\
       map title (filter is_checkbox (items (snd (build catalog example_form)))) =
         [technology_title P] /\
       cloud_of_title (technology_title P) <> P /\
       obj_get (own (technologies (scan now response))) P = None /\
       obj_get (own (technologies (scan now response))) (cloud_of_title (technology_title P)) =
         Some ["EC2"; "S3"] /\
       process now response =
         [ {| row_timestamp := now; row_name := Text "Ann"; row_projectName := Text "Apollo";
              row_cloud := P; row_count := 0; row_technologies := "";
              row_comments := Text ""; row_email := respondent |} ])
    ["A Technology Experience B"; "AWS "].
Proof.
  split; [reflexivity|].
  repeat (apply Forall_cons;
          [repeat split; try reflexivity; discriminate|]).
  apply Forall_nil.
Qed.

End LabelRoundTrip.

(** ** The processor: what one run writes *)

Section Sink.

Lemma find_tab_append_to (ts : list (string * list Row)) (name : string) (row : Row) :
  option_map snd (find (fun t => fst t =? name) (append_to ts name row)) =
  option_map (fun rows => rows ++ [row]) (option_map snd (find (fun t => fst t =? name) ts)).
Proof.
  induction ts as [|[n rows] ts IH]; simpl; [reflexivity|].
  destruct (n =? name) eqn:E; simpl; rewrite E; [reflexivity | exact IH].
Qed.

Lemma get_appendRow (w : World) (row : Row) :
  getSheetByName (appendRow w row) RESPONSES_SHEET =
  option_map (fun rows => rows ++ [row]) (getSheetByName w RESPONSES_SHEET).
Proof. apply find_tab_append_to. Qed.

Lemma get_insertSheet (w : World) :
  getSheetByName w RESPONSES_SHEET = None ->
  getSheetByName (insertSheet w RESPONSES_SHEET) RESPONSES_SHEET = Some [].
Proof.
  unfold getSheetByName, insertSheet. cbn [tabs].
  induction (tabs w) as [|[n rows] ts IH]; simpl; [reflexivity|].
  destruct (n =? RESPONSES_SHEET); simpl; [discriminate | exact IH].
Qed.

Lemma get_console (w : World) (e : LogEntry) (name : string) :
  getSheetByName (console_ w e) name = getSheetByName w name.
Proof. reflexivity. Qed.

Lemma get_write_clouds (d : SubmissionData) (clouds : list string) :
  forall w : World,
    getSheetByName (snd (write_clouds d clouds w)) RESPONSES_SHEET =
    option_map (fun rows => rows ++ map Data (cloud_rows d clouds))
               (getSheetByName w RESPONSES_SHEET).
Proof.
  induction clouds as [|cloud rest IH]; intros w; simpl.
  - destruct (getSheetByName w RESPONSES_SHEET); simpl; [now rewrite app_nil_r | reflexivity].
  - destruct (techList_of (technologies d) cloud) as [techList|e]; simpl.
    + rewrite IH, get_appendRow.
      destruct (getSheetByName w RESPONSES_SHEET); simpl; [|reflexivity].
      now rewrite <- app_assoc.
    + destruct (getSheetByName w RESPONSES_SHEET); simpl; [now rewrite app_nil_r | reflexivity].
Qed.

(** [saveSubmissionV5] leaves the earlier rows in place and appends
    [rows_of submissionData] after them. *)
Lemma saveSubmissionV5_appends (d : SubmissionData) (w : World) :
  getSheetByName (saveSubmissionV5 d w) RESPONSES_SHEET =
  Some (base_rows w ++ map Data (rows_of d)).
Proof.
  unfold saveSubmissionV5, base_rows, rows_of.
  set (w1 := match getSheetByName w RESPONSES_SHEET with
             | Some _ => w
             | None => appendRow (insertSheet w RESPONSES_SHEET) (Headers headers)
             end).
  assert (Hw1 : getSheetByName w1 RESPONSES_SHEET =
                Some (match getSheetByName w RESPONSES_SHEET with
                      | Some rows => rows
                      | None => [Headers headers]
                      end)).
  { subst w1. destruct (getSheetByName w RESPONSES_SHEET) eqn:E; [exact E|].
    rewrite get_appendRow, (get_insertSheet _ E). reflexivity. }
  destruct (selectedCloudProvider d) as [|c cs] eqn:Ec.
  - simpl. rewrite get_appendRow, Hw1. reflexivity.
  - cbn [List.length Nat.eqb].
    pose proof (get_write_clouds d (c :: cs) w1) as Hwr. rewrite Hw1 in Hwr.
    destruct (write_clouds d (c :: cs) w1) as [[u|e] w2]; rewrite get_console; exact Hwr.
Qed.

Lemma records_Data (l : list OutputRecord) : records (map Data l) = l.
Proof. induction l as [|r l IH]; simpl; [reflexivity | now rewrite IH]. Qed.

Lemma onFormSubmitV5_result (now : Z) (response : FormResponse) (w : World) :
  fst (onFormSubmitV5 now response w) = Success (finish (scan now response)).
Proof. reflexivity. Qed.

(** Whatever the spreadsheet holds, a run appends the rows of [process] to the
    responses tab, after the rows that are there. *)
Lemma onFormSubmitV5_appends (now : Z) (response : FormResponse) (w : World) :
  getSheetByName (snd (onFormSubmitV5 now response w)) RESPONSES_SHEET =
  Some (base_rows w ++ map Data (process now response)) /\
  process now response = rows_of (finish (scan now response)).
Proof.
  assert (Hp : process now response = rows_of (finish (scan now response))).
  { unfold process, onFormSubmitV5. cbn [snd].
    rewrite saveSubmissionV5_appends. apply (records_Data (rows_of _)). }
  split; [|exact Hp].
  rewrite Hp. unfold onFormSubmitV5. cbn [snd].
  rewrite saveSubmissionV5_appends. reflexivity.
Qed.

Lemma process_rows (now : Z) (response : FormResponse) :
  process now response = rows_of (finish (scan now response)).
Proof. apply onFormSubmitV5_appends; exact empty_world. Qed.

End Sink.

(** ** C4: a response that visits no provider *)

Section NoProvider.

(** Answers to questions other than the provider select and the next step
    record no provider. *)
Lemma record_answer_no_provider (d : SubmissionData) (ir : ItemResponse) :
  (questionTitle ir =? "Choose Your Cloud Provider") = false ->
  (questionTitle ir =? "Next step") = false ->
  selectedCloudProvider (record_answer d ir) = selectedCloudProvider d.
Proof.
  intros H1 H2. unfold record_answer. rewrite H1, H2.
  repeat match goal with |- context [if ?b then _ else _] => destruct b end; reflexivity.
Qed.

Lemma scan_no_provider (now : Z) (response : FormResponse) :
  Forall (fun ir => (questionTitle ir =? "Choose Your Cloud Provider") = false /\
                    (questionTitle ir =? "Next step") = false)
         (getItemResponses response) ->
  selectedCloudProvider (scan now response) = [].
Proof.
  unfold scan.
  set (d0 := {| timestamp := now; name := Text ""; projectName := Text "";
                selectedCloudProvider := []; technologies := no_technologies;
                comments := Text ""; email := getRespondentEmail response;
                technologiesCount := None; technologiesSummary := None |}).
  assert (Hgen : forall l d, Forall (fun ir =>
              (questionTitle ir =? "Choose Your Cloud Provider") = false /\
              (questionTitle ir =? "Next step") = false) l ->
            selectedCloudProvider (fold_left record_answer l d) = selectedCloudProvider d).
  { induction l as [|ir l IH]; intros d Hl; simpl; [reflexivity|].
    inversion Hl as [|? ? [H1 H2] Hl']; subst.
    rewrite (IH _ Hl'). now apply record_answer_no_provider. }
  intros Hl. now rewrite (Hgen _ d0 Hl).
Qed.

(** C4: when the list of visited providers of a response is empty, the run
    still writes exactly one record: the one with the empty provider field,
    item count 0 and empty item list.  The response is not dropped. *)
Theorem no_provider_one_record (now : Z) (response : FormResponse) :
  selectedCloudProvider (scan now response) = [] ->
  process now response = [fallback_row (scan now response)] /\
  exists r : OutputRecord,
    process now response = [r] /\
    row_cloud r = "" /\ row_count r = 0 /\ row_technologies r = "".
Proof.
  intros Hnone.
  assert (Hp : process now response = [fallback_row (scan now response)]).
  { rewrite process_rows. unfold rows_of, finish.
    cbn [selectedCloudProvider set_summary set_selectedCloudProvider].
    rewrite Hnone. reflexivity. }
  split; [exact Hp|].
  exists (fallback_row (scan now response)). repeat split. exact Hp.
Qed.

Lemma no_provider_one_record_witness :
  let response :=
    {| getItemResponses :=
         [ {| questionTitle := "Full Name of a Padawan"; answer := Text "Ann" |};
           {| questionTitle := "Project Name"; answer := Text "Apollo" |};
           {| questionTitle := "Additional Comments (Optional)"; answer := Text "none" |} ];
       getRespondentEmail := "lead@example.org" |} in
  process 1700000000000 response = [fallback_row (scan 1700000000000 response)] /\
  exists r : OutputRecord,
    process 1700000000000 response = [r] /\
    row_cloud r = "" /\ row_count r = 0 /\ row_technologies r = "".
Proof.
  apply (no_provider_one_record 1700000000000
           {| getItemResponses :=
                [ {| questionTitle := "Full Name of a Padawan"; answer := Text "Ann" |};
                  {| questionTitle := "Project Name"; answer := Text "Apollo" |};
                  {| questionTitle := "Additional Comments (Optional)";
                     answer := Text "none" |} ];
              getRespondentEmail := "lead@example.org" |}).
  reflexivity.
Defined.

End NoProvider.

(** ** C2: skipping on the first question *)

Section SkipOnSelect.

(** C2 does not hold of the code.  The answer "Go to Submit" to the
    provider-select question is recorded as a visited provider (only the
    next-step branch filters it out), so the one record written carries
    "Go to Submit" in its provider field, not the empty string. *)
Theorem skip_on_select_recorded_as_provider
    (now : Z) (fullName project respondent : string) :
  process now
    {| getItemResponses :=
         [ {| questionTitle := "Full Name of a Padawan"; answer := Text fullName |};
           {| questionTitle := "Project Name"; answer := Text project |};
           {| questionTitle := "Choose Your Cloud Provider";
              answer := Text "Go to Submit" |} ];
       getRespondentEmail := respondent |} =
  [ {| row_timestamp := now;
       row_name := or_empty (Text fullName);
       row_projectName := or_empty (Text project);
       row_cloud := "Go to Submit";
       row_count := 0;
       row_technologies := "";
       row_comments := Text "";
       row_email := respondent |} ].
Proof. reflexivity. Qed.

(** The same answer given to a next-step question is left out. *)
Lemma skip_on_next_step_not_recorded (d : SubmissionData) :
  record_answer d {| questionTitle := "Next step"; answer := Text "Go to Submit" |} = d.
Proof. reflexivity. Qed.

End SkipOnSelect.

(** ** C5: repeated providers *)

Section Dedup.

Lemma mem_app (y : string) (l1 l2 : list string) :
  mem y (l1 ++ l2) = mem y l1 || mem y l2.
Proof. unfold mem. apply existsb_app. Qed.

Lemma filter_unseen_known (x : string) (seen L : list string) :
  mem x seen = true ->
  filter (fun y => negb (mem y seen)) (filter (fun y => negb (y =? x)) L) =
  filter (fun y => negb (mem y seen)) L.
Proof.
  intros Ex. induction L as [|y ys IH]; simpl; [reflexivity|].
  destruct (y =? x) eqn:Eyx; simpl.
  - apply String.eqb_eq in Eyx. subst y. rewrite Ex. simpl. exact IH.
  - destruct (mem y seen); simpl; now rewrite IH.
Qed.

Lemma filter_unseen_new (x : string) (seen L : list string) :
  filter (fun y => negb (mem y (seen ++ [x]))) L =
  filter (fun y => negb (mem y seen)) (filter (fun y => negb (y =? x)) L).
Proof.
  induction L as [|y ys IH]; simpl; [reflexivity|].
  rewrite mem_app. unfold mem at 2. simpl. rewrite orb_false_r.
  destruct (y =? x) eqn:Eyx; simpl.
  - now rewrite orb_true_r.
  - rewrite orb_false_r. destruct (mem y seen); simpl; now rewrite IH.
Qed.

Lemma dedupe_from (l seen : list string) :
  fold_left (fun seen x => if mem x seen then seen else seen ++ [x]) l seen =
  seen ++ filter (fun y => negb (mem y seen)) (first_seen l).
Proof.
  revert seen. induction l as [|x l IH]; intros seen; simpl.
  - now rewrite app_nil_r.
  - destruct (mem x seen) eqn:Ex; rewrite IH; simpl.
    + now rewrite (filter_unseen_known _ _ _ Ex).
    + rewrite <- app_assoc. simpl. now rewrite filter_unseen_new.
Qed.

(** [dedupe] keeps each element once, at its first occurrence. *)
Lemma dedupe_first_seen (l : list string) : dedupe l = first_seen l.
Proof.
  unfold dedupe. rewrite dedupe_from. simpl.
  induction (first_seen l) as [|y ys IH]; simpl; [reflexivity | now rewrite IH].
Qed.

Lemma first_seen_In (l : list string) (x : string) : In x (first_seen l) <-> In x l.
Proof.
  induction l as [|y l IH]; simpl; [tauto|].
  rewrite filter_In, IH. destruct (x =? y) eqn:E.
  - apply String.eqb_eq in E. subst. simpl. intuition discriminate.
  - apply String.eqb_neq in E. simpl. intuition congruence.
Qed.

Lemma first_seen_NoDup (l : list string) : NoDup (first_seen l).
Proof.
  induction l as [|y l IH]; simpl; constructor.
  - rewrite filter_In, String.eqb_refl. simpl. intros [_ Hf]. discriminate.
  - now apply NoDup_filter.
Qed.

Lemma cloud_rows_clouds (d : SubmissionData) (clouds : list string) :
  Forall (fun c => exists l, techList_of (technologies d) c = Ok l) clouds ->
  map row_cloud (cloud_rows d clouds) = clouds.
Proof.
  induction 1 as [|c cs [l Hl] _ IH]; simpl; [reflexivity|].
  rewrite Hl. simpl. now rewrite IH.
Qed.

(** What the code does for repeated providers when every visited provider is
    one whose technology list can be read: one record per distinct provider,
    in order of first occurrence among the answers. *)
Lemma one_record_per_visited_provider (now : Z) (response : FormResponse) :
  let answers := selectedCloudProvider (scan now response) in
  answers <> [] ->
  Forall (fun c => exists l, techList_of (technologies (scan now response)) c = Ok l)
         (first_seen answers) ->
  map row_cloud (process now response) = first_seen answers /\
  NoDup (map row_cloud (process now response)) /\
  forall P, In P answers -> count_occ string_dec (map row_cloud (process now response)) P = 1.
Proof.
  intros answers Hne Hok.
  assert (Hrows : map row_cloud (process now response) = first_seen answers).
  { rewrite process_rows. unfold rows_of, finish.
    cbn [selectedCloudProvider set_summary set_selectedCloudProvider].
    fold answers. rewrite dedupe_first_seen.
    destruct (first_seen answers) as [|c cs] eqn:Efs.
    - destruct answers; [contradiction | discriminate].
    - apply cloud_rows_clouds. exact Hok. }
  rewrite Hrows. split; [reflexivity|]. split; [apply first_seen_NoDup|].
  intros P HP. apply NoDup_count_occ'; [apply first_seen_NoDup|].
  now apply first_seen_In.
Qed.

(** The two-provider walk: AWS with EC2 checked, then Azure with VM checked,
    then submit. *)
Example two_providers_two_records :
  let response :=
    {| getItemResponses :=
         [ {| questionTitle := "Full Name of a Padawan"; answer := Text "Ann" |};
           {| questionTitle := "Project Name"; answer := Text "Apollo" |};
           {| questionTitle := "Choose Your Cloud Provider"; answer := Text "AWS" |};
           {| questionTitle := "AWS Technology Experience"; answer := Items ["EC2"] |};
           {| questionTitle := "Next step"; answer := Text "Azure" |};
           {| questionTitle := "Azure Technology Experience"; answer := Items ["VM"] |};
           {| questionTitle := "Next step"; answer := Text "Go to Submit" |} ];
       getRespondentEmail := "lead@example.org" |} in
  map (fun r => (row_cloud r, row_count r, row_technologies r)) (process 0 response) =
  [("AWS", 1, "EC2"); ("Azure", 1, "VM")].
Proof. reflexivity. Qed.

(** A provider whose name is not found along the prototype chain of the
    technologies object can always be read: as its recorded list, or as no
    list at all. *)
Lemma techList_of_plain (t : Technologies) (cloud : string) :
  proto t = None ->
  cloud <> "__proto__" ->
  mem cloud Object_prototype_keys = false ->
  exists l, techList_of t cloud = Ok l.
Proof.
  intros Hp Hk Hm. unfold techList_of, tech_get.
  destruct (obj_get (own t) cloud) as [l|]; [simpl; eauto|].
  apply String.eqb_neq in Hk. rewrite Hp, Hk, Hm. simpl. eauto.
Qed.

(** C5 does not hold of the code.  The technology list of a visited provider
    is read with [techByCloud[cloud] || []] from a plain object.  For a
    provider called "constructor" with no recorded list, that read finds the
    function inherited from [Object.prototype]; [techList.join] then throws,
    [saveSubmissionV5] catches and logs, and no record is written for the
    provider, which the answers name twice. *)
Theorem repeated_constructor_provider_no_record (now : Z) (respondent : string) :
  let response :=
    {| getItemResponses :=
         [ {| questionTitle := "Choose Your Cloud Provider"; answer := Text "constructor" |};
           {| questionTitle := "Next step"; answer := Text "constructor" |} ];
       getRespondentEmail := respondent |} in
  selectedCloudProvider (scan now response) = ["constructor"; "constructor"] /\
  process now response = [] /\
  console (snd (onFormSubmitV5 now response empty_world)) =
    [ log "=== PROCESSING FORM SUBMISSION V5 ===";
      log_submission (Text "") (Text "") ["constructor"; "constructor"] Undefined;
      error "Error saving submission V5:" "TypeError: techList.join is not a function" ].
Proof. repeat split. Qed.

End Dedup.

(** ** C7: running the processor twice *)

Section Twice.

Lemma record_answer_retime (t : Z) (d : SubmissionData) (ir : ItemResponse) :
  record_answer (retime t d) ir = retime t (record_answer d ir).
Proof.
  unfold record_answer.
  repeat match goal with |- context [if ?b then _ else _] => destruct b end; reflexivity.
Qed.

Lemma scan_retime (now1 now2 : Z) (response : FormResponse) :
  scan now2 response = retime now2 (scan now1 response).
Proof.
  unfold scan.
  set (d1 := {| timestamp := now1; name := Text ""; projectName := Text "";
                selectedCloudProvider := []; technologies := no_technologies;
                comments := Text ""; email := getRespondentEmail response;
                technologiesCount := None; technologiesSummary := None |}).
  change {| timestamp := now2; name := Text ""; projectName := Text "";
            selectedCloudProvider := []; technologies := no_technologies;
            comments := Text ""; email := getRespondentEmail response;
            technologiesCount := None; technologiesSummary := None |}
    with (retime now2 d1).
  generalize d1. induction (getItemResponses response) as [|ir l IH]; intros d; simpl.
  - reflexivity.
  - rewrite record_answer_retime. apply IH.
Qed.

Lemma cloud_rows_retime (t : Z) (d : SubmissionData) (clouds : list string) :
  cloud_rows (retime t d) clouds = map (stamped t) (cloud_rows d clouds).
Proof.
  induction clouds as [|c cs IH]; simpl; [reflexivity|].
  destruct (techList_of (technologies d) c); simpl; [now rewrite IH | reflexivity].
Qed.

Lemma rows_of_retime (t : Z) (d : SubmissionData) :
  rows_of (finish (retime t d)) = map (stamped t) (rows_of (finish d)).
Proof.
  change (finish (retime t d)) with (retime t (finish d)).
  unfold rows_of. cbn [selectedCloudProvider retime].
  destruct (selectedCloudProvider (finish d)); [reflexivity | apply cloud_rows_retime].
Qed.

Lemma cloud_rows_timestamp (d : SubmissionData) (clouds : list string) :
  Forall (fun r => row_timestamp r = timestamp d) (cloud_rows d clouds).
Proof.
  induction clouds as [|c cs IH]; simpl; [constructor|].
  destruct (techList_of (technologies d) c); constructor; [reflexivity | exact IH].
Qed.

Lemma scan_timestamp (now : Z) (response : FormResponse) :
  timestamp (scan now response) = now.
Proof.
  rewrite (scan_retime now now). reflexivity.
Qed.

(** C7, as stated, fails: the timestamp of a record is the clock reading of
    the run ([new Date()]), not a field of the response.  A response that
    answers the required questions of the built form and visits one provider
    gets different records from two runs at different times. *)
Lemma process_twice_counterexample :
  let response :=
    {| getItemResponses :=
         [ {| questionTitle := "Full Name of a Padawan"; answer := Text "Ann" |};
           {| questionTitle := "Project Name"; answer := Text "Apollo" |};
           {| questionTitle := "Choose Your Cloud Provider"; answer := Text "AWS" |};
           {| questionTitle := "AWS Technology Experience"; answer := Items ["EC2"] |};
           {| questionTitle := "Next step"; answer := Text "Go to Submit" |} ];
       getRespondentEmail := "lead@example.org" |} in
  process 1000 response <> process 2000 response.
Proof. intros response Heq. vm_compute in Heq. discriminate. Qed.

(** C7, amended: two runs on the same response write lists of records that
    agree in length, in order and in every field but the timestamp; each
    record carries the clock reading of its own run.  So the two lists are
    equal exactly when both runs read the same time or no record is written
    at all. *)
Theorem process_twice (now1 now2 : Z) (response : FormResponse) :
  process now2 response = map (stamped now2) (process now1 response) /\
  Forall (fun r => row_timestamp r = now1) (process now1 response) /\
  Forall (fun r => row_timestamp r = now2) (process now2 response) /\
  (process now1 response = process now2 response <->
   now1 = now2 \/ process now1 response = []).
Proof.
  assert (Hstamp : forall now, Forall (fun r => row_timestamp r = now) (process now response)).
  { intros now. rewrite process_rows. unfold rows_of.
    destruct (selectedCloudProvider (finish (scan now response))).
    - constructor; [apply scan_timestamp | constructor].
    - pose proof (cloud_rows_timestamp (finish (scan now response)) (s :: l)) as Hr.
      change (timestamp (finish (scan now response))) with (timestamp (scan now response)) in Hr.
      now rewrite scan_timestamp in Hr. }
  assert (Hmap : process now2 response = map (stamped now2) (process now1 response)).
  { rewrite !process_rows, (scan_retime now1 now2). apply rows_of_retime. }
  split; [exact Hmap|]. split; [apply Hstamp|]. split; [apply Hstamp|].
  split.
  - intros Heq. pose proof (Hstamp now1) as H1. pose proof (Hstamp now2) as H2.
    rewrite <- Heq in H2.
    destruct (process now1 response) as [|r rs]; [now right|].
    left. inversion H1; subst. inversion H2; subst. congruence.
  - intros [-> | Hnil]; [reflexivity|]. now rewrite Hmap, Hnil.
Qed.

End Twice.

(** ** C9: titles the processor does not recognize *)

Section Unmatched.

Lemma record_answer_unmatched (d : SubmissionData) (ir : ItemResponse) :
  unmatched (questionTitle ir) = true -> record_answer d ir = d.
Proof.
  unfold unmatched, record_answer. intros Hu.
  repeat (apply andb_prop in Hu as [Hu ?]).
  repeat match goal with H : negb ?b = true |- _ =>
    apply negb_true_iff in H; rewrite H end.
  reflexivity.
Qed.

(** C9, as stated, fails in its second half: nothing in the processor logs an
    unmatched title.  The console output of a run on a response with one
    unmatched question does not show its title. *)
Lemma unmatched_title_not_logged :
  let response :=
    {| getItemResponses := [ {| questionTitle := "Favourite colour"; answer := Text "blue" |} ];
       getRespondentEmail := "" |} in
  unmatched "Favourite colour" = true /\
  console (snd (onFormSubmitV5 0 response empty_world)) =
    [ log "=== PROCESSING FORM SUBMISSION V5 ===";
      log_submission (Text "") (Text "") [] Undefined ] /\
  existsb (fun e => mentions e "Favourite colour")
          (console (snd (onFormSubmitV5 0 response empty_world))) = false.
Proof. repeat split. Qed.

(** C9, amended: a (title, answer) pair whose title matches none of the
    recognized patterns leaves the accumulated submission data unchanged, and
    nothing is logged for it: the result, the rows written and the console
    output of a run are those of the run on the response without the pair. *)
Theorem unmatched_pair_ignored (ir : ItemResponse) :
  unmatched (questionTitle ir) = true ->
  (forall d : SubmissionData, record_answer d ir = d) /\
  (forall (now : Z) (before after : list ItemResponse) (respondent : string) (w : World),
      onFormSubmitV5 now
        {| getItemResponses := before ++ ir :: after; getRespondentEmail := respondent |} w =
      onFormSubmitV5 now
        {| getItemResponses := before ++ after; getRespondentEmail := respondent |} w).
Proof.
  intros Hu. split; [intros d; now apply record_answer_unmatched|].
  intros now before after respondent w.
  assert (Hscan : scan now {| getItemResponses := before ++ ir :: after;
                             getRespondentEmail := respondent |} =
                  scan now {| getItemResponses := before ++ after;
                             getRespondentEmail := respondent |}).
  { unfold scan. cbn [getItemResponses getRespondentEmail].
    rewrite !fold_left_app. simpl. now rewrite (record_answer_unmatched _ _ Hu). }
  unfold onFormSubmitV5. now rewrite Hscan.
Qed.

Lemma unmatched_pair_ignored_witness :
  let ir := {| questionTitle := "Favourite colour"; answer := Text "blue" |} in
  (forall d : SubmissionData, record_answer d ir = d) /\
  (forall (now : Z) (before after : list ItemResponse) (respondent : string) (w : World),
      onFormSubmitV5 now
        {| getItemResponses := before ++ ir :: after; getRespondentEmail := respondent |} w =
      onFormSubmitV5 now
        {| getItemResponses := before ++ after; getRespondentEmail := respondent |} w).
Proof.
  apply (unmatched_pair_ignored {| questionTitle := "Favourite colour"; answer := Text "blue" |}).
  reflexivity.
Defined.

End Unmatched.

(** ** C10: the responses tab stays out of the catalog *)

Section CatalogSeparation.
Context {cell : Type} `{JSValue cell}.

Lemma scan_sheets_filtered (sheets : list (Sheet cell)) :
  forall (acc l : list string),
    scan_sheets sheets acc = Ok l ->
    forall name, In name l -> In name acc \/ is_system_sheet name = false.
Proof.
  induction sheets as [|sheet rest IH]; intros acc l Hscan name Hin; simpl in Hscan.
  - inversion Hscan; subst. now left.
  - destruct (is_system_sheet (getName sheet)) eqn:Esys; [eauto|].
    destruct (getDataRange sheet) as [range|e]; [|discriminate].
    destruct (0 <? getNumRows range)%nat; [|eauto].
    destruct (0 <? _)%nat; [|eauto].
    destruct (IH _ _ Hscan name Hin) as [Hacc | Hsys]; [|now right].
    apply in_app_iff in Hacc as [Hacc | [<- | []]]; [now left | now right].
Qed.

Lemma providers_not_system (ss : Spreadsheet cell) (name : string) :
  In name (getAllCloudProvidersFromTabs ss) -> is_system_sheet name = false.
Proof.
  unfold getAllCloudProvidersFromTabs.
  destruct (getSheets ss) as [sheets|e]; [|intros []].
  destruct (scan_sheets sheets []) as [l|e] eqn:E; [|intros []].
  intros Hin. destruct (scan_sheets_filtered _ _ _ E _ Hin) as [[] | Hsys]. exact Hsys.
Qed.

(** The catalog has no key outside the list of providers it was loaded for. *)
Lemma catalog_keys_incl (ss : Spreadsheet cell) (providers : list string) (k : string) :
  In k (map fst (loadAllCloudTechnologies ss providers)) -> In k providers.
Proof.
  unfold loadAllCloudTechnologies.
  assert (Hgen : forall (o : obj (list string)),
             In k (map fst
                     (fold_left
                        (fun allData provider =>
                           let technologies := loadTechnologiesFromSheet ss provider in
                           if (0 <? List.length technologies)%nat
                           then obj_set allData provider technologies
                           else allData) providers o)) ->
             In k (map fst o) \/ In k providers).
  { induction providers as [|p ps IH]; intros o Hin; simpl in *; [now left|].
    apply IH in Hin as [Hin | Hin]; [|now right; right].
    destruct (0 <? _)%nat; [|now left].
    apply obj_set_keys_incl in Hin as [-> | Hin]; [right; now left | now left]. }
  intros Hin. apply Hgen in Hin as [[] | Hin]. exact Hin.
Qed.

(** Every catalog the loader produces is a well-formed object. *)
Lemma loaded_catalog_well_formed (ss : Spreadsheet cell) (providers : list string) :
  well_formed (loadAllCloudTechnologies ss providers).
Proof.
  unfold loadAllCloudTechnologies.
  assert (Hgen : forall (o : obj (list string)),
             well_formed o ->
             well_formed
               (fold_left
                  (fun allData provider =>
                     let technologies := loadTechnologiesFromSheet ss provider in
                     if (0 <? List.length technologies)%nat
                     then obj_set allData provider technologies
                     else allData) providers o)).
  { induction providers as [|p ps IH]; intros o Ho; simpl; [exact Ho|].
    apply IH. destruct (0 <? _)%nat; [now apply obj_set_well_formed | exact Ho]. }
  apply Hgen. split; [constructor | intros []].
Qed.

Lemma system_sheet_names (name : string) :
  includes name "Responses" = true \/ includes name "Form Responses" = true \/
  includes name "_" = true \/ includes (toLowerCase name) "sheet" = true ->
  is_system_sheet name = true.
Proof.
  unfold is_system_sheet. intros [Hr | [Hr | [Hr | Hr]]]; rewrite Hr;
    repeat rewrite orb_true_r; reflexivity.
Qed.

(** C10: a tab whose name contains "Responses", "Form Responses", an
    underscore, or "sheet" in any case is never listed as a provider and is
    never a key of the catalog, whatever the spreadsheet holds.  In
    particular the tab that every run of the processor leaves in the
    spreadsheet, [V5_Responses], is never picked up as a provider. *)
Theorem response_tabs_not_in_catalog (ss : Spreadsheet cell) (name : string) :
  includes name "Responses" = true \/ includes name "Form Responses" = true \/
  includes name "_" = true \/ includes (toLowerCase name) "sheet" = true ->
  let providers := getAllCloudProvidersFromTabs ss in
  let catalog := loadAllCloudTechnologies ss providers in
  (~ In name providers /\ ~ In name (Object_keys catalog) /\ obj_get catalog name = None) /\
  (~ In RESPONSES_SHEET providers /\ ~ In RESPONSES_SHEET (Object_keys catalog)) /\
  (forall (now : Z) (response : FormResponse) (w : World),
      Processor.getSheetByName (snd (onFormSubmitV5 now response w)) RESPONSES_SHEET <> None).
Proof.
  intros Hname providers catalog.
  assert (Hgen : forall n, is_system_sheet n = true ->
                   ~ In n providers /\ ~ In n (Object_keys catalog) /\
                   obj_get catalog n = None).
  { intros n Hsys.
    assert (Hp : ~ In n providers).
    { intros Hin. apply providers_not_system in Hin. congruence. }
    assert (Hk : ~ In n (map fst catalog)).
    { intros Hin. apply catalog_keys_incl in Hin. contradiction. }
    repeat split; [exact Hp | | now apply obj_get_None].
    unfold Object_keys. now rewrite own_key_order_In. }
  split; [apply Hgen, system_sheet_names, Hname|].
  split.
  - destruct (Hgen RESPONSES_SHEET eq_refl) as [Hp [Hk _]]. now split.
  - intros now response w.
    destruct (onFormSubmitV5_appends now response w) as [Hrows _].
    rewrite Hrows. discriminate.
Qed.

End CatalogSeparation.

Lemma response_tabs_not_in_catalog_witness :
  let ss := workbook "" [("AWS", [["EC2"]]); ("V5_Responses", [["Timestamp"]; ["x"]])] in
  let providers := getAllCloudProvidersFromTabs ss in
  let catalog := loadAllCloudTechnologies ss providers in
  (~ In "V5_Responses" providers /\ ~ In "V5_Responses" (Object_keys catalog) /\
   obj_get catalog "V5_Responses" = None) /\
  (~ In RESPONSES_SHEET providers /\ ~ In RESPONSES_SHEET (Object_keys catalog)) /\
  (forall (now : Z) (response : FormResponse) (w : World),
      Processor.getSheetByName (snd (onFormSubmitV5 now response w)) RESPONSES_SHEET <> None).
Proof.
  apply (response_tabs_not_in_catalog
           (workbook "" [("AWS", [["EC2"]]); ("V5_Responses", [["Timestamp"]; ["x"]])])
           "V5_Responses").
  left. reflexivity.
Defined.

(* ================================================================== *)
(** * Part III. Further properties of the code *)
(* ================================================================== *)

(** ** Finding the provider tabs *)

Section ProviderTabs.
Context {cell : Type} `{JSValue cell}.

Lemma filter_nonblank_exists (l : list (option cell)) :
  (0 <? List.length (filter nonblank l))%nat = existsb nonblank l.
Proof.
  induction l as [|x l IH]; simpl; [reflexivity|].
  destruct (nonblank x); simpl; [reflexivity | exact IH].
Qed.

Lemma scan_sheets_readable (sheets : list (Sheet cell)) :
  Forall readable sheets ->
  forall acc, scan_sheets sheets acc = Ok (acc ++ map getName (filter is_provider_tab sheets)).
Proof.
  induction 1 as [|sheet rest Hsheet _ IH]; intros acc; simpl.
  - now rewrite app_nil_r.
  - unfold is_provider_tab at 1.
    destruct (is_system_sheet (getName sheet)) eqn:Esys; simpl; [apply IH|].
    destruct Hsheet as [Hsys | [range Hrange]]; [congruence|].
    rewrite Hrange. unfold getNumRows, getValues.
    rewrite filter_nonblank_exists.
    destruct range as [|row range]; simpl; [apply IH|].
    destruct (nonblank (first_cell row) || existsb nonblank (map first_cell range)); simpl.
    + rewrite IH, <- app_assoc. reflexivity.
    + apply IH.
Qed.

(** X1: when every tab that is looked into can be read, the providers found
    are the names of the tabs that are not system sheets and have a non-blank
    cell in their first column, in tab order. *)
Theorem providers_are_the_data_tabs (ss : Spreadsheet cell) (sheets : list (Sheet cell)) :
  getSheets ss = Ok sheets ->
  Forall readable sheets ->
  getAllCloudProvidersFromTabs ss = map getName (filter is_provider_tab sheets).
Proof.
  intros Hsheets Hread. unfold getAllCloudProvidersFromTabs.
  rewrite Hsheets, (scan_sheets_readable sheets Hread). reflexivity.
Qed.

Lemma scan_sheets_unreadable (before after : list (Sheet cell)) (bad : Sheet cell) (e : string) :
  is_system_sheet (getName bad) = false ->
  getDataRange bad = Throw e ->
  forall acc, exists e', scan_sheets (before ++ bad :: after) acc = Throw e'.
Proof.
  intros Hsys Hbad. induction before as [|sheet rest IH]; intros acc; simpl.
  - rewrite Hsys, Hbad. eauto.
  - destruct (is_system_sheet (getName sheet)); [apply IH|].
    destruct (getDataRange sheet) as [range|e0]; [|eauto].
    destruct (0 <? getNumRows range)%nat; [|apply IH].
    destruct (0 <? _)%nat; apply IH.
Qed.

(** X2: one tab that is not a system sheet and cannot be read hides every
    provider: the list of providers is empty whatever the other tabs hold,
    and [initializeFormV5] then fails with the "no provider tabs" error and
    leaves the form as it was. *)
Theorem unreadable_tab_hides_all_providers
    (ss : Spreadsheet cell) (before after : list (Sheet cell)) (bad : Sheet cell)
    (e : string) (form : Form) :
  getSheets ss = Ok (before ++ bad :: after) ->
  is_system_sheet (getName bad) = false ->
  getDataRange bad = Throw e ->
  getAllCloudProvidersFromTabs ss = [] /\
  initializeFormV5 (Ok ss) (Ok form) = (Failure NO_PROVIDER_TABS, Ok form).
Proof.
  intros Hsheets Hsys Hbad.
  assert (Hnone : getAllCloudProvidersFromTabs ss = []).
  { unfold getAllCloudProvidersFromTabs. rewrite Hsheets.
    destruct (scan_sheets_unreadable before after bad e Hsys Hbad []) as [e' ->].
    reflexivity. }
  split; [exact Hnone|].
  unfold initializeFormV5, initialize. rewrite Hnone. reflexivity.
Qed.

End ProviderTabs.

Lemma providers_are_the_data_tabs_witness :
  let sheets : list (Sheet string) :=
    [ {| getName := "AWS"; getDataRange := Ok [["EC2"]; ["S3"]] |};
      {| getName := "Sheet1"; getDataRange := Throw "unread" |};
      {| getName := "Empty"; getDataRange := Ok [[" "]] |};
      {| getName := "Azure"; getDataRange := Ok [[""]; ["VM"]] |} ] in
  let ss := {| getSheets := Ok sheets; Sheets.getSheetByName := fun _ => Ok None |} in
  getAllCloudProvidersFromTabs ss = map getName (filter is_provider_tab sheets).
Proof.
  apply (providers_are_the_data_tabs
           {| getSheets := Ok
                [ {| getName := "AWS"; getDataRange := Ok [["EC2"]; ["S3"]] |};
                  {| getName := "Sheet1"; getDataRange := Throw "unread" |};
                  {| getName := "Empty"; getDataRange := Ok [[" "]] |};
                  {| getName := "Azure"; getDataRange := Ok [[""]; ["VM"]] |} ];
              Sheets.getSheetByName := fun _ => Ok None |}).
  - reflexivity.
  - repeat (apply Forall_cons; [first [left; reflexivity | right; eexists; reflexivity]|]).
    apply Forall_nil.
Defined.

Lemma unreadable_tab_hides_all_providers_witness :
  let aws : Sheet string := {| getName := "AWS"; getDataRange := Ok [["EC2"]] |} in
  let gcp : Sheet string := {| getName := "GCP"; getDataRange := Throw "Service error" |} in
  let ss := {| getSheets := Ok ([aws] ++ gcp :: []);
               Sheets.getSheetByName := fun _ => Ok None |} in
  getAllCloudProvidersFromTabs ss = [] /\
  initializeFormV5 (Ok ss) (Ok example_form) = (Failure NO_PROVIDER_TABS, Ok example_form).
Proof.
  apply (unreadable_tab_hides_all_providers
           {| getSheets := Ok ([ {| getName := "AWS"; getDataRange := Ok [["EC2"]] |} ] ++
                               {| getName := "GCP"; getDataRange := Throw "Service error" |} :: []);
              Sheets.getSheetByName := fun _ => Ok None |}
           [ {| getName := "AWS"; getDataRange := Ok [["EC2"]] |} ] []
           {| getName := "GCP"; getDataRange := Throw "Service error" |}
           "Service error" example_form); reflexivity.
Defined.

(** ** Loading the catalog *)

Section Trim.

Lemma trimEnd_idem (s : string) : trimEnd (trimEnd s) = trimEnd s.
Proof.
  induction s as [|c s IH]; simpl; [reflexivity|].
  destruct (is_white_space c && (trimEnd s =? "")) eqn:E; [reflexivity|].
  simpl. now rewrite IH, E.
Qed.

Lemma trimStart_head (s : string) :
  trimStart s = "" \/
  exists c s', trimStart s = String c s' /\ is_white_space c = false.
Proof.
  induction s as [|c s IH]; simpl; [now left|].
  destruct (is_white_space c) eqn:E; [exact IH|].
  right. eauto.
Qed.

Lemma trimStart_trimEnd (s : string) :
  trimStart (trimEnd (trimStart s)) = trimEnd (trimStart s).
Proof.
  destruct (trimStart_head s) as [-> | [c [s' [-> Hc]]]]; [reflexivity|].
  simpl. rewrite Hc. simpl. now rewrite Hc.
Qed.

Lemma trim_idem (s : string) : trim (trim s) = trim s.
Proof.
  unfold trim. rewrite trimStart_trimEnd. apply trimEnd_idem.
Qed.

End Trim.

Section Loading.
Context {cell : Type} `{JSValue cell}.

Lemma nonblank_trimmed (v : option cell) :
  nonblank v = true -> trim (String_ v) <> "".
Proof.
  destruct v as [c|]; simpl; [|discriminate].
  intros Hv. apply andb_prop in Hv as [_ Hv]. apply negb_true_iff in Hv.
  now apply String.eqb_neq.
Qed.

(** X3: whatever the spreadsheet answers, every technology that
    [loadTechnologiesFromSheet] returns is non-empty and trimmed.  The load
    never throws: a tab that is missing or cannot be read gives the empty
    list. *)
Theorem loaded_technologies_trimmed (ss : Spreadsheet cell) (sheetName : string) :
  Forall (fun t => t <> "" /\ trim t = t) (loadTechnologiesFromSheet ss sheetName) /\
  (forall e, Sheets.getSheetByName ss sheetName = Throw e ->
             loadTechnologiesFromSheet ss sheetName = []) /\
  (Sheets.getSheetByName ss sheetName = Ok None ->
   loadTechnologiesFromSheet ss sheetName = []).
Proof.
  split; [|split; [intros e He | intros He];
           unfold loadTechnologiesFromSheet; rewrite He; reflexivity].
  unfold loadTechnologiesFromSheet.
  destruct (Sheets.getSheetByName ss sheetName) as [[sheet|]|e]; try constructor.
  destruct (getDataRange sheet) as [range|e]; [|constructor].
  destruct (getNumRows range =? 0)%nat; [constructor|].
  apply Forall_forall. intros t Ht.
  apply in_map_iff in Ht as [v [<- Hv]]. apply filter_In in Hv as [_ Hv].
  split; [now apply nonblank_trimmed | apply trim_idem].
Qed.

Lemma obj_get_set_same (o : obj (list string)) (k : string) (v : list string) :
  k <> "__proto__" -> obj_get (obj_set o k v) k = Some v.
Proof.
  intros Hk. unfold obj_set. apply String.eqb_neq in Hk. rewrite Hk.
  apply obj_get_put_same.
Qed.

Lemma obj_get_set_other (o : obj (list string)) (k k' : string) (v : list string) :
  k <> k' -> obj_get (obj_set o k v) k' = obj_get o k'.
Proof.
  intros Hk. unfold obj_set. destruct (k =? "__proto__"); [reflexivity|].
  now apply obj_get_put_other.
Qed.

Lemma load_fold_get (ss : Spreadsheet cell) (providers : list string) (k : string) :
  forall o : obj (list string),
    obj_get (fold_left (load_step ss) providers o) k =
    if in_dec string_dec k providers then
      if (k =? "__proto__") || (List.length (loadTechnologiesFromSheet ss k) =? 0)%nat
      then obj_get o k
      else Some (loadTechnologiesFromSheet ss k)
    else obj_get o k.
Proof.
  induction providers as [|p ps IH]; intros o; [reflexivity|].
  cbn [fold_left]. rewrite IH.
  assert (Hstep : forall k', k' <> p ->
            obj_get (load_step ss o p) k' = obj_get o k').
  { intros k' Hne. unfold load_step. destruct (0 <? _)%nat; [|reflexivity].
    apply obj_get_set_other. congruence. }
  assert (Hsame : obj_get (load_step ss o p) p =
            if (p =? "__proto__") || (List.length (loadTechnologiesFromSheet ss p) =? 0)%nat
            then obj_get o p else Some (loadTechnologiesFromSheet ss p)).
  { unfold load_step.
    destruct (List.length (loadTechnologiesFromSheet ss p)) eqn:El; simpl.
    - now rewrite orb_true_r.
    - rewrite orb_false_r. destruct (p =? "__proto__") eqn:Ep.
      + unfold obj_set. now rewrite Ep.
      + apply obj_get_set_same. now apply String.eqb_neq. }
  destruct (string_dec p k) as [->|Hpk].
  - destruct (in_dec string_dec k (k :: ps)) as [_|Hn]; [|exfalso; apply Hn; now left].
    destruct (in_dec string_dec k ps); rewrite Hsame;
      destruct ((k =? "__proto__") || (List.length (loadTechnologiesFromSheet ss k) =? 0)%nat);
      reflexivity.
  - rewrite (Hstep k) by congruence.
    destruct (in_dec string_dec k ps) as [Hin|Hn];
      destruct (in_dec string_dec k (p :: ps)) as [Hin'|Hn']; try reflexivity.
    + exfalso. apply Hn'. now right.
    + exfalso. destruct Hin' as [Heq|Hin']; [congruence | contradiction].
Qed.

Lemma catalog_get_loaded (ss : Spreadsheet cell) (providers : list string) (k : string) :
  In k providers ->
  k <> "__proto__" ->
  loadTechnologiesFromSheet ss k <> [] ->
  obj_get (loadAllCloudTechnologies ss providers) k = Some (loadTechnologiesFromSheet ss k).
Proof.
  intros Hin Hk Hload. unfold loadAllCloudTechnologies.
  change (fold_left _ providers obj_empty) with (fold_left (load_step ss) providers obj_empty).
  rewrite load_fold_get.
  destruct (in_dec string_dec k providers) as [_|Hn]; [|contradiction].
  apply String.eqb_neq in Hk. rewrite Hk.
  destruct (loadTechnologiesFromSheet ss k); [contradiction | reflexivity].
Qed.

(** X4: a provider is a key of the catalog exactly when it is among the
    providers asked for, is not called [__proto__], and loads at least one
    technology; the catalog then holds the technologies loaded for it.  No
    key of the catalog has an empty list. *)
Theorem catalog_lookup (ss : Spreadsheet cell) (providers : list string)
    (k : string) (technologies : list string) :
  obj_get (loadAllCloudTechnologies ss providers) k = Some technologies <->
  In k providers /\ k <> "__proto__" /\
  loadTechnologiesFromSheet ss k = technologies /\ technologies <> [].
Proof.
  unfold loadAllCloudTechnologies.
  change (fold_left _ providers obj_empty) with (fold_left (load_step ss) providers obj_empty).
  rewrite load_fold_get. cbn [obj_get obj_empty].
  destruct (in_dec string_dec k providers) as [Hin|Hn].
  - destruct (k =? "__proto__") eqn:Ek; simpl.
    + apply String.eqb_eq in Ek. split; [discriminate | tauto].
    + apply String.eqb_neq in Ek.
      destruct (loadTechnologiesFromSheet ss k) as [|t ts] eqn:El; simpl.
      * split; [discriminate | intros [_ [_ [<- Hne]]]; contradiction].
      * split.
        -- intros Heq. inversion Heq; subst. repeat split; try assumption. discriminate.
        -- intros [_ [_ [<- _]]]. reflexivity.
  - split; [discriminate | tauto].
Qed.

End Loading.

(** ** A spreadsheet that answers consistently *)

Section Workbook.
Context {cell : Type} `{JSValue cell}.
Variables (blank : cell) (tabs : list (string * list (list cell))).
Hypothesis Hnames : NoDup (map fst tabs).

Let sheet_of (t : string * list (list cell)) : Sheet cell :=
  {| getName := fst t;
     getDataRange := Ok (match snd t with [] => [[blank]] | rows => rows end) |}.

Lemma workbook_providers :
  getAllCloudProvidersFromTabs (workbook blank tabs) =
  map getName (filter is_provider_tab (map sheet_of tabs)).
Proof.
  unfold getAllCloudProvidersFromTabs, workbook. cbn [getSheets].
  fold sheet_of. rewrite scan_sheets_readable; [reflexivity|].
  apply Forall_forall. intros sheet Hin. apply in_map_iff in Hin as [t [<- _]].
  right. eexists. reflexivity.
Qed.

Lemma find_tab (t : string * list (list cell)) :
  In t tabs -> find (fun t' => fst t' =? fst t) tabs = Some t.
Proof.
  revert Hnames. clear sheet_of. induction tabs as [|t0 ts IH]; intros Hnd Hin; [contradiction|].
  simpl in *. inversion Hnd as [|? ? Hfresh Hnd']; subst.
  destruct Hin as [-> | Hin].
  - now rewrite String.eqb_refl.
  - destruct (fst t0 =? fst t) eqn:E; [|now apply IH].
    apply String.eqb_eq in E. exfalso. apply Hfresh. rewrite E.
    apply in_map. exact Hin.
Qed.

Lemma provider_tab_loads (t : string * list (list cell)) :
  In t tabs ->
  is_provider_tab (sheet_of t) = true ->
  loadTechnologiesFromSheet (workbook blank tabs) (fst t) <> [].
Proof.
  intros Hin Hprov. unfold loadTechnologiesFromSheet, workbook. cbn [Sheets.getSheetByName].
  rewrite (find_tab t Hin). cbn [option_map getDataRange].
  unfold is_provider_tab in Hprov. apply andb_prop in Hprov as [_ Hdata].
  cbn [sheet_of getDataRange] in Hdata.
  set (range := match snd t with [] => [[blank]] | rows => rows end) in *.
  unfold getNumRows, getValues.
  destruct range as [|row range]; [discriminate|]. cbn [List.length Nat.eqb].
  apply existsb_exists in Hdata as [v [Hv Hnb]].
  intros Hnil. apply map_eq_nil in Hnil.
  assert (Hin' : In v (filter nonblank (map first_cell (row :: range)))).
  { apply filter_In. now split. }
  rewrite Hnil in Hin'. contradiction.
Qed.

Lemma not_system_not_proto (name : string) :
  is_system_sheet name = false -> name <> "__proto__".
Proof. intros Hsys ->. discriminate. Qed.

(** X5: on a spreadsheet that answers every call and whose tabs have
    distinct names, finding and loading agree: the keys of the catalog are
    exactly the providers found.  So a build that gets past the "no provider
    tabs" guard has at least one provider. *)
Theorem consistent_workbook_catalog (p : string) :
  let ss := workbook blank tabs in
  let providers := getAllCloudProvidersFromTabs ss in
  let catalog := loadAllCloudTechnologies ss providers in
  (In p providers <-> In p (Object_keys catalog)) /\
  (providers <> [] -> catalog <> obj_empty).
Proof.
  intros ss providers catalog.
  assert (Hiff : forall q, In q providers <-> In q (Object_keys catalog)).
  { intros q. unfold Object_keys. rewrite own_key_order_In. split.
    - intros Hq.
      assert (Hq' := Hq). unfold providers, ss in Hq'. rewrite workbook_providers in Hq'.
      apply in_map_iff in Hq' as [sheet [<- Hsheet]].
      apply filter_In in Hsheet as [Hsheet Hprov].
      apply in_map_iff in Hsheet as [t [<- Ht]].
      pose proof (provider_tab_loads t Ht Hprov) as Hload.
      assert (Hget : obj_get catalog (fst t) =
                     Some (loadTechnologiesFromSheet ss (fst t))).
      { apply catalog_get_loaded; try assumption.
        apply not_system_not_proto.
        unfold is_provider_tab in Hprov. apply andb_prop in Hprov as [Hsys _].
        now apply negb_true_iff in Hsys. }
      destruct (in_dec string_dec (fst t) (map fst catalog)) as [Hin|Hn]; [exact Hin|].
      rewrite (obj_get_None _ _ Hn) in Hget. discriminate.
    - apply catalog_keys_incl. }
  split; [apply Hiff|].
  intros Hne Hempty. destruct providers as [|q qs] eqn:Ep; [contradiction|].
  assert (Hq : In q (Object_keys catalog)) by (apply Hiff; now left).
  rewrite Hempty in Hq. contradiction.
Qed.

Lemma load_fold_keys (ss : Spreadsheet cell) (providers : list string) :
  forall o : obj (list string),
    NoDup providers ->
    (forall p, In p providers ->
       ~ In p (map fst o) /\ p <> "__proto__" /\ loadTechnologiesFromSheet ss p <> []) ->
    map fst (fold_left (load_step ss) providers o) = map fst o ++ providers.
Proof.
  induction providers as [|p ps IH]; intros o Hnd Hps; simpl; [now rewrite app_nil_r|].
  inversion Hnd as [|? ? Hp Hnd']; subst.
  destruct (Hps p (or_introl eq_refl)) as [Hfresh [Hproto Hload]].
  assert (Hstep : load_step ss o p = o ++ [(p, loadTechnologiesFromSheet ss p)]).
  { unfold load_step. destruct (loadTechnologiesFromSheet ss p) as [|t ts]; [contradiction|].
    cbn [List.length Nat.ltb Nat.leb]. now apply obj_set_new. }
  rewrite Hstep, IH; [rewrite map_app, <- app_assoc; reflexivity | exact Hnd' |].
  intros q Hq. destruct (Hps q (or_intror Hq)) as [Hq1 [Hq2 Hq3]].
  split; [|now split]. rewrite map_app, in_app_iff. simpl.
  intros [Hin | [Heq | []]]; [now apply Hq1 | subst; now apply Hp].
Qed.

Lemma workbook_providers_NoDup :
  NoDup (getAllCloudProvidersFromTabs (workbook blank tabs)).
Proof.
  rewrite workbook_providers. apply NoDup_map_filter.
  rewrite map_map. cbn [sheet_of getName]. exact Hnames.
Qed.

(** X6: on such a spreadsheet the provider pages come in the order in which
    JavaScript lists the keys of the catalog: the providers whose names are
    array indices first, in ascending numeric order, then the others in tab
    order.  When no provider name is an array index, that is the tab order. *)
Theorem provider_pages_in_key_order :
  let ss := workbook blank tabs in
  let providers := getAllCloudProvidersFromTabs ss in
  let catalog := loadAllCloudTechnologies ss providers in
  Object_keys catalog = own_key_order providers /\
  (forallb (fun p => negb (is_array_index p)) providers = true ->
   Object_keys catalog = providers).
Proof.
  intros ss providers catalog.
  assert (Hkeys : map fst catalog = providers).
  { unfold catalog, loadAllCloudTechnologies.
    change (map fst (fold_left (load_step ss) providers obj_empty) = providers).
    rewrite load_fold_keys; [reflexivity | apply workbook_providers_NoDup |].
    intros p Hp. split; [intros []|].
    unfold providers, ss in Hp. rewrite workbook_providers in Hp.
    apply in_map_iff in Hp as [sheet [<- Hsheet]].
    apply filter_In in Hsheet as [Hsheet Hprov].
    apply in_map_iff in Hsheet as [t [<- Ht]].
    split; [|exact (provider_tab_loads t Ht Hprov)].
    apply not_system_not_proto.
    unfold is_provider_tab in Hprov. apply andb_prop in Hprov as [Hsys _].
    now apply negb_true_iff in Hsys. }
  assert (Horder : Object_keys catalog = own_key_order providers).
  { unfold Object_keys. now rewrite Hkeys. }
  split; [exact Horder|].
  intros Hplain. rewrite Horder. unfold own_key_order.
  rewrite (index_keys_none _ Hplain). simpl. now apply filter_all.
Qed.

End Workbook.

Lemma consistent_workbook_catalog_witness :
  let tabs := [("AWS", [["EC2"]; ["S3"]]); ("V5_Responses", [["x"]]); ("Azure", [["VM"]])] in
  let ss := workbook "" tabs in
  let providers := getAllCloudProvidersFromTabs ss in
  let catalog := loadAllCloudTechnologies ss providers in
  (In "Azure" providers <-> In "Azure" (Object_keys catalog)) /\
  (providers <> [] -> catalog <> obj_empty).
Proof.
  apply (consistent_workbook_catalog ""
           [("AWS", [["EC2"]; ["S3"]]); ("V5_Responses", [["x"]]); ("Azure", [["VM"]])]).
  repeat constructor; simpl; intuition discriminate.
Defined.

Lemma provider_pages_in_key_order_witness :
  let tabs := [("AWS", [["EC2"]]); ("2024", [["Lambda"]]); ("7", [["VM"]])] in
  let ss := workbook "" tabs in
  let providers := getAllCloudProvidersFromTabs ss in
  let catalog := loadAllCloudTechnologies ss providers in
  Object_keys catalog = own_key_order providers /\
  (forallb (fun p => negb (is_array_index p)) providers = true ->
   Object_keys catalog = providers).
Proof.
  apply (provider_pages_in_key_order ""
           [("AWS", [["EC2"]]); ("2024", [["Lambda"]]); ("7", [["VM"]])]).
  repeat constructor; simpl; intuition discriminate.
Defined.

(** ** The whole run of the builder *)

Section Initialization.
Context {cell : Type} `{JSValue cell}.

Lemma initializeFormV5_run (ss : Spreadsheet cell) (form : Form) :
  getAllCloudProvidersFromTabs ss <> [] ->
  let providers := getAllCloudProvidersFromTabs ss in
  let catalog := loadAllCloudTechnologies ss providers in
  initializeFormV5 (Ok ss) (Ok form) =
  (Success {| formUrl := publishedUrl form; data_editUrl := editUrl form;
              cloudProviders := providers;
              totalTechnologies := total_technologies catalog;
              cloudData := catalog |},
   Ok (with_items form (expected_items (nextId form) catalog)
         (3 * List.length (Object_keys catalog) + (7 + nextId form)))).
Proof.
  intros Hne providers catalog. unfold initializeFormV5, initialize.
  fold providers. fold catalog.
  assert (Hguard : (List.length providers =? 0)%nat = false).
  { subst providers. destruct (getAllCloudProvidersFromTabs ss); [contradiction | reflexivity]. }
  rewrite Hguard. unfold bind.
  rewrite (build_run catalog form (loaded_catalog_well_formed ss providers)).
  reflexivity.
Qed.

(** X7: with the calls on the form taken to succeed, as everywhere in this
    model, and at least one provider tab found, [initializeFormV5] returns
    success: the items the form held are all replaced by those built from the
    loaded catalog, seven items and three more for every key of the catalog;
    the published and edit URLs are those of the form opened, and the result
    reports the providers found, the number of technologies and the catalog
    loaded. *)
Theorem initialize_rebuilds_form (ss : Spreadsheet cell) (form : Form) :
  getAllCloudProvidersFromTabs ss <> [] ->
  let providers := getAllCloudProvidersFromTabs ss in
  let catalog := loadAllCloudTechnologies ss providers in
  initializeFormV5 (Ok ss) (Ok form) =
  (Success {| formUrl := publishedUrl form; data_editUrl := editUrl form;
              cloudProviders := providers;
              totalTechnologies := total_technologies catalog;
              cloudData := catalog |},
   Ok (with_items form (expected_items (nextId form) catalog)
         (3 * List.length (Object_keys catalog) + (7 + nextId form)))) /\
  List.length (expected_items (nextId form) catalog) =
    3 * List.length (Object_keys catalog) + 7.
Proof.
  intros Hne providers catalog. split; [now apply initializeFormV5_run|].
  rewrite <- (length_map itemId), expected_item_ids, length_seq.
  rewrite <- (entries_providers catalog) at 2. now rewrite length_map.
Qed.

End Initialization.

Lemma initialize_rebuilds_form_witness :
  let ss := workbook "" [("AWS", [["EC2"]; ["S3"]]); ("Azure", [["VM"]])] in
  let form := example_form in
  let providers := getAllCloudProvidersFromTabs ss in
  let catalog := loadAllCloudTechnologies ss providers in
  initializeFormV5 (Ok ss) (Ok form) =
  (Success {| formUrl := publishedUrl form; data_editUrl := editUrl form;
              cloudProviders := providers;
              totalTechnologies := total_technologies catalog;
              cloudData := catalog |},
   Ok (with_items form (expected_items (nextId form) catalog)
         (3 * List.length (Object_keys catalog) + (7 + nextId form)))) /\
  List.length (expected_items (nextId form) catalog) =
    3 * List.length (Object_keys catalog) + 7.
Proof.
  apply (initialize_rebuilds_form
           (workbook "" [("AWS", [["EC2"]; ["S3"]]); ("Azure", [["VM"]])]) example_form).
  discriminate.
Defined.

(** ** What the built form holds *)

Section Checkboxes.




Lemma expected_checkboxes (n : nat) (catalog : obj (list string)) :
  filter is_checkbox (expected_items n catalog) =
  filter is_checkbox
    (provider_items (5 + n) (entries_of catalog (Object_keys catalog))
       (Some (3 * List.length (entries_of catalog (Object_keys catalog)) + (5 + n)))).
Proof.
  unfold expected_items. rewrite !filter_app.
  cbn [welcome_items selection_items final_items filter is_checkbox itemType item app].
  now rewrite app_nil_r.
Qed.


Lemma total_from (o : obj (list string)) (keys : list string) :
  forall a,
    fold_left
      (fun sum k =>
         match obj_get o k with
         | Some techs => sum + List.length techs
         | None => sum
         end) keys a =
    a + List.length (flat_map snd (entries_of o keys)).
Proof.
  induction keys as [|k ks IH]; intros a; simpl; [lia|].
  rewrite IH. destruct (obj_get o k) as [techs|]; simpl; [|reflexivity].
  rewrite List.length_app. lia.
Qed.

Lemma provider_checkbox_choices (fp : option nat) (es : list (string * list string)) :
  forall m,
    List.length (flat_map choices (filter is_checkbox (provider_items m es fp))) =
    List.length (flat_map snd es).
Proof.
  induction es as [|[P T] es IH]; intros m; [reflexivity|].
  cbn [provider_items filter is_checkbox itemType item flat_map choices snd].
  now rewrite !List.length_app, length_map, IH.
Qed.

Context {cell : Type} `{JSValue cell}.

(** X9: the [totalTechnologies] that a successful [initializeFormV5] reports
    is the number of check-box choices in the form it leaves. *)
Theorem total_technologies_are_the_choices (ss : Spreadsheet cell) (form : Form)
    (data : InitData) (form' : Form) :
  initializeFormV5 (Ok ss) (Ok form) = (Success data, Ok form') ->
  totalTechnologies data =
  List.length (flat_map choices (filter is_checkbox (items form'))).
Proof.
  destruct (getAllCloudProvidersFromTabs ss) as [|p ps] eqn:Ep.
  - unfold initializeFormV5, initialize. rewrite Ep. cbn. discriminate.
  - assert (Hne : getAllCloudProvidersFromTabs ss <> []) by (rewrite Ep; discriminate).
    rewrite (initializeFormV5_run ss form Hne).
    intros Heq. inversion Heq; subst. cbn [totalTechnologies items with_items].
    rewrite expected_checkboxes, provider_checkbox_choices.
    unfold total_technologies. now rewrite total_from.
Qed.

End Checkboxes.


Lemma total_technologies_are_the_choices_witness :
  let data :=
    {| formUrl := publishedUrl example_form; data_editUrl := editUrl example_form;
       cloudProviders := ["AWS"; "Azure"]; totalTechnologies := 3;
       cloudData := example_catalog |} in
  let form' := with_items example_form (expected_items 1 example_catalog) 14 in
  totalTechnologies data =
  List.length (flat_map choices (filter is_checkbox (items form'))).
Proof.
  apply (total_technologies_are_the_choices
           (workbook "" [("AWS", [["EC2"]; ["S3"]]); ("Azure", [["VM"]])]) example_form).
  reflexivity.
Defined.

(** ** Navigation *)

Section Navigation.

Lemma sections_at_pages (ps : list string) :
  forall m e,
    In e (sections_at m ps) ->
    exists j, j < List.length ps /\ pageBreak (snd e) = m + 3 * j.
Proof.
  induction ps as [|P ps IH]; intros m e Hin; [contradiction|].
  cbn [sections_at] in Hin. destruct Hin as [<- | Hin].
  - exists 0. cbn [snd pageBreak List.length]. split; lia.
  - apply IH in Hin as [j [Hj Hp]]. exists (S j). cbn [List.length]. split; lia.
Qed.

Lemma nav_choices_targets (ps : list string) (m final : nat) (c : Choice) (p : nat) :
  In c (nav_choices (sections_at m ps) final) ->
  gotoPage c = Some p ->
  p = final \/ exists j, j < List.length ps /\ p = m + 3 * j.
Proof.
  unfold nav_choices. intros Hin Hp.
  apply in_app_iff in Hin as [Hin | [<- | []]].
  - apply in_map_iff in Hin as [e [<- He]]. cbn [createChoice gotoPage] in Hp.
    inversion Hp; subst. right. now apply sections_at_pages.
  - cbn [createChoice gotoPage] in Hp. inversion Hp. now left.
Qed.

Lemma provider_items_targets (final : nat) (es : list (string * list string)) :
  forall m it c p,
    m + 3 * List.length es <= final ->
    In it (provider_items m es (Some final)) ->
    In c (choices it) ->
    gotoPage c = Some p ->
    itemId it < p /\ (p = final \/ exists j, j < List.length es /\ p = m + 3 * j).
Proof.
  induction es as [|[P T] es IH]; intros m it c p Hfinal Hit Hc Hp; [contradiction|].
  cbn [List.length] in Hfinal.
  cbn [provider_items] in Hit. destruct Hit as [<- | [<- | [<- | Hit]]].
  - contradiction.
  - cbn [choices item] in Hc. apply in_map_iff in Hc as [v [<- _]]. discriminate.
  - cbn [choices item itemId] in Hc |- *.
    destruct (nav_choices_targets _ _ _ _ _ Hc Hp) as [-> | [j [Hj ->]]].
    + split; [lia | now left].
    + rewrite length_map in Hj. split; [lia|]. right. exists (S j).
      cbn [List.length]. split; lia.
  - destruct (IH (3 + m) it c p ltac:(lia) Hit Hc Hp) as [Hlt [-> | [j [Hj ->]]]].
    + split; [exact Hlt | now left].
    + split; [exact Hlt|]. right. exists (S j). cbn [List.length]. split; lia.
Qed.

Lemma provider_page_at (fp : option nat) (es : list (string * list string)) :
  forall m j,
    j < List.length es ->
    exists page, In page (provider_items m es fp) /\
                 is_page_break page = true /\ itemId page = m + 3 * j.
Proof.
  induction es as [|[P T] es IH]; intros m j Hj; cbn [List.length] in Hj; [lia|].
  destruct j as [|j].
  - eexists. split; [left; reflexivity|]. cbn [is_page_break itemType item itemId].
    split; [reflexivity | lia].
  - destruct (IH (3 + m) j ltac:(lia)) as [page [Hin [Hbreak Hid]]].
    exists page. split; [cbn [provider_items]; do 3 right; exact Hin|].
    split; [exact Hbreak | lia].
Qed.

(** X10: in the built form every choice that navigates leads to a page break
    of the form, and to one that comes after the question holding the choice:
    no jump is dangling and none goes back, so no path through the form
    repeats a page. *)
Theorem navigation_targets_exist_forward (catalog : obj (list string)) (form : Form) :
  well_formed catalog ->
  let form' := snd (build catalog form) in
  Forall (fun it =>
            Forall (fun c =>
                      forall p, gotoPage c = Some p ->
                        itemId it < p /\
                        exists page, In page (items form') /\
                                     is_page_break page = true /\ itemId page = p)
                   (choices it))
         (items form').
Proof.
  intros Hwf form'. apply Forall_forall. intros it Hit.
  apply Forall_forall. intros c Hc p Hp. subst form'.
  rewrite (build_run catalog form Hwf) in Hit |- *. cbn [snd items with_items] in Hit |- *.
  set (n := nextId form) in *.
  unfold expected_items in Hit |- *.
  set (entries := entries_of catalog (Object_keys catalog)) in *.
  set (final := 3 * List.length entries + (5 + n)) in *.
  assert (Hfinal_page : exists page,
            In page (final_items final) /\ is_page_break page = true /\ itemId page = final).
  { eexists. split; [left; reflexivity|]. split; reflexivity. }
  assert (Htarget : p = final \/ (exists j, j < List.length entries /\ p = 5 + n + 3 * j) ->
            exists page,
              In page (welcome_items n ++
                       selection_items (3 + n)
                         (nav_choices (sections_at (5 + n) (map fst entries)) final) ++
                       provider_items (5 + n) entries (Some final) ++ final_items final) /\
              is_page_break page = true /\ itemId page = p).
  { intros [-> | [j [Hj ->]]].
    - destruct Hfinal_page as [page [Hin Hrest]]. exists page.
      split; [|exact Hrest]. rewrite !in_app_iff. auto.
    - destruct (provider_page_at (Some final) entries (5 + n) j Hj) as [page [Hin Hrest]].
      exists page. split; [|exact Hrest]. rewrite !in_app_iff. auto. }
  rewrite !in_app_iff in Hit. destruct Hit as [Hit | [Hit | [Hit | Hit]]].
  - cbn [welcome_items] in Hit. destruct Hit as [<- | [<- | [<- | []]]]; contradiction.
  - cbn [selection_items] in Hit. destruct Hit as [<- | [<- | []]]; [contradiction|].
    cbn [choices item itemId] in Hc |- *.
    destruct (nav_choices_targets _ _ _ _ _ Hc Hp) as [Hf | [j [Hj Hpj]]].
    + split; [subst p; unfold final; lia | apply Htarget; now left].
    + rewrite length_map in Hj. split; [lia|]. apply Htarget. right. now exists j.
  - destruct (provider_items_targets final entries (5 + n) it c p ltac:(unfold final; lia)
                Hit Hc Hp) as [Hlt Hwhere].
    split; [exact Hlt | now apply Htarget].
  - cbn [final_items] in Hit. destruct Hit as [<- | [<- | []]]; contradiction.
Qed.

End Navigation.

Lemma navigation_targets_exist_forward_witness :
  let form' := snd (build example_catalog example_form) in
  Forall (fun it =>
            Forall (fun c =>
                      forall p, gotoPage c = Some p ->
                        itemId it < p /\
                        exists page, In page (items form') /\
                                     is_page_break page = true /\ itemId page = p)
                   (choices it))
         (items form').
Proof.
  apply (navigation_targets_exist_forward example_catalog example_form).
  split; [repeat constructor; simpl; intuition discriminate | simpl; intuition discriminate].
Defined.

(** ** Clearing and rebuilding *)

Section Rebuild.

(** X11: [clearFormContent] removes every item of the form, whatever it held
    (items with equal ids included), and changes nothing else; it cannot
    fail. *)
Theorem clear_removes_every_item (form : Form) :
  fst (clearFormContent form) = Ok tt /\
  items (snd (clearFormContent form)) = [] /\
  nextId (snd (clearFormContent form)) = nextId form /\
  publishedUrl (snd (clearFormContent form)) = publishedUrl form /\
  editUrl (snd (clearFormContent form)) = editUrl form.
Proof. rewrite clearFormContent_run. repeat split. Qed.

Lemma shift_item_item (k id : nat) (t : ItemType) (ti h : string) (r : bool)
    (cs : list Choice) :
  shift_item k (item id t ti h r cs) = item (k + id) t ti h r (map (shift_choice k) cs).
Proof. reflexivity. Qed.

Lemma sections_at_shift (k : nat) (ps : list string) :
  forall m,
    map (fun e => createChoice (fst e) (pageBreak (snd e))) (sections_at (k + m) ps) =
    map (shift_choice k)
        (map (fun e => createChoice (fst e) (pageBreak (snd e))) (sections_at m ps)).
Proof.
  induction ps as [|P ps IH]; intros m; [reflexivity|].
  cbn [sections_at map fst snd pageBreak].
  replace (3 + (k + m)) with (k + (3 + m)) by lia. now rewrite IH.
Qed.

Lemma nav_choices_shift (k m final : nat) (ps : list string) :
  nav_choices (sections_at (k + m) ps) (k + final) =
  map (shift_choice k) (nav_choices (sections_at m ps) final).
Proof.
  unfold nav_choices. now rewrite map_app, sections_at_shift.
Qed.

Lemma plain_choices_shift (k : nat) (T : list string) :
  map (shift_choice k) (map plain_choice T) = map plain_choice T.
Proof. rewrite map_map. now apply map_ext. Qed.

Lemma provider_items_shift (k final : nat) (es : list (string * list string)) :
  forall m,
    provider_items (k + m) es (Some (k + final)) =
    map (shift_item k) (provider_items m es (Some final)).
Proof.
  induction es as [|[P T] es IH]; intros m; [reflexivity|].
  cbn [provider_items map]. rewrite !shift_item_item, plain_choices_shift.
  replace (3 + (k + m)) with (k + (3 + m)) by lia.
  replace (2 + (k + m)) with (k + (2 + m)) by lia.
  replace (1 + (k + m)) with (k + (1 + m)) by lia.
  now rewrite IH, nav_choices_shift.
Qed.

Lemma expected_items_shift (k n : nat) (catalog : obj (list string)) :
  expected_items (k + n) catalog = map (shift_item k) (expected_items n catalog).
Proof.
  unfold expected_items.
  set (entries := entries_of catalog (Object_keys catalog)).
  replace (3 * List.length entries + (5 + (k + n)))
    with (k + (3 * List.length entries + (5 + n))) by lia.
  replace (5 + (k + n)) with (k + (5 + n)) by lia.
  replace (3 + (k + n)) with (k + (3 + n)) by lia.
  rewrite !map_app, <- provider_items_shift.
  cbn [welcome_items selection_items final_items map]. rewrite !shift_item_item.
  cbn [map]. rewrite <- nav_choices_shift.
  unfold welcome_items, selection_items, final_items.
  replace (1 + (k + n)) with (k + (1 + n)) by lia.
  replace (2 + (k + n)) with (k + (2 + n)) by lia.
  replace (1 + (k + (3 + n))) with (k + (1 + (3 + n))) by lia.
  replace (1 + (k + (3 * List.length entries + (5 + n))))
    with (k + (1 + (3 * List.length entries + (5 + n)))) by lia.
  reflexivity.
Qed.

Context {cell : Type} `{JSValue cell}.

(** X12: refreshing twice from an unchanged spreadsheet gives the same
    result and the same form: the second run leaves the items of the first,
    each with its id, and the pages its choices lead to, moved up by the
    number of items. *)
Theorem refresh_twice_same_form (s : Services cell) (ss : Spreadsheet cell) (form : Form)
    (data : InitData) (form1 : Form) :
  SpreadsheetApp_openByUrl s = Ok ss ->
  FormApp_openById s = Ok form ->
  refreshFormV5 s = (Success data, Ok form1) ->
  refreshFormV5 {| SpreadsheetApp_openByUrl := Ok ss; ss_getName := ss_getName s;
                   FormApp_openById := Ok form1; form_getTitle := form_getTitle s |} =
  (Success data,
   Ok (with_items form1 (map (shift_item (List.length (items form1))) (items form1))
         (List.length (items form1) + nextId form1))).
Proof.
  intros Hss Hform. unfold refreshFormV5. rewrite Hss, Hform.
  cbn [SpreadsheetApp_openByUrl FormApp_openById].
  destruct (getAllCloudProvidersFromTabs ss) as [|p ps] eqn:Ep.
  - unfold initializeFormV5, initialize. rewrite Ep. cbn. discriminate.
  - assert (Hne : getAllCloudProvidersFromTabs ss <> []) by (rewrite Ep; discriminate).
    rewrite !(initializeFormV5_run ss _ Hne).
    set (catalog := loadAllCloudTechnologies ss (getAllCloudProvidersFromTabs ss)).
    set (n := nextId form). set (K := 3 * List.length (Object_keys catalog) + 7).
    replace (3 * List.length (Object_keys catalog) + (7 + n)) with (K + n) by (unfold K; lia).
    intros Heq.
    assert (Hd : data = {| formUrl := publishedUrl form; data_editUrl := editUrl form;
                           cloudProviders := getAllCloudProvidersFromTabs ss;
                           totalTechnologies := total_technologies catalog;
                           cloudData := catalog |}) by congruence.
    assert (Hf : form1 = with_items form (expected_items n catalog) (K + n)) by congruence.
    clear Heq. subst data form1.
    assert (Hlen : List.length (expected_items n catalog) = K).
    { rewrite <- (length_map itemId), expected_item_ids, length_seq. unfold K.
      rewrite <- (entries_providers catalog) at 2. now rewrite length_map. }
    unfold with_items. cbn [items nextId publishedUrl editUrl].
    rewrite Hlen.
    replace (3 * List.length (Object_keys catalog) + (7 + (K + n))) with (K + (K + n))
      by (unfold K; lia).
    rewrite expected_items_shift. reflexivity.
Qed.

End Rebuild.

Lemma refresh_twice_same_form_witness :
  let ss := workbook "" [("AWS", [["EC2"]; ["S3"]]); ("Azure", [["VM"]])] in
  let data :=
    {| formUrl := publishedUrl example_form; data_editUrl := editUrl example_form;
       cloudProviders := ["AWS"; "Azure"]; totalTechnologies := 3;
       cloudData := example_catalog |} in
  let form1 := with_items example_form (expected_items 1 example_catalog) 14 in
  refreshFormV5 {| SpreadsheetApp_openByUrl := Ok ss; ss_getName := "Skills";
                   FormApp_openById := Ok form1; form_getTitle := "Questionnaire" |} =
  (Success data,
   Ok (with_items form1 (map (shift_item (List.length (items form1))) (items form1))
         (List.length (items form1) + nextId form1))).
Proof.
  apply (refresh_twice_same_form
           {| SpreadsheetApp_openByUrl :=
                Ok (workbook "" [("AWS", [["EC2"]; ["S3"]]); ("Azure", [["VM"]])]);
              ss_getName := "Skills";
              FormApp_openById := Ok example_form;
              form_getTitle := "Questionnaire" |}
           (workbook "" [("AWS", [["EC2"]; ["S3"]]); ("Azure", [["VM"]])])
           example_form); reflexivity.
Defined.

(** ** The complete setup *)

Section CompleteSetup.
Context {cell : Type} `{JSValue cell}.

(** X13: the setup follows the initialization.  Run against services that
    answer the test as they answer the initialization, [completeSetupV5]
    succeeds exactly when [initializeFormV5] does, with the same result and
    the same form: the test never rejects what the initialization accepts.
    The test has no guard on the providers: when both services open and no
    provider tab is found, the test passes and the setup fails in the
    initialization, at the guard that comes before the form is cleared, with
    the error of that guard under both prefixes. *)
Theorem setup_follows_initialization (s : Services cell) :
  (forall (data : InitData) (left : res Form),
     completeSetupV5 s s = (Success data, left) <->
     initializeFormV5 (SpreadsheetApp_openByUrl s) (FormApp_openById s) =
       (Success data, left)) /\
  (forall (atTest : Services cell) (ss0 ss : Spreadsheet cell) (form0 form : Form),
     SpreadsheetApp_openByUrl atTest = Ok ss0 ->
     FormApp_openById atTest = Ok form0 ->
     SpreadsheetApp_openByUrl s = Ok ss ->
     FormApp_openById s = Ok form ->
     getAllCloudProvidersFromTabs ss = [] ->
     completeSetupV5 atTest s =
     (Failure "Error: Form initialization failed: Error: No valid cloud provider tabs found in spreadsheet",
      Ok form)).
Proof.
  split.
  - intros data left. unfold completeSetupV5, testFormV5.
    destruct (SpreadsheetApp_openByUrl s) as [ss|e1]; [|split; discriminate].
    destruct (FormApp_openById s) as [form|e2]; [|split; discriminate].
    destruct (initializeFormV5 (Ok ss) (Ok form)) as [[d|e] f]; split; intros Heq;
      solve [exact Heq | discriminate].
  - intros atTest ss0 ss form0 form Hss0 Hform0 Hss Hform Hnone.
    unfold completeSetupV5, testFormV5. rewrite Hss0, Hform0, Hss, Hform.
    rewrite (no_provider_tabs_fails ss form Hnone). reflexivity.
Qed.

End CompleteSetup.

(** ** The processor: what is read from the answers *)

Section Answers.

Lemma record_answer_provider (d : SubmissionData) (ir : ItemResponse) :
  selectedCloudProvider (record_answer d ir) =
  selectedCloudProvider d ++ recorded_provider ir.
Proof.
  unfold record_answer, recorded_provider. cbv zeta.
  destruct ir as [t a]. cbn [questionTitle answer].
  destruct (t =? "Full Name of a Padawan") eqn:E1;
    [apply String.eqb_eq in E1; subst t; simpl; now rewrite app_nil_r|].
  destruct (t =? "Project Name") eqn:E2;
    [apply String.eqb_eq in E2; subst t; simpl; now rewrite app_nil_r|].
  repeat match goal with |- context [if ?b then _ else _] => destruct b end;
    cbn [selectedCloudProvider set_name set_projectName set_selectedCloudProvider
         set_technologies set_comments];
    rewrite ?app_nil_r; reflexivity.
Qed.

Lemma fold_providers (l : list ItemResponse) :
  forall d,
    selectedCloudProvider (fold_left record_answer l d) =
    selectedCloudProvider d ++ flat_map recorded_provider l.
Proof.
  induction l as [|ir l IH]; intros d; simpl; [now rewrite app_nil_r|].
  now rewrite IH, record_answer_provider, <- app_assoc.
Qed.

Lemma scan_providers (now : Z) (response : FormResponse) :
  selectedCloudProvider (scan now response) =
  flat_map recorded_provider (getItemResponses response).
Proof. unfold scan. now rewrite fold_providers. Qed.

(** X14: the providers in the data that [onFormSubmitV5] returns are the
    truthy answers to the provider-select question and the answers other than
    "Go to Submit" to the next-step questions, each once, in the order in
    which they first appear among the answers. *)
Theorem visited_providers (now : Z) (response : FormResponse) (w : World) :
  let answers := flat_map recorded_provider (getItemResponses response) in
  exists data : SubmissionData,
    fst (onFormSubmitV5 now response w) = Success data /\
    selectedCloudProvider data = first_seen answers /\
    NoDup (selectedCloudProvider data) /\
    forall p, In p (selectedCloudProvider data) <-> In p answers.
Proof.
  intros answers. exists (finish (scan now response)).
  split; [reflexivity|].
  assert (Hsel : selectedCloudProvider (finish (scan now response)) = first_seen answers).
  { unfold finish. cbn [selectedCloudProvider set_summary set_selectedCloudProvider].
    now rewrite dedupe_first_seen, scan_providers. }
  rewrite Hsel. split; [reflexivity|]. split; [apply first_seen_NoDup|].
  intros p. apply first_seen_In.
Qed.








(** The title the builder gives the checkbox question of a provider always
    reaches the technology branch of the processor. *)
Lemma technology_title_branch (P : string) (a : Answer) :
  is_technology_answer {| questionTitle := technology_title P; answer := a |} = true.
Proof.
  unfold is_technology_answer. cbn [questionTitle].
  rewrite !title_not_exact by reflexivity.
  now rewrite title_includes_marker.
Qed.


End Answers.


(** ** The processor: the fields every row carries *)

Section Intake.

Lemma record_answer_name (d : SubmissionData) (ir : ItemResponse) :
  name (record_answer d ir) =
  if questionTitle ir =? "Full Name of a Padawan" then or_empty (answer ir) else name d.
Proof.
  unfold record_answer. cbv zeta.
  repeat match goal with |- context [if ?b then _ else _] => destruct b end; reflexivity.
Qed.

Lemma record_answer_projectName (d : SubmissionData) (ir : ItemResponse) :
  projectName (record_answer d ir) =
  if questionTitle ir =? "Project Name" then or_empty (answer ir) else projectName d.
Proof.
  unfold record_answer. cbv zeta. destruct ir as [t a]. cbn [questionTitle answer].
  destruct (t =? "Full Name of a Padawan") eqn:E1;
    [apply String.eqb_eq in E1; subst t; reflexivity|].
  repeat match goal with |- context [if ?b then _ else _] => destruct b end; reflexivity.
Qed.

Lemma record_answer_comments (d : SubmissionData) (ir : ItemResponse) :
  comments (record_answer d ir) =
  if is_comments_answer ir then or_empty (answer ir) else comments d.
Proof.
  unfold record_answer, is_comments_answer. cbv zeta.
  destruct ir as [t a]. cbn [questionTitle answer].
  destruct (t =? "Full Name of a Padawan") eqn:E1;
    [apply String.eqb_eq in E1; subst t; reflexivity|].
  destruct (t =? "Project Name") eqn:E2;
    [apply String.eqb_eq in E2; subst t; reflexivity|].
  destruct (t =? "Choose Your Cloud Provider") eqn:E3;
    [apply String.eqb_eq in E3; subst t; destruct (truthy a); reflexivity|].
  destruct (t =? "Next step") eqn:E4;
    [apply String.eqb_eq in E4; subst t;
     destruct (truthy a && strict_neq a "Go to Submit"); reflexivity|].
  destruct (includes t "Technology Experience"); [reflexivity|].
  destruct (includes t "Additional Comments"); reflexivity.
Qed.

Lemma record_answer_fixed (d : SubmissionData) (ir : ItemResponse) :
  timestamp (record_answer d ir) = timestamp d /\ email (record_answer d ir) = email d.
Proof.
  unfold record_answer. cbv zeta.
  repeat match goal with |- context [if ?b then _ else _] => destruct b end; split; reflexivity.
Qed.

Lemma fold_field {F : Type} (field : SubmissionData -> F) (p : ItemResponse -> bool)
    (v : ItemResponse -> F) :
  (forall d ir, field (record_answer d ir) = if p ir then v ir else field d) ->
  forall l d,
    field (fold_left record_answer l d) =
    match find p (rev l) with
    | Some ir => v ir
    | None => field d
    end.
Proof.
  intros Hstep l. induction l as [|ir l IH] using rev_ind; intros d; [reflexivity|].
  rewrite fold_left_app, rev_app_distr. cbn [fold_left rev app find].
  rewrite Hstep. destruct (p ir); [reflexivity | apply IH].
Qed.

Lemma fold_fixed (l : list ItemResponse) :
  forall d,
    timestamp (fold_left record_answer l d) = timestamp d /\
    email (fold_left record_answer l d) = email d.
Proof.
  induction l as [|ir l IH]; intros d; simpl; [now split|].
  destruct (IH (record_answer d ir)) as [Ht He].
  destruct (record_answer_fixed d ir) as [Ht' He']. split; congruence.
Qed.

Lemma cloud_rows_fields (d : SubmissionData) (clouds : list string) :
  Forall (fun row =>
            row_timestamp row = timestamp d /\ row_email row = email d /\
            row_name row = name d /\ row_projectName row = projectName d /\
            row_comments row = comments d)
         (cloud_rows d clouds).
Proof.
  induction clouds as [|c cs IH]; simpl; [constructor|].
  destruct (techList_of (technologies d) c); constructor; [repeat split | exact IH].
Qed.

(** X16: every row of a run carries the time of the run, the respondent's
    email and the intake answers of the response: for the name and the
    project name the last answer given to the question of that title, for the
    comments the last answer to a question whose title contains "Additional
    Comments" (and not "Technology Experience"); each is the empty string
    when there is no such answer or the answer is empty. *)
Theorem rows_carry_intake_answers (now : Z) (response : FormResponse) :
  let irs := getItemResponses response in
  Forall (fun row =>
            row_timestamp row = now /\
            row_email row = getRespondentEmail response /\
            row_name row =
              last_answer (fun ir => questionTitle ir =? "Full Name of a Padawan") irs /\
            row_projectName row =
              last_answer (fun ir => questionTitle ir =? "Project Name") irs /\
            row_comments row = last_answer is_comments_answer irs)
         (process now response).
Proof.
  intros irs. rewrite process_rows.
  set (d := scan now response).
  assert (Hfixed : timestamp d = now /\ email d = getRespondentEmail response).
  { unfold d, scan. apply fold_fixed. }
  assert (Hname : name d =
            last_answer (fun ir => questionTitle ir =? "Full Name of a Padawan") irs).
  { unfold d, scan, last_answer.
    rewrite (fold_field name _ (fun ir => or_empty (answer ir)) record_answer_name).
    reflexivity. }
  assert (Hproject : projectName d =
            last_answer (fun ir => questionTitle ir =? "Project Name") irs).
  { unfold d, scan, last_answer.
    rewrite (fold_field projectName _ (fun ir => or_empty (answer ir))
               record_answer_projectName).
    reflexivity. }
  assert (Hcomments : comments d = last_answer is_comments_answer irs).
  { unfold d, scan, last_answer.
    rewrite (fold_field comments _ (fun ir => or_empty (answer ir)) record_answer_comments).
    reflexivity. }
  destruct Hfixed as [Ht He].
  rewrite <- Ht, <- He, <- Hname, <- Hproject, <- Hcomments.
  unfold rows_of.
  destruct (selectedCloudProvider (finish d)) as [|c cs].
  - constructor; [repeat split | constructor].
  - apply (cloud_rows_fields (finish d)).
Qed.

End Intake.

(** ** The processor: the spreadsheet across runs *)

Section Appending.

Lemma find_other_append_to (ts : list (string * list Row)) (name other : string) (row : Row) :
  other <> name ->
  option_map snd (find (fun t => fst t =? other) (append_to ts name row)) =
  option_map snd (find (fun t => fst t =? other) ts).
Proof.
  intros Hne. induction ts as [|[n rows] ts IH]; simpl; [reflexivity|].
  destruct (n =? name) eqn:E; simpl.
  - apply String.eqb_eq in E. subst n.
    replace (name =? other) with false; [reflexivity|].
    symmetry. apply String.eqb_neq. congruence.
  - destruct (n =? other); [reflexivity | exact IH].
Qed.

Lemma other_appendRow (w : World) (row : Row) (other : string) :
  other <> RESPONSES_SHEET ->
  getSheetByName (appendRow w row) other = getSheetByName w other.
Proof. intros Hne. now apply find_other_append_to. Qed.

Lemma other_insertSheet (w : World) (name other : string) :
  other <> name ->
  getSheetByName (insertSheet w name) other = getSheetByName w other.
Proof.
  intros Hne. unfold getSheetByName, insertSheet. cbn [tabs].
  induction (tabs w) as [|[n rows] ts IH]; simpl.
  - replace (name =? other) with false; [reflexivity|].
    symmetry. apply String.eqb_neq. congruence.
  - destruct (n =? other); [reflexivity | exact IH].
Qed.

Lemma other_write_clouds (d : SubmissionData) (clouds : list string) (other : string) :
  other <> RESPONSES_SHEET ->
  forall w, getSheetByName (snd (write_clouds d clouds w)) other = getSheetByName w other.
Proof.
  intros Hne. induction clouds as [|c cs IH]; intros w; simpl; [reflexivity|].
  destruct (techList_of (technologies d) c); [|reflexivity].
  rewrite IH. now apply other_appendRow.
Qed.

Lemma other_saveSubmissionV5 (d : SubmissionData) (w : World) (other : string) :
  other <> RESPONSES_SHEET ->
  getSheetByName (saveSubmissionV5 d w) other = getSheetByName w other.
Proof.
  intros Hne. unfold saveSubmissionV5.
  set (w1 := match getSheetByName w RESPONSES_SHEET with
             | Some _ => w
             | None => appendRow (insertSheet w RESPONSES_SHEET) (Headers headers)
             end).
  assert (Hw1 : getSheetByName w1 other = getSheetByName w other).
  { subst w1. destruct (getSheetByName w RESPONSES_SHEET); [reflexivity|].
    rewrite (other_appendRow _ _ _ Hne). now apply other_insertSheet. }
  destruct (List.length (selectedCloudProvider d) =? 0)%nat.
  - rewrite (other_appendRow _ _ _ Hne). exact Hw1.
  - pose proof (other_write_clouds d (selectedCloudProvider d) other Hne w1) as Hwr.
    destruct (write_clouds d (selectedCloudProvider d) w1) as [[u|e] w2];
      rewrite get_console; cbn [snd] in Hwr; congruence.
Qed.

Lemma other_onFormSubmitV5 (now : Z) (response : FormResponse) (w : World) (other : string) :
  other <> RESPONSES_SHEET ->
  getSheetByName (snd (onFormSubmitV5 now response w)) other = getSheetByName w other.
Proof.
  intros Hne. unfold onFormSubmitV5. cbn [snd].
  rewrite (other_saveSubmissionV5 _ _ _ Hne). reflexivity.
Qed.

(** X17: runs only append.  After two submissions, whatever the spreadsheet
    held, the responses tab holds the rows it had (the header row when the
    first run had to create the tab), then the rows of the first response,
    then those of the second: the header is written once, and the rows of a
    response do not depend on what the tab already holds.  No other tab is
    changed. *)
Theorem two_submissions_append (now1 now2 : Z) (response1 response2 : FormResponse)
    (w : World) :
  let w1 := snd (onFormSubmitV5 now1 response1 w) in
  let w2 := snd (onFormSubmitV5 now2 response2 w1) in
  getSheetByName w2 RESPONSES_SHEET =
    Some (base_rows w ++ map Data (process now1 response1)
                      ++ map Data (process now2 response2)) /\
  forall other, other <> RESPONSES_SHEET -> getSheetByName w2 other = getSheetByName w other.
Proof.
  intros w1 w2. split.
  - destruct (onFormSubmitV5_appends now1 response1 w) as [H1 _].
    destruct (onFormSubmitV5_appends now2 response2 w1) as [H2 _].
    fold w1 in H1. fold w2 in H2. rewrite H2. unfold base_rows at 1. rewrite H1.
    now rewrite <- app_assoc.
  - intros other Hne. unfold w2.
    rewrite (other_onFormSubmitV5 _ _ _ _ Hne). unfold w1.
    now apply other_onFormSubmitV5.
Qed.

Lemma console_write_clouds (d : SubmissionData) (clouds : list string) :
  forall w, console (snd (write_clouds d clouds w)) = console w.
Proof.
  induction clouds as [|c cs IH]; intros w; simpl; [reflexivity|].
  destruct (techList_of (technologies d) c); [|reflexivity].
  now rewrite IH.
Qed.

Lemma write_clouds_throws (d : SubmissionData) (before after : list string)
    (bad e : string) :
  Forall (fun c => exists l, techList_of (technologies d) c = Ok l) before ->
  techList_of (technologies d) bad = Throw e ->
  forall w, fst (write_clouds d (before ++ bad :: after) w) = Throw e.
Proof.
  intros Hbefore Hbad. induction Hbefore as [|c cs [l Hl] _ IH]; intros w; simpl.
  - now rewrite Hbad.
  - rewrite Hl. apply IH.
Qed.

Lemma cloud_rows_stop (d : SubmissionData) (before after : list string) (bad e : string) :
  techList_of (technologies d) bad = Throw e ->
  cloud_rows d (before ++ bad :: after) = cloud_rows d before.
Proof.
  intros Hbad. induction before as [|c cs IH]; simpl.
  - now rewrite Hbad.
  - destruct (techList_of (technologies d) c); [now rewrite IH | reflexivity].
Qed.

(** X18: the write is not atomic.  When the technology list of a visited
    provider cannot be read (its name is found along the prototype chain of
    the technologies object), the rows of the providers before it stay
    written, its own row and the rows of the providers after it are lost,
    [saveSubmissionV5] logs the error, and [onFormSubmitV5] still reports
    success. *)
Theorem unreadable_provider_cuts_the_write (now : Z) (response : FormResponse) (w : World)
    (before after : list string) (bad e : string) :
  let data := finish (scan now response) in
  selectedCloudProvider data = before ++ bad :: after ->
  Forall (fun c => exists l, techList_of (technologies data) c = Ok l) before ->
  techList_of (technologies data) bad = Throw e ->
  map row_cloud (process now response) = before /\
  fst (onFormSubmitV5 now response w) = Success data /\
  console (snd (onFormSubmitV5 now response w)) =
    console w ++
    [ log "=== PROCESSING FORM SUBMISSION V5 ===";
      log_submission (name data) (projectName data)
        (selectedCloudProvider (scan now response))
        (tech_get (technologies data) "length");
      error "Error saving submission V5:" e ].
Proof.
  intros data Hsel Hbefore Hbad. split; [|split; [reflexivity|]].
  - rewrite process_rows. fold data. unfold rows_of. rewrite Hsel.
    destruct (before ++ bad :: after) as [|c cs] eqn:El.
    { destruct before; discriminate. }
    rewrite <- El, (cloud_rows_stop data before after bad e Hbad).
    now apply cloud_rows_clouds.
  - unfold onFormSubmitV5. cbn [snd]. fold data.
    unfold saveSubmissionV5. rewrite Hsel.
    replace (List.length (before ++ bad :: after) =? 0)%nat with false
      by (destruct before; reflexivity).
    match goal with
    | |- context [write_clouds data (before ++ bad :: after) ?w0] => set (w1 := w0)
    end.
    pose proof (write_clouds_throws data before after bad e Hbefore Hbad w1) as Hthrow.
    pose proof (console_write_clouds data (before ++ bad :: after) w1) as Hconsole.
    destruct (write_clouds data (before ++ bad :: after) w1) as [[u|e'] w2];
      cbn [fst snd] in Hthrow, Hconsole; [discriminate|].
    inversion Hthrow; subst e'. unfold console_ at 1. cbn [console].
    rewrite Hconsole. subst w1.
    destruct (getSheetByName _ RESPONSES_SHEET); cbn [console console_ appendRow insertSheet];
      now rewrite <- !app_assoc.
Qed.

End Appending.

Lemma unreadable_provider_cuts_the_write_witness :
  let response :=
    {| getItemResponses :=
         [ {| questionTitle := "Choose Your Cloud Provider"; answer := Text "AWS" |};
           {| questionTitle := "AWS Technology Experience"; answer := Items ["EC2"] |};
           {| questionTitle := "Next step"; answer := Text "valueOf" |};
           {| questionTitle := "Next step"; answer := Text "Azure" |};
           {| questionTitle := "Azure Technology Experience"; answer := Items ["VM"] |} ];
       getRespondentEmail := "lead@example.org" |} in
  let e := "TypeError: techList.join is not a function" in
  let data := finish (scan 0 response) in
  map row_cloud (process 0 response) = ["AWS"] /\
  fst (onFormSubmitV5 0 response empty_world) = Success data /\
  console (snd (onFormSubmitV5 0 response empty_world)) =
    console empty_world ++
    [ log "=== PROCESSING FORM SUBMISSION V5 ===";
      log_submission (name data) (projectName data)
        (selectedCloudProvider (scan 0 response))
        (tech_get (technologies data) "length");
      error "Error saving submission V5:" e ].
Proof.
  apply (unreadable_provider_cuts_the_write 0
    {| getItemResponses :=
         [ {| questionTitle := "Choose Your Cloud Provider"; answer := Text "AWS" |};
           {| questionTitle := "AWS Technology Experience"; answer := Items ["EC2"] |};
           {| questionTitle := "Next step"; answer := Text "valueOf" |};
           {| questionTitle := "Next step"; answer := Text "Azure" |};
           {| questionTitle := "Azure Technology Experience"; answer := Items ["VM"] |} ];
       getRespondentEmail := "lead@example.org" |}
    empty_world ["AWS"] ["Azure"] "valueOf" "TypeError: techList.join is not a function").
  - reflexivity.
  - apply Forall_cons; [eexists; reflexivity | apply Forall_nil].
  - reflexivity.
Defined.

(** ** The processor: when nothing is written *)

Section Lost.

(** X19: a submission leaves no row at all exactly when the first provider it
    visited is one whose technology list cannot be read; in every other case
    at least one row is written. *)
Theorem submission_lost_exactly_when (now : Z) (response : FormResponse) :
  process now response = [] <->
  exists (c : string) (rest : list string) (e : string),
    visited now response = c :: rest /\
    techList_of (technologies (scan now response)) c = Throw e.
Proof.
  rewrite process_rows. unfold rows_of, visited.
  change (selectedCloudProvider (finish (scan now response)))
    with (dedupe (selectedCloudProvider (scan now response))).
  destruct (dedupe (selectedCloudProvider (scan now response))) as [|c cs].
  - split; [discriminate | intros [c [rest [e [Hv _]]]]; discriminate].
  - cbn [cloud_rows].
    change (technologies (finish (scan now response)))
      with (technologies (scan now response)).
    destruct (techList_of (technologies (scan now response)) c) as [l|e] eqn:El.
    + split; [discriminate|]. intros [c' [rest [e [Hv He]]]].
      inversion Hv; subst. congruence.
    + split; [|reflexivity]. intros _. exists c, cs, e. now split.
Qed.

End Lost.

(** ** The two halves together *)

Section Agreement.

Lemma provider_items_required (fp : option nat) (es : list (string * list string)) :
  forall m,
    map title (filter required (provider_items m es fp)) =
    repeat "Next step" (List.length es).
Proof.
  induction es as [|[P T] es IH]; intros m; [reflexivity|].
  cbn [provider_items filter required item map title List.length repeat].
  now rewrite IH.
Qed.

(** X20: the questions the built form requires an answer to are the name, the
    project name, the provider select and the "Next step" question of every
    provider page; the check-box questions and the comments are optional. *)
Theorem required_questions (catalog : obj (list string)) (form : Form) :
  well_formed catalog ->
  map title (filter required (items (snd (build catalog form)))) =
  ["Full Name of a Padawan"; "Project Name"; "Choose Your Cloud Provider"] ++
  repeat "Next step" (List.length (Object_keys catalog)).
Proof.
  intros Hwf. rewrite (build_run catalog form Hwf). cbn [snd items with_items].
  unfold expected_items. rewrite !filter_app, !map_app, provider_items_required.
  cbn [welcome_items selection_items final_items filter required item map title app].
  rewrite app_nil_r.
  rewrite <- (entries_providers catalog) at 2. now rewrite length_map.
Qed.

Lemma provider_items_recognized (fp : option nat) (es : list (string * list string)) :
  forall m,
    Forall (fun it =>
              match itemType it with
              | SECTION_HEADER | PAGE_BREAK => True
              | CHECKBOX =>
                  forall a, is_technology_answer
                              {| questionTitle := title it; answer := a |} = true
              | _ => unmatched (title it) = false
              end)
           (provider_items m es fp).
Proof.
  induction es as [|[P T] es IH]; intros m; [constructor|].
  cbn [provider_items]. repeat constructor.
  - cbn [itemType item title]. intros a. apply technology_title_branch.
  - apply IH.
Qed.

(** X21: the processor reads every question the builder creates.  The title
    of each check-box question of the built form reaches the branch of
    [onFormSubmitV5] that files technologies, whatever the provider is called,
    and the title of every other question is one that [onFormSubmitV5]
    matches: no answer to the built form is ignored. *)
Theorem built_questions_are_recognized (catalog : obj (list string)) (form : Form) :
  well_formed catalog ->
  Forall (fun it =>
            match itemType it with
            | SECTION_HEADER | PAGE_BREAK => True
            | CHECKBOX =>
                forall a, is_technology_answer
                            {| questionTitle := title it; answer := a |} = true
            | _ => unmatched (title it) = false
            end)
         (items (snd (build catalog form))).
Proof.
  intros Hwf. rewrite (build_run catalog form Hwf). cbn [snd items with_items].
  unfold expected_items. repeat (apply Forall_app; split).
  - repeat constructor.
  - repeat constructor.
  - apply provider_items_recognized.
  - repeat constructor.
Qed.

End Agreement.

Lemma required_questions_witness :
  map title (filter required (items (snd (build example_catalog example_form)))) =
  ["Full Name of a Padawan"; "Project Name"; "Choose Your Cloud Provider"] ++
  repeat "Next step" (List.length (Object_keys example_catalog)).
Proof.
  apply (required_questions example_catalog example_form).
  split; [repeat constructor; simpl; intuition discriminate | simpl; intuition discriminate].
Defined.

Lemma built_questions_are_recognized_witness :
  Forall (fun it =>
            match itemType it with
            | SECTION_HEADER | PAGE_BREAK => True
            | CHECKBOX =>
                forall a, is_technology_answer
                            {| questionTitle := title it; answer := a |} = true
            | _ => unmatched (title it) = false
            end)
         (items (snd (build example_catalog example_form))).
Proof.
  apply (built_questions_are_recognized example_catalog example_form).
  split; [repeat constructor; simpl; intuition discriminate | simpl; intuition discriminate].
Defined.
